(** * Ship Ship Hooray: shipping-rate computation and status resolution

    A shallow embedding of [server.js] (both server variants found in the
    repository: the two-hop PreProduct variant and the single-hop GraphQL
    batch variant) together with the properties of its rate engine, status
    resolver and cache invalidation listener.

    Modelling conventions.
    - JavaScript numbers are IEEE 754 binary64 values ([Number.t], the
      [spec_float] of the standard library with precision 53 and maximal
      exponent 1024): [*] and [+=] round to nearest, ties to even, the
      comparisons are those of the standard, and [toString] prints the
      shortest decimal text that reads back as the same value. An
      integer written in a Rocq term stands for the Number that
      [JSON.parse] reads from that integer literal.
    - JavaScript strings are modelled by [string]; [toLowerCase] is the
      ASCII case mapping.
    - The Redis client is a state component: a key/value store with expiry
      seconds, a script of backend faults (one boolean per issued command)
      and the log of the commands issued so far.
    - [async] functions are computations in a state-and-exception monad;
      local variables that are mutated inside a [try] block live in the
      state so that a mutation survives a later [throw].
    - Remote services are oracles of an environment record.
    - The cache holds the texts that the server itself wrote with
      [JSON.stringify] on a boolean; a text that is neither [true] nor
      [false] reads as a miss.
    - The webhook listener reads [req.body] as the global
      [express.json()] middleware left it: that middleware is installed
      before the route, so the route's own [express.raw] finds the body
      already parsed and leaves it alone. [req.body] is a JSON value, or
      [undefined]; it is never a Buffer. The HMAC, the base64 decoder
      and [JSON.parse] on the text of a notification are parameters of
      the runtime.
    - Line items carry a variant id, a price and a quantity, both
      Numbers; product type and title are optional. *)

From Stdlib Require Import ZArith String Ascii List Bool Lia Permutation SpecFloat.
From stdpp Require Import base gmap strings list pretty.

Local Open Scope string_scope.
Local Open Scope list_scope.
Local Open Scope Z_scope.

(** ** JavaScript Numbers *)

Module Number.

(** A JavaScript Number: an IEEE 754 binary64 value. *)
Definition t : Type := spec_float.

Definition prec : Z := 53.
Definition emax : Z := 1024.

Definition zero : t := S754_zero false.

(** The Number nearest to an integer, ties to even: what [JSON.parse]
    reads from an integer literal. *)
Definition of_Z (z : Z) : t := binary_normalize prec emax z 0 false.

(** [x + y], [x * y] and [x / y]. *)
Definition add (x y : t) : t := SFadd prec emax x y.
Definition mul (x y : t) : t := SFmul prec emax x y.
Definition div (x y : t) : t := SFdiv prec emax x y.

(** [x > y] and [x >= y]; both are false when an operand is NaN. *)
Definition gt (x y : t) : bool := SFltb y x.
Definition ge (x y : t) : bool := SFleb y x.

(** The integer part of a finite Number, towards zero; 0 for NaN and
    the infinities. *)
Definition to_Z (x : t) : Z :=
  match x with
  | S754_finite s m e =>
      let a := if 0 <=? e then Zpos m * 2 ^ e else Zpos m / 2 ^ (- e) in
      if s then - a else a
  | _ => 0
  end.

(** The number of binary digits of a positive integer. *)
Definition bits (z : Z) : Z := Z.log2 z + 1.

Definition zeros (n : Z) : string :=
  Nat.iter (Z.to_nat n) (fun s => String "0" s) "".

Definition take_chars (n : Z) (s : string) : string := substring 0 (Z.to_nat n) s.

Definition skip_chars (n : Z) (s : string) : string :=
  substring (Z.to_nat n) (String.length s - Z.to_nat n) s.

(** The last steps of Number::toString: the decimal digits of [s] and
    the exponent [n] laid out as an integer, with a decimal point, or in
    exponent form. *)
Definition layout (s n : Z) : string :=
  let ds := pretty s in
  let k := Z.of_nat (String.length ds) in
  if (k <=? n) && (n <=? 21) then ds +:+ zeros (n - k)
  else if (0 <? n) && (n <=? 21) then take_chars n ds +:+ "." +:+ skip_chars n ds
  else if (-6 <? n) && (n <=? 0) then "0." +:+ zeros (- n) +:+ ds
  else
    let e := n - 1 in
    let sign := if e <? 0 then "-" else "+" in
    if k =? 1 then ds +:+ "e" +:+ sign +:+ pretty (Z.abs e)
    else take_chars 1 ds +:+ "." +:+ skip_chars 1 ds +:+ "e" +:+ sign +:+ pretty (Z.abs e).

(** Among the multiples [s * 10^p], [1 <= s], that round to the Number
    [m * 2^e], the one closest to it (the even one of two), if there is
    any. The Number and the two ends of the interval of the reals that
    round to it are [x], [low] and [high] in units of [2^(e-2)]; the
    ends belong to the interval when [m] is even. *)
Definition closest_multiple (m e p : Z) : option Z :=
  let q := e - 2 in
  let x := 4 * m in
  let high := 4 * m + 2 in
  let low :=
    if (m =? 2 ^ (prec - 1)) && (3 - emax - prec <? e) then 4 * m - 1 else 4 * m - 2 in
  let u := 10 ^ Z.max p 0 * 2 ^ Z.max (- q) 0 in
  let w := 2 ^ Z.max q 0 * 10 ^ Z.max (- p) 0 in
  let closed := Z.even m in
  let smin := if closed then (low * w + u - 1) / u else low * w / u + 1 in
  let smax := if closed then high * w / u else (high * w + u - 1) / u - 1 in
  let smin := Z.max smin 1 in
  if smin <=? smax then
    let d := x * w / u in
    let r := x * w mod u in
    let nearest :=
      match 2 * r ?= u with
      | Lt => d
      | Gt => d + 1
      | Eq => if Z.even d then d else d + 1
      end in
    Some (Z.min smax (Z.max smin nearest))
  else None.

(** The largest [p] at or below the given one for which a multiple of
    [10^p] rounds to the Number, with that multiple: the fewest digits. *)
Fixpoint shortest (fuel : nat) (m e p : Z) : Z * Z :=
  match closest_multiple m e p with
  | Some s => (s, p)
  | None =>
      match fuel with
      | O => (0, p)
      | S fuel' => shortest fuel' m e (p - 1)
      end
  end.

(** Number::toString(x) with radix 10: the digits [s] are the fewest
    that read back as [x], the closest to [x] among those. The search
    starts above the decimal exponent of [x]. *)
Definition toString (x : t) : string :=
  match x with
  | S754_nan => "NaN"
  | S754_zero _ => "0"
  | S754_infinity false => "Infinity"
  | S754_infinity true => "-Infinity"
  | S754_finite sign m e =>
      let bits := Z.log2 (Zpos m) + 1 + e in
      let '(s, p) := shortest 40 (Zpos m) e (bits * 30103 / 100000 + 3) in
      let n := Z.of_nat (String.length (pretty s)) + p in
      (if sign then "-" else "") +:+ layout s n
  end.

End Number.

(** An integer literal in a term is the Number read from it. *)
Coercion Number.of_Z : Z >-> Number.t.

(** ** JavaScript runtime pieces used by the server *)

Module Js.

(** Identifiers arrive either as JSON numbers or as JSON strings. *)
Inductive Id : Type :=
  | IdNum (n : Z)
  | IdStr (s : string).

(** [Number.prototype.toString] on the Number read from an integer
    literal. *)
Definition Number_toString (n : Z) : string := Number.toString (Number.of_Z n).

(** [x.toString()] on an identifier. *)
Definition toString (i : Id) : string :=
  match i with
  | IdNum n => Number_toString n
  | IdStr s => s
  end.

Definition lower_ascii (c : ascii) : ascii :=
  let n := nat_of_ascii c in
  if (Nat.leb 65 n && Nat.leb n 90)%bool then ascii_of_nat (n + 32)%nat else c.

(** [String.prototype.toLowerCase], ASCII letters only. *)
Fixpoint toLowerCase (s : string) : string :=
  match s with
  | EmptyString => EmptyString
  | String c s' => String (lower_ascii c) (toLowerCase s')
  end.

(** [s.includes(pat)]. *)
Fixpoint includes (s pat : string) : bool :=
  String.prefix pat s ||
  match s with
  | EmptyString => false
  | String _ s' => includes s' pat
  end.

Fixpoint drop_chars (n : nat) (s : string) : string :=
  match n, s with
  | O, _ => s
  | S n', String _ s' => drop_chars n' s'
  | S _, EmptyString => EmptyString
  end.

(** [s.replace(pat, rep)] with a string pattern: the first occurrence only. *)
Fixpoint replace (s pat rep : string) : string :=
  if String.prefix pat s then rep +:+ drop_chars (String.length pat) s
  else match s with
       | EmptyString => EmptyString
       | String c s' => String c (replace s' pat rep)
       end.

(** [JSON.stringify] on a boolean. *)
Definition JSON_stringify (b : bool) : string :=
  if b then "true" else "false".

(** Outcome of an evaluation that may [throw]. *)
Inductive result (A : Type) : Type :=
  | Ok (a : A)
  | Throw (e : string).
Arguments Ok {A} a.
Arguments Throw {A} e.

(** [JSON.parse] on a cached status: the cache holds what
    [JSON.stringify] wrote for a boolean; the text [null] parses to
    [null]; any other text is a [SyntaxError]. *)
Definition JSON_parse (s : string) : result (option bool) :=
  if String.eqb s "true" then Ok (Some true)
  else if String.eqb s "false" then Ok (Some false)
  else if String.eqb s "null" then Ok None
  else Throw "SyntaxError".

(** A JSON value, as [JSON.parse] builds it. *)
#[warnings="-register-all"] Inductive Json : Type :=
  | JNull
  | JBool (b : bool)
  | JNumber (n : Number.t)
  | JString (s : string)
  | JArray (elements : list Json)
  | JObject (members : list (string * Json)).

(** The own property [key] of a parsed object: of two members with the
    same key the later one counts. *)
Fixpoint Json_member (key : string) (members : list (string * Json)) : option Json :=
  match members with
  | [] => None
  | (k, v) :: rest =>
      match Json_member key rest with
      | Some v' => Some v'
      | None => if String.eqb k key then Some v else None
      end
  end.

(** [ToString(v)]: an array is joined with commas, [null] elements
    giving the empty text; an object gives [[object Object]], unless it
    has a member [toString], which is not callable: a [TypeError]. *)
Fixpoint Json_ToString (v : Json) : result string :=
  match v with
  | JNull => Ok "null"
  | JBool b => Ok (if b then "true" else "false")
  | JNumber n => Ok (Number.toString n)
  | JString s => Ok s
  | JArray elements =>
      (fix join (l : list Json) : result string :=
         match l with
         | [] => Ok ""
         | x :: rest =>
             match (match x with JNull => Ok "" | _ => Json_ToString x end) with
             | Throw e => Throw e
             | Ok first =>
                 match rest with
                 | [] => Ok first
                 | _ :: _ =>
                     match join rest with
                     | Throw e => Throw e
                     | Ok others => Ok (first +:+ "," +:+ others)
                     end
                 end
             end
         end) elements
  | JObject members =>
      match Json_member "toString" members with
      | Some _ => Throw "TypeError"
      | None => Ok "[object Object]"
      end
  end.

(** [v.toString()] on a value that may be [undefined]. *)
Definition Json_toString (v : option Json) : result string :=
  match v with
  | None => Throw "TypeError"
  | Some JNull => Throw "TypeError"
  | Some v => Json_ToString v
  end.

(** [`${v}`] on a value that may be [undefined]. *)
Definition Json_template (v : option Json) : result string :=
  match v with
  | None => Ok "undefined"
  | Some v => Json_ToString v
  end.

(** [v.key] for a key that is neither [length] nor an index: a
    [TypeError] on [null], [undefined] on anything but an object. *)
Definition Json_get (v : Json) (key : string) : result (option Json) :=
  match v with
  | JNull => Throw "TypeError"
  | JObject members => Ok (Json_member key members)
  | _ => Ok None
  end.

(** JavaScript truthiness. *)
Definition Json_truthy (v : option Json) : bool :=
  match v with
  | None => false
  | Some JNull => false
  | Some (JBool b) => b
  | Some (JNumber (S754_zero _)) => false
  | Some (JNumber S754_nan) => false
  | Some (JNumber _) => true
  | Some (JString s) => negb (String.eqb s "")
  | Some (JArray _) => true
  | Some (JObject _) => true
  end.

(** What [for (const x of v)] runs through: the elements of an array,
    the characters of a string; anything else is not iterable. *)
Definition Json_iterate (v : Json) : result (list Json) :=
  match v with
  | JArray elements => Ok elements
  | JString s => Ok (map (fun c => JString (String c EmptyString)) (list_ascii_of_string s))
  | _ => Throw "TypeError"
  end.

(** State-and-exception monad: the state survives a [throw]. *)
Definition M (S A : Type) : Type := S -> result A * S.

Definition ret {S A} (a : A) : M S A := fun s => (Ok a, s).

Definition bind {S A B} (m : M S A) (k : A -> M S B) : M S B :=
  fun s =>
    match m s with
    | (Ok a, s') => k a s'
    | (Throw e, s') => (Throw e, s')
    end.

Definition throw {S A} (e : string) : M S A := fun s => (Throw e, s).

(** [try { m } catch (error) { h }]. *)
Definition try_catch {S A} (m : M S A) (h : string -> M S A) : M S A :=
  fun s =>
    match m s with
    | (Ok a, s') => (Ok a, s')
    | (Throw e, s') => h e s'
    end.

Definition lift_result {S A} (x : result A) : M S A := fun s => (x, s).

(** [for (const x of l) { body }]. *)
Fixpoint for_of {S A} (l : list A) (body : A -> M S unit) : M S unit :=
  match l with
  | [] => ret tt
  | x :: l' => bind (body x) (fun _ => for_of l' body)
  end.

End Js.

Export Js.

Notation "x <- m ;; k" := (bind m (fun x => k))
  (at level 100, m at next level, right associativity).
Notation "m ;;; k" := (bind m (fun _ => k))
  (at level 100, right associativity).

(** ** The Redis client *)

Inductive RedisCmd : Type :=
  | GET (key : string)
  | SETEX (key : string) (seconds : Z) (value : string)
  | DEL (key : string).

Record Redis : Type := mkRedis {
  store : gmap string (Z * string);
  faults : list bool;
  log : list RedisCmd
}.

(** Computations of an [async] function without mutable locals. *)
Definition IO (A : Type) : Type := M Redis A.

(** Issue one command: it is logged, consumes one entry of the fault
    script and, unless that entry is [true], runs against the store. *)
Definition redis_call {A} (cmd : RedisCmd)
    (run : gmap string (Z * string) -> A * gmap string (Z * string)) : IO A :=
  fun r =>
    match faults r with
    | true :: fs => (Throw "Redis error", mkRedis (store r) fs (log r ++ [cmd]))
    | false :: fs =>
        let (a, st) := run (store r) in (Ok a, mkRedis st fs (log r ++ [cmd]))
    | [] =>
        let (a, st) := run (store r) in (Ok a, mkRedis st [] (log r ++ [cmd]))
    end.

Definition redis_get (key : string) : IO (option string) :=
  redis_call (GET key) (fun st => (snd <$> st !! key, st)).

Definition redis_setEx (key : string) (seconds : Z) (value : string) : IO unit :=
  redis_call (SETEX key seconds value) (fun st => (tt, <[key := (seconds, value)]> st)).

Definition redis_del (key : string) : IO unit :=
  redis_call (DEL key) (fun st => (tt, delete key st)).

(** Computations of a function with mutable locals of type [L]. *)
Definition liftIO {L A} (m : IO A) : M (L * Redis) A :=
  fun s => let (a, r') := m (snd s) in (a, (fst s, r')).

Definition locals {L} : M (L * Redis) L := fun s => (Ok (fst s), s).

Definition assign {L} (f : L -> L) : M (L * Redis) unit :=
  fun s => (Ok tt, (f (fst s), snd s)).

(** Run a function body from its initial locals and drop them at the end. *)
Definition with_locals {L A} (l0 : L) (m : M (L * Redis) A) : IO A :=
  fun r => let (a, s') := m (l0, r) in (a, snd s').

(** ** Remote services *)

Inductive HttpResponse (A : Type) : Type :=
  mkResponse (ok : bool) (json : option A).
Arguments mkResponse {A} ok json.

Definition response_ok {A} (r : HttpResponse A) : bool :=
  match r with mkResponse ok _ => ok end.

(** [await response.json()]: [None] is a body that is not JSON. *)
Definition response_json {S A} (r : HttpResponse A) : M S A :=
  match r with
  | mkResponse _ (Some a) => ret a
  | mkResponse _ None => throw "invalid json response body"
  end.

(** Outcome of [fetch]: a rejected promise or a response. *)
Inductive Fetch (A : Type) : Type :=
  | NetworkError
  | Responded (r : HttpResponse A).
Arguments NetworkError {A}.
Arguments Responded {A} r.

Definition await_fetch {S A} (f : Fetch A) : M S (HttpResponse A) :=
  match f with
  | NetworkError => throw "FetchError"
  | Responded r => ret r
  end.

(** ** Data model of the rate endpoint *)

Record Item : Type := mkItem {
  variant_id : Id;
  price : Number.t;
  quantity : Number.t;
  product_type : option string;
  title : option string
}.

Record Rate : Type := mkRate { items : option (list Item) }.

Record RequestBody : Type := mkRequestBody { rate : option Rate }.

Record Labels : Type := mkLabels { rts : string; po : string }.

Record AppConfig : Type := mkAppConfig {
  threshold : Number.t;
  feeUnderThreshold : Number.t;
  labels : Labels;
  description : string;
  killSwitch : bool;
  currency : string
}.

Record RateQuote : Type := mkRateQuote {
  service_name : string;
  service_code : string;
  total_price : string;
  rate_currency : string;
  rate_description : string
}.

(** What [res.json(...)] or [res.send(...)] was given. *)
Inductive Body : Type :=
  | JsonBody (error : option string) (rates : option (list RateQuote))
  | TextBody (text : string).

Record Response : Type := mkResponseOut { status : Z; body : Body }.

(** [res.json(x)] answers with status 200 unless [res.status] was called. *)
Definition res_json (error : option string) (rates : option (list RateQuote)) : Response :=
  mkResponseOut 200 (JsonBody error rates).

Definition res_status_json (code : Z) (error : option string)
    (rates : option (list RateQuote)) : Response :=
  mkResponseOut code (JsonBody error rates).

Definition res_status_send (code : Z) (text : string) : Response :=
  mkResponseOut code (TextBody text).

(** Cache TTL (24 hours). *)
Definition CACHE_TTL : Z := 24 * 60 * 60.

(** ** Data model of the product-update webhook *)

Module Webhook.

(** The request as the handler reads it: the [X-Shopify-Hmac-Sha256]
    header, if present, and [req.body]. *)
Record Request : Type := mkRequest {
  hmac : option string;
  body : option Json
}.

(** What the body parsers installed before the route can leave in
    [req.body]: an object or an array ([express.json()] is strict), or
    nothing. *)
Definition left_by_express_json (b : option Json) : Prop :=
  match b with
  | None => True
  | Some (JObject _) => True
  | Some (JArray _) => True
  | Some _ => False
  end.

(** What [verifyWebhook] is given as [data]: a Buffer, or a value that
    is none. *)
Inductive Data : Type :=
  | Buffer (bytes : string)
  | Value (v : option Json).

(** Functions of the Node.js runtime that the listener calls.
    [hmac_sha256 key data] is the digest computed by
    [crypto.createHmac('sha256', key).update(data, 'utf8')];
    [base64_decode] is [Buffer.from(_, 'base64')];
    [JSON_parse_text] is [JSON.parse] on a text, [None] being a
    [SyntaxError]. *)
Record Runtime : Type := mkRuntime {
  hmac_sha256 : string -> string -> list Byte.byte;
  base64_decode : string -> list Byte.byte;
  JSON_parse_text : string -> option Json
}.

(** [JSON.parse(text)]. A text that begins with a bracket and the
    letter o, as [[object Object]] does, is no JSON text, whatever the
    parser is. *)
Definition JSON_parse (rt : Runtime) (text : string) : result Json :=
  if String.prefix "[o" text then Throw "SyntaxError"
  else match JSON_parse_text rt text with
       | Some v => Ok v
       | None => Throw "SyntaxError"
       end.

(** [createHmac(...).update(data, 'utf8').digest()]: [update] takes a
    string or a Buffer and throws on anything else. *)
Definition hmac_update (rt : Runtime) (secret : string) (data : Data)
    : result (list Byte.byte) :=
  match data with
  | Buffer bytes => Ok (hmac_sha256 rt secret bytes)
  | Value (Some (JString s)) => Ok (hmac_sha256 rt secret s)
  | Value _ => Throw "TypeError"
  end.

Definition bytes_eqb (a b : list Byte.byte) : bool :=
  if List.list_eq_dec Byte.byte_eq_dec a b then true else false.

(** [crypto.timingSafeEqual]: a [RangeError] on buffers of different
    byte length. *)
Definition timingSafeEqual (a b : list Byte.byte) : result bool :=
  if Nat.eqb (length a) (length b) then Ok (bytes_eqb a b)
  else Throw "RangeError".

(** Truthiness of an environment variable. *)
Definition env_set (v : option string) : option string :=
  match v with
  | Some EmptyString => None
  | Some s => Some s
  | None => None
  end.

(** [`${variant.id}`]: the text that follows the prefix in the cache
    key of a variant. *)
Definition variant_text (variant : Json) : result string :=
  match Json_get variant "id" with
  | Throw e => Throw e
  | Ok id => Json_template id
  end.

End Webhook.

(** ** Data model of the configuration endpoints *)

Module ConfigBody.

(** The body of [POST /config]: every field may be left out; [labels]
    may give either label or both. *)
Record LabelsPatch : Type := mkLabelsPatch {
  rts : option string;
  po : option string
}.

Record t : Type := mk {
  threshold : option Number.t;
  feeUnderThreshold : option Number.t;
  labels : option LabelsPatch;
  description : option string;
  killSwitch : option bool
}.

End ConfigBody.

Record ConfigResponse : Type := mkConfigResponse {
  success : bool;
  config : AppConfig
}.

Definition set_threshold (v : Number.t) (c : AppConfig) : AppConfig :=
  mkAppConfig v (feeUnderThreshold c) (labels c) (description c) (killSwitch c) (currency c).

Definition set_feeUnderThreshold (v : Number.t) (c : AppConfig) : AppConfig :=
  mkAppConfig (threshold c) v (labels c) (description c) (killSwitch c) (currency c).

Definition set_labels (v : Labels) (c : AppConfig) : AppConfig :=
  mkAppConfig (threshold c) (feeUnderThreshold c) v (description c) (killSwitch c) (currency c).

Definition set_description (v : string) (c : AppConfig) : AppConfig :=
  mkAppConfig (threshold c) (feeUnderThreshold c) (labels c) v (killSwitch c) (currency c).

Definition set_killSwitch (v : bool) (c : AppConfig) : AppConfig :=
  mkAppConfig (threshold c) (feeUnderThreshold c) (labels c) (description c) v (currency c).

(** [{ ...old, ...patch }] on the two labels. *)
Definition spread_labels (old : Labels) (patch : ConfigBody.LabelsPatch) : Labels :=
  mkLabels (default (rts old) (ConfigBody.rts patch))
           (default (po old) (ConfigBody.po patch)).

(** ** Data model of the admin authentication *)

Module Auth.

Record Request : Type := mkRequest {
  path : string;
  authorization : option string
}.

(** What the middleware does: hand over to the next handler, or answer
    401 with a [WWW-Authenticate] header and a text. *)
Inductive Outcome : Type :=
  | Next
  | Denied (status : Z) (www_authenticate : string) (text : string).

(** [s.split(sep)] with a one-character separator. *)
Fixpoint split (sep : ascii) (s : string) : list string :=
  match s with
  | EmptyString => [EmptyString]
  | String c s' =>
      if Ascii.eqb c sep then EmptyString :: split sep s'
      else match split sep s' with
           | h :: t => String c h :: t
           | [] => [String c EmptyString]
           end
  end.

Definition dq : string := String "034"%char EmptyString.

Definition realm : string :=
  "Basic realm=" +:+ dq +:+ "Ship Ship Hooray Admin" +:+ dq.

(** [process.env.X || fallback]. *)
Definition env_or (v : option string) (fallback : string) : string :=
  match v with
  | Some EmptyString => fallback
  | Some s => s
  | None => fallback
  end.

End Auth.

(** ** Data model of the cache administration endpoints *)

Module Admin.

(** Commands that only the administration endpoints issue. *)
Inductive Cmd : Type :=
  | KEYS (pattern : string)
  | DEL_KEYS (keys : list string)
  | INFO (section : string).

(** The Redis client as these endpoints see it: the client of the rate
    path, whether it is connected, and the administration commands
    issued so far. *)
Record Client : Type := mkClient {
  redis : Redis;
  isReady : bool;
  admin_log : list Cmd
}.

(** Redis glob matching with the wildcards [*] and [?]. *)
Fixpoint glob (p : string) : string -> bool :=
  match p with
  | EmptyString => fun s => match s with EmptyString => true | _ => false end
  | String c p' =>
      if Ascii.eqb c "*"%char then
        fix star (s : string) : bool :=
          glob p' s || match s with
                       | EmptyString => false
                       | String _ s' => star s'
                       end
      else fun s =>
        match s with
        | EmptyString => false
        | String d s' => (Ascii.eqb c "?"%char || Ascii.eqb c d) && glob p' s'
        end
  end.

(** The keys of the store that match a pattern. *)
Definition keys_matching (pattern : string) (st : gmap string (Z * string)) : list string :=
  List.filter (glob pattern) (map fst (map_to_list st)).

(** Issue one administration command: logged, one entry of the fault
    script consumed, and unless that entry is [true] run on the store. *)
Definition call {A} (cmd : Cmd)
    (run : gmap string (Z * string) -> A * gmap string (Z * string)) : M Client A :=
  fun c =>
    let r := redis c in
    match faults r with
    | true :: fs =>
        (Throw "Redis error",
         mkClient (mkRedis (store r) fs (log r)) (isReady c) (admin_log c ++ [cmd]))
    | false :: fs =>
        let (a, st) := run (store r) in
        (Ok a, mkClient (mkRedis st fs (log r)) (isReady c) (admin_log c ++ [cmd]))
    | [] =>
        let (a, st) := run (store r) in
        (Ok a, mkClient (mkRedis st [] (log r)) (isReady c) (admin_log c ++ [cmd]))
    end.

Definition redis_keys (pattern : string) : M Client (list string) :=
  call (KEYS pattern) (fun st => (keys_matching pattern st, st)).

(** [redis.del(keys)] with an array of keys: one command. *)
Definition redis_del_keys (keys : list string) : M Client unit :=
  call (DEL_KEYS keys) (fun st => (tt, fold_right (fun k m => delete k m) st keys)).

Definition redis_info (info : string -> string) (section : string) : M Client string :=
  call (INFO section) (fun st => (info section, st)).

Definition ready : M Client bool := fun c => (Ok (isReady c), c).

(** What the administration endpoints answer. *)
Inductive Body : Type :=
  | ErrorBody (error : string)
  | ClearedBody (cleared : nat)
  | StatsBody (redis_connected : bool) (cached_variants : nat) (cache_prefix : string)
      (memory_info : string) (preproduct_api : option string).

Record Response : Type := mkResponse { status : Z; body : Body }.

End Admin.

(** ** Data model of the installation endpoint *)

Module Install.

Record Body : Type := mkBody {
  shop : option string;
  accessToken : option string
}.

(** An answer of the Shopify admin API: the status line, the text of the
    body, and the body as JSON when it is JSON. *)
Record ApiResponse : Type := mkApiResponse {
  ok : bool;
  status : Z;
  text : string;
  json : option string
}.

(** Outcome of [fetch]: a rejected promise with its message, or an answer. *)
Inductive ApiFetch : Type :=
  | Rejected (message : string)
  | Answered (r : ApiResponse).

(** The two registrations, as sent: shop, access token, and the URL
    that Shopify is told to call. *)
Inductive Call : Type :=
  | RegisterCarrierService (shop accessToken callback_url : string)
  | RegisterWebhook (shop accessToken address : string).

Record Env : Type := mkEnv {
  carrier_services : string -> string -> ApiFetch;
  webhooks : string -> string -> ApiFetch
}.

Inductive Answer : Type :=
  | MissingParameters
  | Installed (carrierService : string) (webhook : option string) (message : string)
  | InstallationFailed (details : string).

Record Response : Type := mkResponse { code : Z; answer : Answer }.

(** JavaScript truthiness of an optional string. *)
Definition truthy (v : option string) : option string :=
  match v with
  | Some EmptyString => None
  | Some s => Some s
  | None => None
  end.

(** [`${v}`] on an environment variable. *)
Definition template (v : option string) : string :=
  match v with
  | Some s => s
  | None => "undefined"
  end.

(** Send one request: it is recorded, then the promise settles. *)
Definition send (call : Call) (f : ApiFetch) : M (list Call) ApiResponse :=
  fun calls =>
    match f with
    | Rejected message => (Throw message, calls ++ [call])
    | Answered r => (Ok r, calls ++ [call])
    end.

(** [await response.json()]. *)
Definition response_json (r : ApiResponse) : M (list Call) string :=
  match json r with
  | Some j => ret j
  | None => throw "invalid json response body"
  end.

End Install.

(** ** The two-hop server variant (Shopify variant lookup, then PreProduct) *)

Module TwoHop.

(** [GET /admin/api/2024-07/variants/{id}.json] answers
    [{ variant: { product_id } }]. *)
Record VariantJson : Type := mkVariantJson { product_id : option Z }.
Record VariantData : Type := mkVariantData { variant : option VariantJson }.

(** [GET api.preproduct.io/api/v2/on_preorder/{product}] answers
    [{ on_preorder }]. *)
Record PreProductData : Type := mkPreProductData { on_preorder : option bool }.

Record Env : Type := mkEnv {
  shopify_variant : string -> Fetch VariantData;
  preproduct_on_preorder : Z -> string -> Fetch PreProductData
}.

Definition cacheKey (variantId : string) : string :=
  "preproduct_variant_" +:+ variantId.

Definition getCachedVariantPreOrder (variantId : string) : IO (option bool) :=
  try_catch
    (cached <- redis_get (cacheKey variantId) ;;
     match cached with
     | Some text => lift_result (JSON_parse text)
     | None => ret None
     end)
    (fun _ => ret None).

Definition setCachedVariantPreOrder (variantId : string) (isPreOrder : bool) : IO unit :=
  try_catch
    (redis_setEx (cacheKey variantId) CACHE_TTL (JSON_stringify isPreOrder))
    (fun _ => ret tt).

(** Get product ID from variant ID using Shopify API. *)
Definition getProductIdFromVariant (env : Env) (variantId : string) : IO (option Z) :=
  try_catch
    (response <- await_fetch (shopify_variant env variantId) ;;
     if negb (response_ok response) then throw "Failed to fetch variant"
     else
       data <- response_json response ;;
       match variant data with
       | Some v => ret (product_id v)
       | None => throw "TypeError"
       end)
    (fun _ => ret None).

(** Call PreProduct API to check if variant is pre-order. *)
Definition fetchPreProductStatus (env : Env) (productId : Z) (variantId : string) : IO bool :=
  try_catch
    (response <- await_fetch (preproduct_on_preorder env productId variantId) ;;
     if negb (response_ok response) then throw "PreProduct API failed"
     else
       data <- response_json response ;;
       ret (default false (on_preorder data)))
    (fun _ => ret false).

(** Locals of [getVariantPreOrderStatus]. *)
Record Locals : Type := mkLocals {
  results : gmap string bool;
  uncachedVariants : list string
}.

Definition results_set (k : string) (v : bool) (l : Locals) : Locals :=
  mkLocals (<[k := v]> (results l)) (uncachedVariants l).

Definition uncachedVariants_push (k : string) (l : Locals) : Locals :=
  mkLocals (results l) (uncachedVariants l ++ [k]).

(** JavaScript truthiness of a product id. *)
Definition truthy_id (productId : option Z) : option Z :=
  match productId with
  | Some p => if Z.eqb p 0 then None else Some p
  | None => None
  end.

Definition check_cache (variantId : string) : M (Locals * Redis) unit :=
  cached <- liftIO (getCachedVariantPreOrder variantId) ;;
  match cached with
  | Some c => assign (results_set variantId c)
  | None => assign (uncachedVariants_push variantId)
  end.

Definition resolve_uncached (env : Env) (variantId : string) : M (Locals * Redis) unit :=
  try_catch
    (productId <- liftIO (getProductIdFromVariant env variantId) ;;
     match truthy_id productId with
     | Some p =>
         isPreOrder <- liftIO (fetchPreProductStatus env p variantId) ;;
         assign (results_set variantId isPreOrder) ;;;
         liftIO (setCachedVariantPreOrder variantId isPreOrder)
     | None =>
         assign (results_set variantId false) ;;;
         liftIO (setCachedVariantPreOrder variantId false)
     end)
    (fun _ => assign (results_set variantId false)).

Definition getVariantPreOrderStatus (env : Env) (variantIds : list string)
    : IO (gmap string bool) :=
  with_locals (mkLocals ∅ [])
    (for_of variantIds check_cache ;;;
     l <- locals ;;
     for_of (uncachedVariants l) (resolve_uncached env) ;;;
     l' <- locals ;;
     ret (results l')).

(** Check for gift cards only. *)
Definition isGiftCard (item : Item) : bool :=
  match product_type item with
  | Some t => String.eqb t "Gift Card"
  | None => false
  end
  ||
  match title item with
  | Some t => includes (toLowerCase t) "gift card"
  | None => false
  end.

(** Calculate subtotals: the pair is [(rtsSubtotal, preorderSubtotal)]. *)
Definition add_item (variantStatuses : gmap string bool) (acc : Number.t * Number.t)
    (item : Item) : Number.t * Number.t :=
  let variantId := toString (variant_id item) in
  let isPreOrder := default false (variantStatuses !! variantId) in
  let extended := Number.mul (price item) (quantity item) in
  if isPreOrder then (fst acc, Number.add (snd acc) extended)
  else (Number.add (fst acc) extended, snd acc).

Definition subtotals (variantStatuses : gmap string bool) (items : list Item)
    : Number.t * Number.t :=
  fold_left (add_item variantStatuses) items (Number.zero, Number.zero).

(** Emit the RTS rate, then the Pre-Order rate. *)
Definition emit_rates (appConfig : AppConfig) (rtsSubtotal preorderSubtotal : Number.t)
    : list RateQuote :=
  let rates : list RateQuote := [] in
  let rates :=
    if Number.gt rtsSubtotal Number.zero then
      let rtsPrice :=
        if Number.ge rtsSubtotal (threshold appConfig) then Number.zero
        else feeUnderThreshold appConfig in
      rates ++ [mkRateQuote (rts (labels appConfig)) "RTS_STD" (Number.toString rtsPrice)
                  (currency appConfig) (description appConfig)]
    else rates in
  let rates :=
    if Number.gt preorderSubtotal Number.zero then
      let poPrice :=
        if Number.ge preorderSubtotal (threshold appConfig) then Number.zero
        else feeUnderThreshold appConfig in
      rates ++ [mkRateQuote (po (labels appConfig)) "PO_STD" (Number.toString poPrice)
                  (currency appConfig) (description appConfig)]
    else rates in
  rates.

(** The part of the handler that runs once the statuses are resolved. *)
Definition calculate_rates (appConfig : AppConfig) (items : list Item)
    (variantStatuses : gmap string bool) : list RateQuote :=
  let (rtsSubtotal, preorderSubtotal) := subtotals variantStatuses items in
  emit_rates appConfig rtsSubtotal preorderSubtotal.

Definition gift_card_rate (appConfig : AppConfig) : RateQuote :=
  mkRateQuote "Free Shipping" "GIFT_CARD_FREE" "0" (currency appConfig)
    "Gift cards ship free".

(** Main shipping rates endpoint: [app.post('/rates', ...)]. *)
Definition post_rates (appConfig : AppConfig) (env : Env) (req_body : RequestBody)
    : IO Response :=
  try_catch
    (if killSwitch appConfig then ret (res_json None (Some []))
     else
       match rate req_body with
       | None => ret (res_status_json 400 (Some "Invalid rate request format") None)
       | Some rate =>
           match items rate with
           | None => ret (res_status_json 400 (Some "Invalid rate request format") None)
           | Some items =>
               if Nat.eqb (length items) 0 then ret (res_json None (Some []))
               else if forallb isGiftCard items then
                 ret (res_json None (Some [gift_card_rate appConfig]))
               else
                 let variantIds := map (fun item => toString (variant_id item)) items in
                 variantStatuses <- getVariantPreOrderStatus env variantIds ;;
                 ret (res_json None (Some (calculate_rates appConfig items variantStatuses)))
           end
       end)
    (fun _ => ret (res_status_json 500 (Some "Rate calculation failed") (Some []))).

Definition verifyWebhook (rt : Webhook.Runtime) (SHOPIFY_WEBHOOK_SECRET : option string)
    (data : Webhook.Data) (hmacHeader : option string) : result bool :=
  match Webhook.env_set SHOPIFY_WEBHOOK_SECRET with
  | None => Ok true
  | Some secret =>
      match Webhook.hmac_update rt secret data with
      | Throw e => Throw e
      | Ok calculated =>
          match hmacHeader with
          | None => Throw "TypeError"
          | Some h => Webhook.timingSafeEqual calculated (Webhook.base64_decode rt h)
          end
      end
  end.

(** The body of the loop over [product.variants]: the cache key is
    built outside the inner [try]. *)
Definition invalidate (variant : Json) : IO unit :=
  text <- lift_result (Webhook.variant_text variant) ;;
  try_catch (redis_del (cacheKey text)) (fun _ => ret tt).

(** Webhook for product updates (to invalidate cache):
    [app.post('/webhook/product-update', ...)]. The last step before
    the answer is the [console.log] whose template prints [product.id]. *)
Definition post_webhook_product_update (rt : Webhook.Runtime)
    (SHOPIFY_WEBHOOK_SECRET : option string) (req : Webhook.Request) : IO Response :=
  try_catch
    (let body := Webhook.body req in
     verified <- lift_result
       (verifyWebhook rt SHOPIFY_WEBHOOK_SECRET (Webhook.Value body) (Webhook.hmac req)) ;;
     if negb verified then ret (res_status_send 401 "Unauthorized")
     else
       text <- lift_result (Json_toString body) ;;
       product <- lift_result (Webhook.JSON_parse rt text) ;;
       variants <- lift_result (Json_get product "variants") ;;
       (if Json_truthy variants then
          vs <- lift_result
                  (match variants with
                   | Some v => Json_iterate v
                   | None => Throw "TypeError"
                   end) ;;
          for_of vs invalidate ;;;
          id <- lift_result (Json_get product "id") ;;
          _ <- lift_result (Json_template id) ;;
          ret tt
        else ret tt) ;;;
       ret (res_status_send 200 "OK"))
    (fun _ => ret (res_status_send 500 "Internal Server Error")).

(** [app.get('/config', ...)]. *)
Definition get_config (appConfig : AppConfig) : AppConfig := appConfig.

(** [app.post('/config', ...)]: the new configuration and the answer. *)
Definition post_config (appConfig : AppConfig) (body : ConfigBody.t)
    : AppConfig * ConfigResponse :=
  let appConfig :=
    match ConfigBody.threshold body with
    | Some v => set_threshold v appConfig
    | None => appConfig
    end in
  let appConfig :=
    match ConfigBody.feeUnderThreshold body with
    | Some v => set_feeUnderThreshold v appConfig
    | None => appConfig
    end in
  let appConfig :=
    match ConfigBody.labels body with
    | Some patch => set_labels (spread_labels (labels appConfig) patch) appConfig
    | None => appConfig
    end in
  let appConfig :=
    match ConfigBody.description body with
    | Some v => set_description v appConfig
    | None => appConfig
    end in
  let appConfig :=
    match ConfigBody.killSwitch body with
    | Some v => set_killSwitch v appConfig
    | None => appConfig
    end in
  (appConfig, mkConfigResponse true appConfig).

Definition publicPaths : list string :=
  ["/rates"; "/webhook/"; "/health"; "/install"; "/auth"].

(** Basic Auth middleware for admin interface. [decode] is
    [Buffer.from(_, 'base64').toString()]. *)
Definition requireAuth (decode : string -> string)
    (ADMIN_USERNAME ADMIN_PASSWORD : option string) (req : Auth.Request) : Auth.Outcome :=
  let isPublicPath := existsb (fun path => String.prefix path (Auth.path req)) publicPaths in
  if isPublicPath then Auth.Next
  else
    match Auth.authorization req with
    | None => Auth.Denied 401 Auth.realm "Authentication required"
    | Some auth =>
        if (String.eqb auth "" || negb (String.prefix "Basic " auth))%bool then
          Auth.Denied 401 Auth.realm "Authentication required"
        else
          let credentials := Auth.split ":"%char (decode (drop_chars 6 auth)) in
          let username := nth_error credentials 0 in
          let password := nth_error credentials 1 in
          let adminUsername := Auth.env_or ADMIN_USERNAME "admin" in
          let adminPassword := Auth.env_or ADMIN_PASSWORD "ship_ship_hooray_123" in
          if (bool_decide (username = Some adminUsername) &&
              bool_decide (password = Some adminPassword))%bool
          then Auth.Next
          else Auth.Denied 401 Auth.realm "Invalid credentials"
    end.

Definition cache_pattern : string := "preproduct_variant_*".

(** Cache stats endpoint: [app.get('/cache/stats', ...)]. *)
Definition get_cache_stats (info : string -> string) (PREPRODUCT_API_TOKEN : option string)
    : M Admin.Client Admin.Response :=
  try_catch
    (isReady <- Admin.ready ;;
     if negb isReady then
       ret (Admin.mkResponse 503 (Admin.ErrorBody "Redis not connected"))
     else
       memory <- Admin.redis_info info "memory" ;;
       keys <- Admin.redis_keys cache_pattern ;;
       isReady' <- Admin.ready ;;
       ret (Admin.mkResponse 200
              (Admin.StatsBody isReady' (length keys) "preproduct_variant_" memory
                 (Some (match Install.truthy PREPRODUCT_API_TOKEN with
                        | Some _ => "configured"
                        | None => "missing"
                        end)))))
    (fun e => ret (Admin.mkResponse 500 (Admin.ErrorBody e))).

(** Clear cache endpoint: [app.post('/cache/clear', ...)]. *)
Definition post_cache_clear : M Admin.Client Admin.Response :=
  try_catch
    (isReady <- Admin.ready ;;
     if negb isReady then
       ret (Admin.mkResponse 503 (Admin.ErrorBody "Redis not connected"))
     else
       keys <- Admin.redis_keys cache_pattern ;;
       (if Nat.ltb 0 (length keys) then Admin.redis_del_keys keys else ret tt) ;;;
       ret (Admin.mkResponse 200 (Admin.ClearedBody (length keys))))
    (fun e => ret (Admin.mkResponse 500 (Admin.ErrorBody e))).

(** Install/setup route: [app.post('/install', ...)]. *)
Definition post_install (env : Install.Env) (APP_DOMAIN : option string)
    (body : Install.Body) : M (list Install.Call) Install.Response :=
  try_catch
    (match Install.truthy (Install.shop body), Install.truthy (Install.accessToken body) with
     | Some shop, Some accessToken =>
         carrierServiceResponse <-
           Install.send
             (Install.RegisterCarrierService shop accessToken
                (Install.template APP_DOMAIN +:+ "/rates"))
             (Install.carrier_services env shop accessToken) ;;
         if negb (Install.ok carrierServiceResponse) then
           throw ("CarrierService create failed: " +:+
                  Number_toString (Install.status carrierServiceResponse) +:+ " " +:+
                  Install.text carrierServiceResponse)
         else
           carrierService <- Install.response_json carrierServiceResponse ;;
           webhookResponse <-
             Install.send
               (Install.RegisterWebhook shop accessToken
                  (Install.template APP_DOMAIN +:+ "/webhook/product-update"))
               (Install.webhooks env shop accessToken) ;;
           webhook <-
             (if Install.ok webhookResponse then
                j <- Install.response_json webhookResponse ;; ret (Some j)
              else ret None) ;;
           ret (Install.mkResponse 200
                  (Install.Installed carrierService webhook
                     "Ship Ship Hooray installed successfully"))
     | _, _ => ret (Install.mkResponse 400 Install.MissingParameters)
     end)
    (fun e => ret (Install.mkResponse 500 (Install.InstallationFailed e))).

End TwoHop.

(** ** The batch server variant (one GraphQL query for all uncached ids) *)

Module Batch.

(** Answer of the [VariantMetafields] query:
    [{ data: { nodes: [ { id, metafield: { value, type } } | null ] } }]. *)
Record Metafield : Type := mkMetafield { value : string }.
Record Node : Type := mkNode { id : option string; metafield : option Metafield }.
Record GqlNodes : Type := mkGqlNodes { nodes : option (list (option Node)) }.
Record GqlData : Type := mkGqlData { data : option GqlNodes }.

Record Env : Type := mkEnv {
  shopify_graphql : list string -> Fetch GqlData
}.

Definition cacheKey (variantId : string) : string :=
  "variant_po_" +:+ variantId.

Definition getCachedVariantMetafield (variantId : string) : IO (option bool) :=
  try_catch
    (cached <- redis_get (cacheKey variantId) ;;
     match cached with
     | Some text => lift_result (JSON_parse text)
     | None => ret None
     end)
    (fun _ => ret None).

Definition setCachedVariantMetafield (variantId : string) (isPreOrder : bool) : IO unit :=
  try_catch
    (redis_setEx (cacheKey variantId) CACHE_TTL (JSON_stringify isPreOrder))
    (fun _ => ret tt).

Definition gid_prefix : string := "gid://shopify/ProductVariant/".

Definition fetchVariantMetafields (env : Env) (variantIds : list string) : IO GqlData :=
  let gqlVariantIds := map (fun id => gid_prefix +:+ id) variantIds in
  response <- await_fetch (shopify_graphql env gqlVariantIds) ;;
  if negb (response_ok response) then throw "GraphQL request failed"
  else
    data <- response_json response ;;
    ret data.

(** Locals of [getVariantPreOrderStatus]. *)
Record Locals : Type := mkLocals {
  results : gmap string bool;
  uncachedIds : list string
}.

Definition results_set (k : string) (v : bool) (l : Locals) : Locals :=
  mkLocals (<[k := v]> (results l)) (uncachedIds l).

Definition uncachedIds_push (k : string) (l : Locals) : Locals :=
  mkLocals (results l) (uncachedIds l ++ [k]).

Definition check_cache (variantId : string) : M (Locals * Redis) unit :=
  cached <- liftIO (getCachedVariantMetafield variantId) ;;
  match cached with
  | Some c => assign (results_set variantId c)
  | None => assign (uncachedIds_push variantId)
  end.

Definition node_isPreOrder (node : Node) : bool :=
  match metafield node with
  | Some m => String.eqb (value m) "true"
  | None => false
  end.

Definition process_node (node : option Node) : M (Locals * Redis) unit :=
  match node with
  | Some node =>
      match id node with
      | None => throw "TypeError"
      | Some node_id =>
          let variantId := replace node_id gid_prefix "" in
          let isPreOrder := node_isPreOrder node in
          assign (results_set variantId isPreOrder) ;;;
          liftIO (setCachedVariantMetafield variantId isPreOrder)
      end
  | None => ret tt
  end.

(** Set false for any remaining uncached variants. *)
Definition default_remaining (variantId : string) : M (Locals * Redis) unit :=
  l <- locals ;;
  match results l !! variantId with
  | None =>
      assign (results_set variantId false) ;;;
      liftIO (setCachedVariantMetafield variantId false)
  | Some _ => ret tt
  end.

Definition fetch_uncached (env : Env) (uncached : list string) : M (Locals * Redis) unit :=
  try_catch
    (gqlData <- liftIO (fetchVariantMetafields env uncached) ;;
     match data gqlData with
     | Some d =>
         match nodes d with
         | Some ns => for_of ns process_node
         | None => ret tt
         end
     | None => ret tt
     end ;;;
     for_of uncached default_remaining)
    (fun _ => for_of uncached (fun variantId => assign (results_set variantId false))).

Definition getVariantPreOrderStatus (env : Env) (variantIds : list string)
    : IO (gmap string bool) :=
  with_locals (mkLocals ∅ [])
    (for_of variantIds check_cache ;;;
     l <- locals ;;
     (if Nat.ltb 0 (length (uncachedIds l)) then fetch_uncached env (uncachedIds l)
      else ret tt) ;;;
     l' <- locals ;;
     ret (results l')).

(** Check for gift cards only. *)
Definition isGiftCard (item : Item) : bool :=
  match product_type item with
  | Some t => String.eqb t "Gift Card"
  | None => false
  end
  ||
  match title item with
  | Some t => includes (toLowerCase t) "gift card"
  | None => false
  end.

(** Calculate subtotals: the pair is [(rtsSubtotal, preorderSubtotal)]. *)
Definition add_item (variantStatuses : gmap string bool) (acc : Number.t * Number.t)
    (item : Item) : Number.t * Number.t :=
  let variantId := toString (variant_id item) in
  let isPreOrder := default false (variantStatuses !! variantId) in
  let extended := Number.mul (price item) (quantity item) in
  if isPreOrder then (fst acc, Number.add (snd acc) extended)
  else (Number.add (fst acc) extended, snd acc).

Definition subtotals (variantStatuses : gmap string bool) (items : list Item)
    : Number.t * Number.t :=
  fold_left (add_item variantStatuses) items (Number.zero, Number.zero).

(** Emit the RTS rate, then the Pre-Order rate. *)
Definition emit_rates (appConfig : AppConfig) (rtsSubtotal preorderSubtotal : Number.t)
    : list RateQuote :=
  let rates : list RateQuote := [] in
  let rates :=
    if Number.gt rtsSubtotal Number.zero then
      let rtsPrice :=
        if Number.ge rtsSubtotal (threshold appConfig) then Number.zero
        else feeUnderThreshold appConfig in
      rates ++ [mkRateQuote (rts (labels appConfig)) "RTS_STD" (Number.toString rtsPrice)
                  (currency appConfig) (description appConfig)]
    else rates in
  let rates :=
    if Number.gt preorderSubtotal Number.zero then
      let poPrice :=
        if Number.ge preorderSubtotal (threshold appConfig) then Number.zero
        else feeUnderThreshold appConfig in
      rates ++ [mkRateQuote (po (labels appConfig)) "PO_STD" (Number.toString poPrice)
                  (currency appConfig) (description appConfig)]
    else rates in
  rates.

(** The part of the handler that runs once the statuses are resolved. *)
Definition calculate_rates (appConfig : AppConfig) (items : list Item)
    (variantStatuses : gmap string bool) : list RateQuote :=
  let (rtsSubtotal, preorderSubtotal) := subtotals variantStatuses items in
  emit_rates appConfig rtsSubtotal preorderSubtotal.

Definition gift_card_rate (appConfig : AppConfig) : RateQuote :=
  mkRateQuote "Free Shipping" "GIFT_CARD_FREE" "0" (currency appConfig)
    "Gift cards ship free".

(** Main shipping rates endpoint: [app.post('/rates', ...)]. *)
Definition post_rates (appConfig : AppConfig) (env : Env) (req_body : RequestBody)
    : IO Response :=
  try_catch
    (if killSwitch appConfig then ret (res_json None (Some []))
     else
       match rate req_body with
       | None => ret (res_status_json 400 (Some "Invalid rate request format") None)
       | Some rate =>
           match items rate with
           | None => ret (res_status_json 400 (Some "Invalid rate request format") None)
           | Some items =>
               if Nat.eqb (length items) 0 then ret (res_json None (Some []))
               else if forallb isGiftCard items then
                 ret (res_json None (Some [gift_card_rate appConfig]))
               else
                 let variantIds := map (fun item => toString (variant_id item)) items in
                 variantStatuses <- getVariantPreOrderStatus env variantIds ;;
                 ret (res_json None (Some (calculate_rates appConfig items variantStatuses)))
           end
       end)
    (fun _ => ret (res_status_json 500 (Some "Rate calculation failed") (Some []))).

Definition verifyWebhook (rt : Webhook.Runtime) (SHOPIFY_WEBHOOK_SECRET : option string)
    (data : Webhook.Data) (hmacHeader : option string) : result bool :=
  match Webhook.env_set SHOPIFY_WEBHOOK_SECRET with
  | None => Ok true
  | Some secret =>
      match Webhook.hmac_update rt secret data with
      | Throw e => Throw e
      | Ok calculated =>
          match hmacHeader with
          | None => Throw "TypeError"
          | Some h => Webhook.timingSafeEqual calculated (Webhook.base64_decode rt h)
          end
      end
  end.

(** The body of the loop over [product.variants]: the cache key is
    built outside the inner [try]. *)
Definition invalidate (variant : Json) : IO unit :=
  text <- lift_result (Webhook.variant_text variant) ;;
  try_catch (redis_del (cacheKey text)) (fun _ => ret tt).

(** Webhook for product updates (to invalidate cache):
    [app.post('/webhook/product-update', ...)]. The last step before
    the answer is the [console.log] whose template prints [product.id]. *)
Definition post_webhook_product_update (rt : Webhook.Runtime)
    (SHOPIFY_WEBHOOK_SECRET : option string) (req : Webhook.Request) : IO Response :=
  try_catch
    (let body := Webhook.body req in
     verified <- lift_result
       (verifyWebhook rt SHOPIFY_WEBHOOK_SECRET (Webhook.Value body) (Webhook.hmac req)) ;;
     if negb verified then ret (res_status_send 401 "Unauthorized")
     else
       text <- lift_result (Json_toString body) ;;
       product <- lift_result (Webhook.JSON_parse rt text) ;;
       variants <- lift_result (Json_get product "variants") ;;
       (if Json_truthy variants then
          vs <- lift_result
                  (match variants with
                   | Some v => Json_iterate v
                   | None => Throw "TypeError"
                   end) ;;
          for_of vs invalidate ;;;
          id <- lift_result (Json_get product "id") ;;
          _ <- lift_result (Json_template id) ;;
          ret tt
        else ret tt) ;;;
       ret (res_status_send 200 "OK"))
    (fun _ => ret (res_status_send 500 "Internal Server Error")).

(** [app.get('/config', ...)]. *)
Definition get_config (appConfig : AppConfig) : AppConfig := appConfig.

(** [app.post('/config', ...)]: the new configuration and the answer. *)
Definition post_config (appConfig : AppConfig) (body : ConfigBody.t)
    : AppConfig * ConfigResponse :=
  let appConfig :=
    match ConfigBody.threshold body with
    | Some v => set_threshold v appConfig
    | None => appConfig
    end in
  let appConfig :=
    match ConfigBody.feeUnderThreshold body with
    | Some v => set_feeUnderThreshold v appConfig
    | None => appConfig
    end in
  let appConfig :=
    match ConfigBody.labels body with
    | Some patch => set_labels (spread_labels (labels appConfig) patch) appConfig
    | None => appConfig
    end in
  let appConfig :=
    match ConfigBody.description body with
    | Some v => set_description v appConfig
    | None => appConfig
    end in
  let appConfig :=
    match ConfigBody.killSwitch body with
    | Some v => set_killSwitch v appConfig
    | None => appConfig
    end in
  (appConfig, mkConfigResponse true appConfig).

Definition cache_pattern : string := "variant_po_*".

(** Cache stats endpoint: [app.get('/cache/stats', ...)]. *)
Definition get_cache_stats (info : string -> string) : M Admin.Client Admin.Response :=
  try_catch
    (isReady <- Admin.ready ;;
     if negb isReady then
       ret (Admin.mkResponse 503 (Admin.ErrorBody "Redis not connected"))
     else
       memory <- Admin.redis_info info "memory" ;;
       keys <- Admin.redis_keys cache_pattern ;;
       isReady' <- Admin.ready ;;
       ret (Admin.mkResponse 200
              (Admin.StatsBody isReady' (length keys) "variant_po_" memory None)))
    (fun e => ret (Admin.mkResponse 500 (Admin.ErrorBody e))).

(** Clear cache endpoint: [app.post('/cache/clear', ...)]. *)
Definition post_cache_clear : M Admin.Client Admin.Response :=
  try_catch
    (isReady <- Admin.ready ;;
     if negb isReady then
       ret (Admin.mkResponse 503 (Admin.ErrorBody "Redis not connected"))
     else
       keys <- Admin.redis_keys cache_pattern ;;
       (if Nat.ltb 0 (length keys) then Admin.redis_del_keys keys else ret tt) ;;;
       ret (Admin.mkResponse 200 (Admin.ClearedBody (length keys))))
    (fun e => ret (Admin.mkResponse 500 (Admin.ErrorBody e))).

(** Install/setup route: [app.post('/install', ...)]. *)
Definition post_install (env : Install.Env) (APP_DOMAIN : option string)
    (body : Install.Body) : M (list Install.Call) Install.Response :=
  try_catch
    (match Install.truthy (Install.shop body), Install.truthy (Install.accessToken body) with
     | Some shop, Some accessToken =>
         carrierServiceResponse <-
           Install.send
             (Install.RegisterCarrierService shop accessToken
                (Install.template APP_DOMAIN +:+ "/rates"))
             (Install.carrier_services env shop accessToken) ;;
         if negb (Install.ok carrierServiceResponse) then
           throw ("CarrierService create failed: " +:+
                  Number_toString (Install.status carrierServiceResponse) +:+ " " +:+
                  Install.text carrierServiceResponse)
         else
           carrierService <- Install.response_json carrierServiceResponse ;;
           webhookResponse <-
             Install.send
               (Install.RegisterWebhook shop accessToken
                  (Install.template APP_DOMAIN +:+ "/webhook/product-update"))
               (Install.webhooks env shop accessToken) ;;
           webhook <-
             (if Install.ok webhookResponse then
                j <- Install.response_json webhookResponse ;; ret (Some j)
              else ret None) ;;
           ret (Install.mkResponse 200
                  (Install.Installed carrierService webhook
                     "Ship Ship Hooray installed successfully"))
     | _, _ => ret (Install.mkResponse 400 Install.MissingParameters)
     end)
    (fun e => ret (Install.mkResponse 500 (Install.InstallationFailed e))).

End Batch.

(** ** Specification-level notions *)

Module Spec.

Inductive Bucket : Type := ReadyToShip | PreOrder.

(** An item is pre-order when its status is [true], ready-to-ship when
    the status is absent or [false]. *)
Definition bucket_of (statusMap : gmap string bool) (item : Item) : Bucket :=
  match statusMap !! toString (variant_id item) with
  | Some true => PreOrder
  | Some false => ReadyToShip
  | None => ReadyToShip
  end.

Definition Bucket_eqb (a b : Bucket) : bool :=
  match a, b with
  | ReadyToShip, ReadyToShip => true
  | PreOrder, PreOrder => true
  | _, _ => false
  end.

(** The items assigned to a bucket, in cart order. *)
Definition bucket_items (b : Bucket) (statusMap : gmap string bool) (items : list Item)
    : list Item :=
  List.filter (fun item => Bucket_eqb (bucket_of statusMap item) b) items.

(** Unit price times quantity, as the Number the multiplication gives. *)
Definition extended (item : Item) : Number.t :=
  Number.mul (price item) (quantity item).

Definition add_extended (acc : Number.t) (item : Item) : Number.t :=
  Number.add acc (extended item).

(** Sum of unit price times quantity: the Numbers added up from 0 in
    cart order. *)
Definition total (items : list Item) : Number.t :=
  fold_left add_extended items Number.zero.

Definition bucket_subtotal (b : Bucket) (statusMap : gmap string bool) (items : list Item)
    : Number.t :=
  total (bucket_items b statusMap items).

(** A Number that is a non-negative integer below [2^53]. *)
Definition integral (x : Number.t) : Prop :=
  x = Number.of_Z (Number.to_Z x) /\ 0 <= Number.to_Z x < 2 ^ 53.

(** A line item whose price and quantity are such integers. *)
Definition integer_amounts (item : Item) : Prop :=
  integral (price item) /\ integral (quantity item).

(** Unit price times quantity of a line item, and the total of a cart,
    as integers: the exact amounts. *)
Definition cents (item : Item) : Z :=
  Number.to_Z (price item) * Number.to_Z (quantity item).

Definition exact_total (items : list Item) : Z :=
  fold_right (fun item acc => cents item + acc) 0 items.

Definition bucket_label (appConfig : AppConfig) (b : Bucket) : string :=
  match b with
  | ReadyToShip => rts (labels appConfig)
  | PreOrder => po (labels appConfig)
  end.

Definition bucket_code (b : Bucket) : string :=
  match b with
  | ReadyToShip => "RTS_STD"
  | PreOrder => "PO_STD"
  end.

(** Price of a bucket: free at or above the threshold, the fee below. *)
Definition bucket_price (appConfig : AppConfig) (subtotal : Number.t) : Number.t :=
  if Number.ge subtotal (threshold appConfig) then Number.zero
  else feeUnderThreshold appConfig.

(** What a bucket contributes to the rate list: one quote when its
    subtotal is positive, nothing otherwise. *)
Definition bucket_quote (appConfig : AppConfig) (b : Bucket) (subtotal : Number.t)
    : list RateQuote :=
  if Number.gt subtotal Number.zero then
    [ {| service_name := bucket_label appConfig b;
         service_code := bucket_code b;
         total_price := Number.toString (bucket_price appConfig subtotal);
         rate_currency := currency appConfig;
         rate_description := description appConfig |} ]
  else [].

(** The payload of a successful, well-formed HTTP answer. *)
Definition fetch_payload {A} (f : Fetch A) : option A :=
  match f with
  | Responded (mkResponse true (Some a)) => Some a
  | _ => None
  end.

(** Two-hop resolution of one variant by the remote services: the
    owning product, then the pre-order flag. [None] is an id that
    cannot be resolved. *)
Definition twohop_product (env : TwoHop.Env) (variantId : string) : option Z :=
  match fetch_payload (TwoHop.shopify_variant env variantId) with
  | Some d =>
      match TwoHop.variant d with
      | Some v => TwoHop.truthy_id (TwoHop.product_id v)
      | None => None
      end
  | None => None
  end.

Definition twohop_status (env : TwoHop.Env) (variantId : string) : option bool :=
  match twohop_product env variantId with
  | Some p =>
      match fetch_payload (TwoHop.preproduct_on_preorder env p variantId) with
      | Some d => TwoHop.on_preorder d
      | None => None
      end
  | None => None
  end.

(** What the two-hop resolver settles on for an id it has to look up:
    the resolved flag, [false] when the id cannot be resolved. *)
Definition twohop_default (env : TwoHop.Env) (variantId : string) : bool :=
  default false (twohop_status env variantId).

(** An answer of the batch source lists [variantId] when one of its
    nodes carries that id. *)
Definition batch_lists (f : Fetch Batch.GqlData) (variantId : string) : Prop :=
  exists gql d ns node node_id,
    fetch_payload f = Some gql /\ Batch.data gql = Some d /\ Batch.nodes d = Some ns /\
    In (Some node) ns /\ Batch.id node = Some node_id /\
    replace node_id Batch.gid_prefix "" = variantId.

(** An answer of the batch source is well formed when it is a payload
    whose nodes, where present, all carry an id. *)
Definition batch_well_formed (f : Fetch Batch.GqlData) : Prop :=
  exists gql,
    fetch_payload f = Some gql /\
    forall d ns node, Batch.data gql = Some d -> Batch.nodes d = Some ns ->
      In (Some node) ns -> Batch.id node <> None.

(** A notification is authentic for a secret when its signature header
    decodes to the HMAC-SHA256 digest under that secret of the raw body
    that was sent. *)
Definition authentic (rt : Webhook.Runtime) (secret : string) (raw_body : string)
    (hmacHeader : option string) : Prop :=
  exists h,
    hmacHeader = Some h /\
    Webhook.base64_decode rt h = Webhook.hmac_sha256 rt secret raw_body.

(** The variant ids a rate request asks about. *)
Definition request_variant_ids (req_body : RequestBody) : list string :=
  match rate req_body with
  | Some r =>
      match items r with
      | Some its => map (fun item => toString (variant_id item)) its
      | None => []
      end
  | None => []
  end.

End Spec.

(** ** Reasoning about the Redis client and the monad *)

Module Logic.

(** Whether the next command meets a backend fault. *)
Definition faulty (r : Redis) : bool :=
  match faults r with
  | true :: _ => true
  | _ => false
  end.

(** The client after issuing [cmd], the store being [st] afterwards. *)
Definition issued (cmd : RedisCmd) (st : gmap string (Z * string)) (r : Redis) : Redis :=
  mkRedis st (tail (faults r)) (log r ++ [cmd]).

(** What a cache read of [key] yields. *)
Definition cache_read (key : string) (r : Redis) : option bool :=
  if faulty r then None
  else match store r !! key with
       | Some (_, text) =>
           match JSON_parse text with
           | Ok o => o
           | Throw _ => None
           end
       | None => None
       end.

(** The store after a cache write of [b] under [key]. *)
Definition cache_written (key : string) (b : bool) (r : Redis) : gmap string (Z * string) :=
  if faulty r then store r else <[key := (CACHE_TTL, JSON_stringify b)]> (store r).

(** Hoare triples with a normal and an exceptional postcondition. *)
Definition hoare {S A} (P : S -> Prop) (m : M S A) (Q : A -> S -> Prop) (E : S -> Prop) : Prop :=
  forall s, P s ->
    match m s with
    | (Ok a, s') => Q a s'
    | (Throw _, s') => E s'
    end.

(** The commands issued between two client states. *)
Definition log_extends (r r' : Redis) : Prop :=
  exists cmds, log r' = log r ++ cmds.

Definition is_write (cmd : RedisCmd) : bool :=
  match cmd with
  | GET _ => false
  | SETEX _ _ _ => true
  | DEL _ => true
  end.

(** Commands issued since [r] are all reads. *)
Definition reads_only (r r' : Redis) : Prop :=
  forall cmd, In cmd (log r') -> In cmd (log r) \/ is_write cmd = false.

(** The nodes of a batch answer, none when the answer has no node list. *)
Definition nodes_of (gql : Batch.GqlData) : list (option Batch.Node) :=
  match Batch.data gql with
  | Some d =>
      match Batch.nodes d with
      | Some ns => ns
      | None => []
      end
  | None => []
  end.

(** The query the batch resolver sends for a list of uncached ids. *)
Definition batch_query (env : Batch.Env) (uncached : list string) : Fetch Batch.GqlData :=
  Batch.shopify_graphql env (map (fun id => Batch.gid_prefix +:+ id) uncached).

End Logic.

(** ** Concrete configurations, carts and environments *)

Module Examples.

(** The configuration the server starts with. *)
Definition appConfig : AppConfig :=
  {| threshold := 5000;
     feeUnderThreshold := 500;
     labels := {| rts := "Ships Now (In-Stock)"; po := "Ships Later (Pre-Order)" |};
     description := "Free over $50";
     killSwitch := false;
     currency := "USD" |}.

(** The same configuration during a promotion. *)
Definition promoConfig : AppConfig :=
  {| threshold := 5000;
     feeUnderThreshold := 500;
     labels := {| rts := "Ships Now (In-Stock)"; po := "Ships Later (Pre-Order)" |};
     description := "Free over $50";
     killSwitch := true;
     currency := "USD" |}.

Definition item_3000 : Item :=
  {| variant_id := IdNum 789012; price := 3000; quantity := 1;
     product_type := None; title := None |}.

Definition item_6000 : Item :=
  {| variant_id := IdNum 789013; price := 6000; quantity := 1;
     product_type := None; title := None |}.

Definition gift_card : Item :=
  {| variant_id := IdNum 789014; price := 5000; quantity := 1;
     product_type := Some "Gift Card"; title := None |}.

Definition request (its : list Item) : RequestBody :=
  {| rate := Some {| items := Some its |} |}.

(** The statuses of the two example variants: 789013 is on pre-order. *)
Definition statuses : gmap string bool :=
  <["789013" := true]> (<["789012" := false]> ∅).

(** Three ready-to-ship lines with the prices [2^53], 1 and 1, and the
    same lines with the large one last. *)
Definition huge_item : Item :=
  {| variant_id := IdNum 789012; price := 2 ^ 53; quantity := 1;
     product_type := None; title := None |}.

Definition unit_item : Item :=
  {| variant_id := IdNum 789012; price := 1; quantity := 1;
     product_type := None; title := None |}.

Definition huge_cart : list Item := [huge_item; unit_item; unit_item].

Definition huge_cart_reordered : list Item := [unit_item; unit_item; huge_item].

(** A configuration whose threshold is [2^53 + 2]. *)
Definition huge_threshold : AppConfig :=
  {| threshold := 2 ^ 53 + 2;
     feeUnderThreshold := 500;
     labels := {| rts := "Ships Now (In-Stock)"; po := "Ships Later (Pre-Order)" |};
     description := "Free over $50";
     killSwitch := false;
     currency := "USD" |}.

(** A request body without a [rate] object. *)
Definition empty_body : RequestBody := {| rate := None |}.

(** A fresh Redis: empty store, no fault, nothing issued. *)
Definition redis0 : Redis := mkRedis ∅ [] [].

(** Both remote services of the two-hop variant unreachable. *)
Definition twohop_down : TwoHop.Env :=
  {| TwoHop.shopify_variant := fun _ => NetworkError;
     TwoHop.preproduct_on_preorder := fun _ _ => NetworkError |}.

(** Every variant belongs to product 123456; variant 789013 is on pre-order. *)
Definition twohop_up : TwoHop.Env :=
  {| TwoHop.shopify_variant := fun _ =>
       Responded (mkResponse true
         (Some {| TwoHop.variant := Some {| TwoHop.product_id := Some 123456 |} |}));
     TwoHop.preproduct_on_preorder := fun _ variantId =>
       Responded (mkResponse true
         (Some {| TwoHop.on_preorder := Some (String.eqb variantId "789013") |})) |}.

(** The GraphQL endpoint unreachable. *)
Definition batch_down : Batch.Env :=
  {| Batch.shopify_graphql := fun _ => NetworkError |}.

(** The GraphQL endpoint answering with an empty node list. *)
Definition batch_silent : Batch.Env :=
  {| Batch.shopify_graphql := fun _ =>
       Responded (mkResponse true
         (Some {| Batch.data := Some {| Batch.nodes := Some [] |} |})) |}.

(** The GraphQL endpoint flagging variant 789013 as pre-order. *)
Definition batch_up : Batch.Env :=
  {| Batch.shopify_graphql := fun _ =>
       Responded (mkResponse true
         (Some {| Batch.data := Some {| Batch.nodes := Some
            [ Some {| Batch.id := Some "gid://shopify/ProductVariant/789013";
                      Batch.metafield := Some {| Batch.value := "true" |} |} ] |} |})) |}.

(** The GraphQL endpoint of a shop in which variant 789013 alone has the
    pre-order metafield set: the answer has one node per id asked, in
    the order asked. *)
Definition shop_node (gid : string) : option Batch.Node :=
  Some {| Batch.id := Some gid;
          Batch.metafield :=
            if String.eqb gid "gid://shopify/ProductVariant/789013"
            then Some {| Batch.value := "true" |} else None |}.

Definition batch_shop : Batch.Env :=
  {| Batch.shopify_graphql := fun gids =>
       Responded (mkResponse true
         (Some {| Batch.data := Some {| Batch.nodes := Some (map shop_node gids) |} |})) |}.

(** The GraphQL answer mocked by [tests/rates.test.js]: variant 789012
    without the pre-order metafield. *)
Definition batch_test_mock : Batch.Env :=
  {| Batch.shopify_graphql := fun _ =>
       Responded (mkResponse true
         (Some {| Batch.data := Some {| Batch.nodes := Some
            [ Some {| Batch.id := Some "gid://shopify/ProductVariant/789012";
                      Batch.metafield := None |} ] |} |})) |}.

(** The item of the second test: variant 789012 at 6000. *)
Definition item_6000_rts : Item :=
  {| variant_id := IdNum 789012; price := 6000; quantity := 1;
     product_type := None; title := None |}.

(** A stand-in for the runtime of the listener: a fixed two-byte
    digest, header bytes taken as they are, and one text that parses,
    the JSON text of a product with the single variant 789012. *)
Definition dq : string := String "034"%char EmptyString.

Definition product_text : string :=
  "{" +:+ dq +:+ "variants" +:+ dq +:+ ":[{" +:+ dq +:+ "id" +:+ dq +:+ ":789012}]}".

Definition product_json : Json :=
  JObject [("variants", JArray [JObject [("id", JNumber 789012)]])].

Definition stub_runtime : Webhook.Runtime :=
  {| Webhook.hmac_sha256 := fun _ _ => [Byte.x01; Byte.x02];
     Webhook.base64_decode := fun h => list_byte_of_string h;
     Webhook.JSON_parse_text := fun text =>
       if String.eqb text product_text then Some product_json else None |}.

(** The header that carries the digest of the stand-in runtime. *)
Definition good_signature : string :=
  String "001"%char (String "002"%char EmptyString).

(** An authentic notification, as the handler receives it: the body
    already parsed. *)
Definition signed_notification : Webhook.Request :=
  {| Webhook.hmac := Some good_signature; Webhook.body := Some product_json |}.

(** A notification whose signature has the right length and the wrong
    bytes. *)
Definition forged_notification : Webhook.Request :=
  {| Webhook.hmac := Some "ab"; Webhook.body := Some product_json |}.

(** A request without any signature whose body is a JSON array that
    holds one string, the JSON text of the product. *)
Definition wrapped_notification : Webhook.Request :=
  {| Webhook.hmac := None; Webhook.body := Some (JArray [JString product_text]) |}.

(** A Redis that holds a cached status for variant 789012 under both prefixes. *)
Definition redis_cached : Redis :=
  mkRedis (<["preproduct_variant_789012" := (CACHE_TTL, "true")]>
             (<["variant_po_789012" := (CACHE_TTL, "true")]> ∅)) [] [].

End Examples.

(** ** Notions used by the further properties *)

Module Props.

(** Two line items with the same variant, unit price and quantity. *)
Definition same_pricing (i j : Item) : Prop :=
  variant_id i = variant_id j /\ price i = price j /\ quantity i = quantity j.

(** A line item with another quantity. *)
Definition with_quantity (q : Number.t) (i : Item) : Item :=
  {| variant_id := variant_id i; price := price i; quantity := q;
     product_type := product_type i; title := title i |}.

(** A node of a batch answer carries [variantId] when its id, the
    prefix removed, is that id. *)
Definition carries (node : Batch.Node) (variantId : string) : Prop :=
  exists node_id, Batch.id node = Some node_id /\
    replace node_id Batch.gid_prefix "" = variantId.

(** The batch source answers [b] for [variantId]: the answer is a payload
    with a node that carries the id, and every node that carries it has
    the flag [b]. *)
Definition batch_flags (f : Fetch Batch.GqlData) (variantId : string) (b : bool) : Prop :=
  exists gql,
    Spec.fetch_payload f = Some gql /\
    (exists node, In (Some node) (Logic.nodes_of gql) /\ carries node variantId) /\
    (forall node, In (Some node) (Logic.nodes_of gql) -> carries node variantId ->
       Batch.node_isPreOrder node = b).

(** The variants of a notification print their ids as [texts]. *)
Definition variants_print (vs : list Json) (texts : list string) : Prop :=
  Forall2 (fun v text => Webhook.variant_text v = Ok text) vs texts.

(** Two successive [POST /config] bodies as one: the later body wins
    field by field, and label by label. *)
Definition merge_labels (p1 p2 : option ConfigBody.LabelsPatch)
    : option ConfigBody.LabelsPatch :=
  match p1, p2 with
  | Some a, Some b =>
      Some (ConfigBody.mkLabelsPatch
              (match ConfigBody.rts b with Some v => Some v | None => ConfigBody.rts a end)
              (match ConfigBody.po b with Some v => Some v | None => ConfigBody.po a end))
  | Some a, None => Some a
  | None, p => p
  end.

Definition later {A} (x y : option A) : option A :=
  match y with
  | Some v => Some v
  | None => x
  end.

Definition merge_bodies (b1 b2 : ConfigBody.t) : ConfigBody.t :=
  ConfigBody.mk
    (later (ConfigBody.threshold b1) (ConfigBody.threshold b2))
    (later (ConfigBody.feeUnderThreshold b1) (ConfigBody.feeUnderThreshold b2))
    (merge_labels (ConfigBody.labels b1) (ConfigBody.labels b2))
    (later (ConfigBody.description b1) (ConfigBody.description b2))
    (later (ConfigBody.killSwitch b1) (ConfigBody.killSwitch b2)).

(** The body that sets nothing. *)
Definition empty_config_body : ConfigBody.t :=
  ConfigBody.mk None None None None None.

(** A string contains a character. *)
Definition has_char (c : ascii) (s : string) : Prop :=
  In c (list_ascii_of_string s).

(** A path that none of the public prefixes starts. *)
Definition protected_path (path : string) : Prop :=
  forall p, In p TwoHop.publicPaths -> String.prefix p path = false.

(** What may follow [user:password] in decoded credentials: nothing, or
    a colon and anything. *)
Definition ignored_tail (rest : string) : Prop :=
  rest = "" \/ exists t, rest = ":" +:+ t.

End Props.

Import Logic.

(** ** Rules of the program logic *)

Section HoareRules.
Context {S : Type}.

Lemma hoare_ret {A} (P : S -> Prop) (a : A) (Q : A -> S -> Prop) (E : S -> Prop) :
  (forall s, P s -> Q a s) -> hoare P (ret a) Q E.
Proof. intros H s Hs. simpl. auto. Qed.

Lemma hoare_bind {A B} (P : S -> Prop) (m : M S A) (k : A -> M S B)
    (R : A -> S -> Prop) (Q : B -> S -> Prop) (E : S -> Prop) :
  hoare P m R E -> (forall a, hoare (R a) (k a) Q E) -> hoare P (bind m k) Q E.
Proof.
  intros Hm Hk s Hs. unfold bind. specialize (Hm s Hs).
  destruct (m s) as [[a|e] s']; [exact (Hk a s' Hm) | exact Hm].
Qed.

(** Loop rule: the invariant is indexed by the elements already visited. *)
Lemma hoare_for_of {A} (I : list A -> S -> Prop) (E : S -> Prop)
    (body : A -> M S unit) (l : list A) :
  (forall pre x post, l = pre ++ x :: post ->
     hoare (I pre) (body x) (fun _ => I (pre ++ [x])) E) ->
  hoare (I []) (for_of l body) (fun _ => I l) E.
Proof.
  revert I. induction l as [|x l IH]; intros I Hbody.
  - apply hoare_ret. auto.
  - simpl. eapply hoare_bind.
    + apply (Hbody [] x l eq_refl).
    + intros []. apply (IH (fun pre => I (x :: pre))).
      intros pre y post Heq. apply (Hbody (x :: pre) y post). by rewrite Heq.
Qed.

End HoareRules.

(** ** The Redis client, command by command *)

Lemma redis_call_eq {A} (cmd : RedisCmd)
    (run : gmap string (Z * string) -> A * gmap string (Z * string)) (r : Redis) :
  redis_call cmd run r =
  if faulty r then (Throw "Redis error", issued cmd (store r) r)
  else (Ok (fst (run (store r))), issued cmd (snd (run (store r))) r).
Proof.
  unfold redis_call, faulty, issued.
  destruct (faults r) as [|[|] fs]; simpl; try reflexivity;
    destruct (run (store r)); reflexivity.
Qed.

Lemma log_extends_refl r : log_extends r r.
Proof. exists []. by rewrite app_nil_r. Qed.

Lemma log_extends_trans r1 r2 r3 :
  log_extends r1 r2 -> log_extends r2 r3 -> log_extends r1 r3.
Proof.
  intros [l1 H1] [l2 H2]. exists (l1 ++ l2). by rewrite H2, H1, app_assoc.
Qed.

Lemma log_extends_issued cmd st r : log_extends r (issued cmd st r).
Proof. by exists [cmd]. Qed.

(** ** The cache accessors of both variants *)

Lemma twohop_getCached_eq variantId r :
  TwoHop.getCachedVariantPreOrder variantId r =
  (Ok (cache_read (TwoHop.cacheKey variantId) r),
   issued (GET (TwoHop.cacheKey variantId)) (store r) r).
Proof.
  unfold TwoHop.getCachedVariantPreOrder, try_catch, bind, redis_get, cache_read.
  rewrite redis_call_eq. destruct (faulty r); simpl; [reflexivity|].
  destruct (store r !! TwoHop.cacheKey variantId) as [[ttl text]|]; simpl; [|reflexivity].
  unfold lift_result. destruct (JSON_parse text); reflexivity.
Qed.

Lemma twohop_setCached_eq variantId b r :
  TwoHop.setCachedVariantPreOrder variantId b r =
  (Ok tt,
   issued (SETEX (TwoHop.cacheKey variantId) CACHE_TTL (JSON_stringify b))
     (cache_written (TwoHop.cacheKey variantId) b r) r).
Proof.
  unfold TwoHop.setCachedVariantPreOrder, try_catch, redis_setEx, cache_written.
  rewrite redis_call_eq. destruct (faulty r); reflexivity.
Qed.

Lemma batch_getCached_eq variantId r :
  Batch.getCachedVariantMetafield variantId r =
  (Ok (cache_read (Batch.cacheKey variantId) r),
   issued (GET (Batch.cacheKey variantId)) (store r) r).
Proof.
  unfold Batch.getCachedVariantMetafield, try_catch, bind, redis_get, cache_read.
  rewrite redis_call_eq. destruct (faulty r); simpl; [reflexivity|].
  destruct (store r !! Batch.cacheKey variantId) as [[ttl text]|]; simpl; [|reflexivity].
  unfold lift_result. destruct (JSON_parse text); reflexivity.
Qed.

Lemma batch_setCached_eq variantId b r :
  Batch.setCachedVariantMetafield variantId b r =
  (Ok tt,
   issued (SETEX (Batch.cacheKey variantId) CACHE_TTL (JSON_stringify b))
     (cache_written (Batch.cacheKey variantId) b r) r).
Proof.
  unfold Batch.setCachedVariantMetafield, try_catch, redis_setEx, cache_written.
  rewrite redis_call_eq. destruct (faulty r); reflexivity.
Qed.

Lemma cache_read_miss key r : store r !! key = None -> cache_read key r = None.
Proof. intros H. unfold cache_read. rewrite H. by destruct (faulty r). Qed.

(** ** The remote lookups of the two-hop variant *)

Lemma getProductIdFromVariant_eq env variantId r :
  exists productId,
    TwoHop.getProductIdFromVariant env variantId r = (Ok productId, r) /\
    TwoHop.truthy_id productId = Spec.twohop_product env variantId.
Proof.
  unfold TwoHop.getProductIdFromVariant, Spec.twohop_product, Spec.fetch_payload,
    try_catch, bind.
  destruct (TwoHop.shopify_variant env variantId) as [|[[|] [d|]]]; simpl;
    try (exists None; split; reflexivity).
  destruct (TwoHop.variant d) as [v|]; simpl.
  - exists (TwoHop.product_id v). split; reflexivity.
  - exists None. split; reflexivity.
Qed.

Lemma fetchPreProductStatus_eq env p variantId r :
  TwoHop.fetchPreProductStatus env p variantId r =
  (Ok (default false
         (match Spec.fetch_payload (TwoHop.preproduct_on_preorder env p variantId) with
          | Some d => TwoHop.on_preorder d
          | None => None
          end)), r).
Proof.
  unfold TwoHop.fetchPreProductStatus, Spec.fetch_payload, try_catch, bind.
  destruct (TwoHop.preproduct_on_preorder env p variantId) as [|[[|] [d|]]]; reflexivity.
Qed.

(** ** The two-hop resolver *)

Lemma twohop_check_cache_eq variantId (s : TwoHop.Locals * Redis) :
  TwoHop.check_cache variantId s =
  (Ok tt,
   (match cache_read (TwoHop.cacheKey variantId) (snd s) with
    | Some c => TwoHop.results_set variantId c (fst s)
    | None => TwoHop.uncachedVariants_push variantId (fst s)
    end,
    issued (GET (TwoHop.cacheKey variantId)) (store (snd s)) (snd s))).
Proof.
  unfold TwoHop.check_cache, bind, liftIO. rewrite twohop_getCached_eq.
  destruct (cache_read _ _); reflexivity.
Qed.

Lemma twohop_resolve_uncached_eq env variantId (s : TwoHop.Locals * Redis) :
  TwoHop.resolve_uncached env variantId s =
  (Ok tt,
   (TwoHop.results_set variantId (Spec.twohop_default env variantId) (fst s),
    issued (SETEX (TwoHop.cacheKey variantId) CACHE_TTL
              (JSON_stringify (Spec.twohop_default env variantId)))
      (cache_written (TwoHop.cacheKey variantId) (Spec.twohop_default env variantId) (snd s))
      (snd s))).
Proof.
  unfold TwoHop.resolve_uncached, try_catch, bind, liftIO.
  destruct (getProductIdFromVariant_eq env variantId (snd s)) as (pid & -> & Hpid).
  unfold Spec.twohop_default, Spec.twohop_status. rewrite <- Hpid.
  destruct (TwoHop.truthy_id pid) as [p|]; simpl.
  - rewrite fetchPreProductStatus_eq. simpl. rewrite twohop_setCached_eq. reflexivity.
  - rewrite twohop_setCached_eq. reflexivity.
Qed.

Lemma cache_read_hit key r c : cache_read key r = Some c -> store r !! key <> None.
Proof. intros H Hmiss. rewrite (cache_read_miss _ _ Hmiss) in H. discriminate. Qed.

(** First loop: every visited id is either answered from the cache or
    queued; only ids found in the store are answered. *)
Lemma twohop_check_cache_loop (variantIds : list string) (r : Redis) :
  exists l1 r1,
    for_of variantIds TwoHop.check_cache (TwoHop.mkLocals ∅ [], r) = (Ok tt, (l1, r1)) /\
    store r1 = store r /\ log_extends r r1 /\
    (forall id, In id variantIds ->
       is_Some (TwoHop.results l1 !! id) \/ In id (TwoHop.uncachedVariants l1)) /\
    (forall id, is_Some (TwoHop.results l1 !! id) ->
       In id variantIds /\ store r !! TwoHop.cacheKey id <> None) /\
    (forall id, In id (TwoHop.uncachedVariants l1) -> In id variantIds).
Proof.
  pose (I := fun (pre : list string) (s : TwoHop.Locals * Redis) =>
    store (snd s) = store r /\ log_extends r (snd s) /\
    (forall id, In id pre ->
       is_Some (TwoHop.results (fst s) !! id) \/ In id (TwoHop.uncachedVariants (fst s))) /\
    (forall id, is_Some (TwoHop.results (fst s) !! id) ->
       In id pre /\ store r !! TwoHop.cacheKey id <> None) /\
    (forall id, In id (TwoHop.uncachedVariants (fst s)) -> In id pre)).
  assert (Hloop : hoare (I []) (for_of variantIds TwoHop.check_cache)
                    (fun _ => I variantIds) (fun _ => False)).
  { apply hoare_for_of. intros pre x post _ s (Hst & Hlog & Hall & Hres & Hunc).
    rewrite twohop_check_cache_eq. unfold I. simpl.
    split; [exact Hst|]. split.
    { eapply log_extends_trans; [exact Hlog | apply log_extends_issued]. }
    destruct (cache_read (TwoHop.cacheKey x) (snd s)) as [c|] eqn:Hread; simpl.
    - apply cache_read_hit in Hread. rewrite Hst in Hread. split; [|split].
      + intros id Hin. apply in_app_or in Hin as [Hin|[<-|[]]].
        * destruct (Hall id Hin) as [Hs|Hu]; [left|right; exact Hu].
          destruct (decide (x = id)) as [->|Hne];
            [rewrite lookup_insert_eq; eauto | by rewrite lookup_insert_ne].
        * left. rewrite lookup_insert_eq. eauto.
      + intros id Hs. destruct (decide (x = id)) as [->|Hne].
        * split; [|exact Hread]. apply in_or_app. right. by left.
        * rewrite lookup_insert_ne in Hs by done. destruct (Hres id Hs) as [Hin Hhit].
          split; [|exact Hhit]. apply in_or_app. by left.
      + intros id Hin. apply in_or_app. left. by apply Hunc.
    - split; [|split].
      + intros id Hin. apply in_app_or in Hin as [Hin|[<-|[]]].
        * destruct (Hall id Hin) as [Hs|Hu]; [by left|right]. apply in_or_app. by left.
        * right. apply in_or_app. right. by left.
      + intros id Hs. destruct (Hres id Hs) as [Hin Hhit].
        split; [|exact Hhit]. apply in_or_app. by left.
      + intros id Hin. apply in_app_or in Hin as [Hin|[<-|[]]]; apply in_or_app;
          [left; by apply Hunc | right; by left]. }
  assert (Hinit : I [] (TwoHop.mkLocals ∅ [], r)).
  { unfold I. simpl. split; [done|]. split; [apply log_extends_refl|].
    split; [|split].
    - intros id [].
    - intros id [v Hv]. by rewrite lookup_empty in Hv.
    - intros id []. }
  specialize (Hloop _ Hinit).
  destruct (for_of variantIds TwoHop.check_cache (TwoHop.mkLocals ∅ [], r))
    as [[[]|e] [l1 r1]]; [|done].
  exists l1, r1. split; [reflexivity|]. exact Hloop.
Qed.

(** Second loop: every queued id gets the remote answer (or the default)
    and a cache write of it; entries of other ids are kept. *)
Lemma twohop_resolve_loop env (uncached : list string) (l1 : TwoHop.Locals) (r1 : Redis) :
  exists l2 r2,
    for_of uncached (TwoHop.resolve_uncached env) (l1, r1) = (Ok tt, (l2, r2)) /\
    log_extends r1 r2 /\
    (forall id, is_Some (TwoHop.results l1 !! id) -> is_Some (TwoHop.results l2 !! id)) /\
    (forall id, is_Some (TwoHop.results l2 !! id) ->
       is_Some (TwoHop.results l1 !! id) \/ In id uncached) /\
    (forall id, In id uncached ->
       TwoHop.results l2 !! id = Some (Spec.twohop_default env id) /\
       In (SETEX (TwoHop.cacheKey id) CACHE_TTL (JSON_stringify (Spec.twohop_default env id)))
          (log r2)).
Proof.
  pose (I := fun (pre : list string) (s : TwoHop.Locals * Redis) =>
    log_extends r1 (snd s) /\
    (forall id, is_Some (TwoHop.results l1 !! id) -> is_Some (TwoHop.results (fst s) !! id)) /\
    (forall id, is_Some (TwoHop.results (fst s) !! id) ->
       is_Some (TwoHop.results l1 !! id) \/ In id pre) /\
    (forall id, In id pre ->
       TwoHop.results (fst s) !! id = Some (Spec.twohop_default env id) /\
       In (SETEX (TwoHop.cacheKey id) CACHE_TTL (JSON_stringify (Spec.twohop_default env id)))
          (log (snd s)))).
  assert (Hloop : hoare (I []) (for_of uncached (TwoHop.resolve_uncached env))
                    (fun _ => I uncached) (fun _ => False)).
  { apply hoare_for_of. intros pre x post _ s (Hlog & Hkeep & Hdom & Hdone).
    rewrite twohop_resolve_uncached_eq. unfold I. simpl.
    split; [eapply log_extends_trans; [exact Hlog | apply log_extends_issued]|].
    split; [|split].
    - intros id Hs. destruct (decide (x = id)) as [->|Hne];
        [rewrite lookup_insert_eq; eauto | rewrite lookup_insert_ne by done; auto].
    - intros id Hs. destruct (decide (x = id)) as [->|Hne].
      + right. apply in_or_app. right. by left.
      + rewrite lookup_insert_ne in Hs by done.
        destruct (Hdom id Hs) as [H1|Hin]; [by left|right]. apply in_or_app. by left.
    - intros id Hin. apply in_app_or in Hin as [Hin|[<-|[]]].
      + destruct (Hdone id Hin) as [Hv Hw]. split.
        * destruct (decide (x = id)) as [->|Hne];
            [by rewrite lookup_insert_eq | by rewrite lookup_insert_ne].
        * apply in_or_app. by left.
      + split; [by rewrite lookup_insert_eq|]. apply in_or_app. right. by left. }
  assert (Hinit : I [] (l1, r1)).
  { unfold I. simpl. split; [apply log_extends_refl|]. split; [auto|]. split; [auto|].
    intros id []. }
  specialize (Hloop _ Hinit).
  destruct (for_of uncached (TwoHop.resolve_uncached env) (l1, r1))
    as [[[]|e] [l2 r2]]; [|done].
  exists l2, r2. split; [reflexivity|]. exact Hloop.
Qed.

(** The two-hop resolver never throws; its mapping has an entry exactly
    for the requested ids; an id missing from the store gets the remote
    answer (or the default) and a cache write of it. *)
Lemma twohop_resolver env (variantIds : list string) (r : Redis) :
  exists results r',
    TwoHop.getVariantPreOrderStatus env variantIds r = (Ok results, r') /\
    log_extends r r' /\
    (forall id, is_Some (results !! id) <-> In id variantIds) /\
    (forall id, In id variantIds -> store r !! TwoHop.cacheKey id = None ->
       results !! id = Some (Spec.twohop_default env id) /\
       In (SETEX (TwoHop.cacheKey id) CACHE_TTL (JSON_stringify (Spec.twohop_default env id)))
          (log r')).
Proof.
  destruct (twohop_check_cache_loop variantIds r)
    as (l1 & r1 & E1 & Hst & Hlog1 & Hall & Hres & Hunc).
  destruct (twohop_resolve_loop env (TwoHop.uncachedVariants l1) l1 r1)
    as (l2 & r2 & E2 & Hlog2 & Hkeep & Hdom & Hdone).
  exists (TwoHop.results l2), r2.
  split.
  { unfold TwoHop.getVariantPreOrderStatus, with_locals, bind.
    rewrite E1. simpl. rewrite E2. reflexivity. }
  split; [eapply log_extends_trans; eassumption|].
  split.
  - intros id. split.
    + intros Hs. destruct (Hdom id Hs) as [H1|Hin]; [by apply Hres | by apply Hunc].
    + intros Hin. destruct (Hall id Hin) as [H1|Hu]; [by apply Hkeep|].
      destruct (Hdone id Hu) as [-> _]. eauto.
  - intros id Hin Hmiss. apply Hdone.
    destruct (Hall id Hin) as [H1|Hu]; [|exact Hu].
    destruct (Hres id H1) as [_ Hhit]. contradiction.
Qed.

(** Cache keys determine their variant id. *)
Lemma append_prefix_inj (p x y : string) : p +:+ x = p +:+ y -> x = y.
Proof. induction p as [|c p IH]; simpl; [done|]. intros [= H]. by apply IH. Qed.

Lemma twohop_cacheKey_inj (x y : string) : TwoHop.cacheKey x = TwoHop.cacheKey y -> x = y.
Proof. apply append_prefix_inj. Qed.

Lemma batch_cacheKey_inj (x y : string) : Batch.cacheKey x = Batch.cacheKey y -> x = y.
Proof. apply append_prefix_inj. Qed.

Lemma cache_written_healthy key b r :
  faults r = [] ->
  cache_written key b r = <[key := (CACHE_TTL, JSON_stringify b)]> (store r).
Proof. intros H. unfold cache_written, faulty. by rewrite H. Qed.

(** A backend without faults stays without faults. *)
Lemma twohop_check_cache_loop_faults (variantIds : list string) (s : TwoHop.Locals * Redis) :
  faults (snd s) = [] ->
  faults (snd (snd (for_of variantIds TwoHop.check_cache s))) = [].
Proof.
  revert s. induction variantIds as [|x l IH]; intros s H; [exact H|].
  cbn [for_of]. unfold bind. rewrite twohop_check_cache_eq. apply IH.
  simpl. by rewrite H.
Qed.

(** With a healthy backend the store ends up holding, for every id the
    second loop visited, the flag the loop settled on, under the TTL. *)
Lemma twohop_resolve_loop_store env (uncached : list string) (s : TwoHop.Locals * Redis) :
  faults (snd s) = [] ->
  faults (snd (snd (for_of uncached (TwoHop.resolve_uncached env) s))) = [] /\
  forall id, In id uncached ->
    store (snd (snd (for_of uncached (TwoHop.resolve_uncached env) s)))
      !! TwoHop.cacheKey id
    = Some (CACHE_TTL, JSON_stringify (Spec.twohop_default env id)).
Proof.
  intros Hf.
  pose (I := fun (pre : list string) (s' : TwoHop.Locals * Redis) =>
    faults (snd s') = [] /\
    forall id, In id pre ->
      store (snd s') !! TwoHop.cacheKey id
      = Some (CACHE_TTL, JSON_stringify (Spec.twohop_default env id))).
  assert (Hloop : hoare (I []) (for_of uncached (TwoHop.resolve_uncached env))
                    (fun _ => I uncached) (fun _ => False)).
  { apply hoare_for_of. intros pre x post _ s' [Hf' Hdone].
    rewrite twohop_resolve_uncached_eq. unfold I. simpl.
    split; [by rewrite Hf'|].
    intros id Hin. rewrite (cache_written_healthy _ _ _ Hf').
    apply in_app_or in Hin as [Hin|[<-|[]]]; [|by rewrite lookup_insert_eq].
    destruct (decide (TwoHop.cacheKey x = TwoHop.cacheKey id)) as [Heq|Hne].
    - apply twohop_cacheKey_inj in Heq as ->. by rewrite lookup_insert_eq.
    - rewrite lookup_insert_ne by done. by apply Hdone. }
  assert (Hinit : I [] s) by (split; [exact Hf | intros id []]).
  specialize (Hloop s Hinit).
  destruct (for_of uncached (TwoHop.resolve_uncached env) s) as [[[]|e] s2]; [|done].
  exact Hloop.
Qed.

(** With a healthy backend, an id that was not in the store is in the
    store when the two-hop resolver returns, with the flag it settled on. *)
Lemma twohop_resolver_store env (variantIds : list string) (r : Redis) (id : string) :
  faults r = [] -> In id variantIds -> store r !! TwoHop.cacheKey id = None ->
  store (snd (TwoHop.getVariantPreOrderStatus env variantIds r)) !! TwoHop.cacheKey id
  = Some (CACHE_TTL, JSON_stringify (Spec.twohop_default env id)).
Proof.
  intros Hf Hin Hmiss.
  destruct (twohop_check_cache_loop variantIds r)
    as (l1 & r1 & E1 & Hst & Hlog1 & Hall & Hres & Hunc).
  pose proof (twohop_check_cache_loop_faults variantIds (TwoHop.mkLocals ∅ [], r) Hf) as Hf1.
  rewrite E1 in Hf1. simpl in Hf1.
  destruct (twohop_resolve_loop_store env (TwoHop.uncachedVariants l1) (l1, r1) Hf1)
    as [_ Hstore].
  destruct (twohop_resolve_loop env (TwoHop.uncachedVariants l1) l1 r1)
    as (l2 & r2 & E2 & _).
  rewrite E2 in Hstore. simpl in Hstore.
  unfold TwoHop.getVariantPreOrderStatus, with_locals, bind.
  rewrite E1. simpl. rewrite E2. simpl.
  apply Hstore. destruct (Hall id Hin) as [H1|Hu]; [|exact Hu].
  destruct (Hres id H1) as [_ Hhit]. contradiction.
Qed.

(** ** The batch resolver *)

Lemma batch_check_cache_eq variantId (s : Batch.Locals * Redis) :
  Batch.check_cache variantId s =
  (Ok tt,
   (match cache_read (Batch.cacheKey variantId) (snd s) with
    | Some c => Batch.results_set variantId c (fst s)
    | None => Batch.uncachedIds_push variantId (fst s)
    end,
    issued (GET (Batch.cacheKey variantId)) (store (snd s)) (snd s))).
Proof.
  unfold Batch.check_cache, bind, liftIO. rewrite batch_getCached_eq.
  destruct (cache_read _ _); reflexivity.
Qed.

Lemma batch_check_cache_loop (variantIds : list string) (r : Redis) :
  exists l1 r1,
    for_of variantIds Batch.check_cache (Batch.mkLocals ∅ [], r) = (Ok tt, (l1, r1)) /\
    store r1 = store r /\ log_extends r r1 /\ reads_only r r1 /\
    (forall id, In id variantIds ->
       is_Some (Batch.results l1 !! id) \/ In id (Batch.uncachedIds l1)) /\
    (forall id, is_Some (Batch.results l1 !! id) ->
       In id variantIds /\ store r !! Batch.cacheKey id <> None) /\
    (forall id, In id (Batch.uncachedIds l1) -> In id variantIds).
Proof.
  pose (I := fun (pre : list string) (s : Batch.Locals * Redis) =>
    store (snd s) = store r /\ log_extends r (snd s) /\ reads_only r (snd s) /\
    (forall id, In id pre ->
       is_Some (Batch.results (fst s) !! id) \/ In id (Batch.uncachedIds (fst s))) /\
    (forall id, is_Some (Batch.results (fst s) !! id) ->
       In id pre /\ store r !! Batch.cacheKey id <> None) /\
    (forall id, In id (Batch.uncachedIds (fst s)) -> In id pre)).
  assert (Hloop : hoare (I []) (for_of variantIds Batch.check_cache)
                    (fun _ => I variantIds) (fun _ => False)).
  { apply hoare_for_of. intros pre x post _ s (Hst & Hlog & Hrd & Hall & Hres & Hunc).
    rewrite batch_check_cache_eq. unfold I. simpl.
    split; [exact Hst|]. split.
    { eapply log_extends_trans; [exact Hlog | apply log_extends_issued]. }
    split.
    { intros cmd Hin. apply in_app_or in Hin as [Hin|[<-|[]]]; [by apply Hrd | by right]. }
    destruct (cache_read (Batch.cacheKey x) (snd s)) as [c|] eqn:Hread; simpl.
    - apply cache_read_hit in Hread. rewrite Hst in Hread. split; [|split].
      + intros id Hin. apply in_app_or in Hin as [Hin|[<-|[]]].
        * destruct (Hall id Hin) as [Hs|Hu]; [left|right; exact Hu].
          destruct (decide (x = id)) as [->|Hne];
            [rewrite lookup_insert_eq; eauto | by rewrite lookup_insert_ne].
        * left. rewrite lookup_insert_eq. eauto.
      + intros id Hs. destruct (decide (x = id)) as [->|Hne].
        * split; [|exact Hread]. apply in_or_app. right. by left.
        * rewrite lookup_insert_ne in Hs by done. destruct (Hres id Hs) as [Hin Hhit].
          split; [|exact Hhit]. apply in_or_app. by left.
      + intros id Hin. apply in_or_app. left. by apply Hunc.
    - split; [|split].
      + intros id Hin. apply in_app_or in Hin as [Hin|[<-|[]]].
        * destruct (Hall id Hin) as [Hs|Hu]; [by left|right]. apply in_or_app. by left.
        * right. apply in_or_app. right. by left.
      + intros id Hs. destruct (Hres id Hs) as [Hin Hhit].
        split; [|exact Hhit]. apply in_or_app. by left.
      + intros id Hin. apply in_app_or in Hin as [Hin|[<-|[]]]; apply in_or_app;
          [left; by apply Hunc | right; by left]. }
  assert (Hinit : I [] (Batch.mkLocals ∅ [], r)).
  { unfold I. simpl. split; [done|]. split; [apply log_extends_refl|].
    split; [intros cmd Hin; by left|]. split; [|split].
    - intros id [].
    - intros id [v Hv]. by rewrite lookup_empty in Hv.
    - intros id []. }
  specialize (Hloop _ Hinit).
  destruct (for_of variantIds Batch.check_cache (Batch.mkLocals ∅ [], r))
    as [[[]|e] [l1 r1]]; [|done].
  exists l1, r1. split; [reflexivity|]. exact Hloop.
Qed.

Lemma fetchVariantMetafields_eq env (variantIds : list string) (r : Redis) :
  exists out,
    Batch.fetchVariantMetafields env variantIds r = (out, r) /\
    match Spec.fetch_payload
            (Batch.shopify_graphql env (map (fun id => Batch.gid_prefix +:+ id) variantIds)) with
    | Some gql => out = Ok gql
    | None => exists e, out = Throw e
    end.
Proof.
  unfold Batch.fetchVariantMetafields, Spec.fetch_payload, bind.
  destruct (Batch.shopify_graphql env _) as [|[[|] [d|]]]; simpl; eauto.
Qed.

(** The loop over the answered nodes: ids that no node carries keep
    their (absent) entry; a throw means a node without an id. *)
Lemma batch_nodes_loop (ns : list (option Batch.Node)) (l1 : Batch.Locals) (r1 : Redis) :
  match for_of ns Batch.process_node (l1, r1) with
  | (out, (l2, r2)) =>
      log_extends r1 r2 /\
      (forall id, is_Some (Batch.results l1 !! id) -> is_Some (Batch.results l2 !! id)) /\
      (forall id, Batch.results l1 !! id = None ->
         (forall node node_id, In (Some node) ns -> Batch.id node = Some node_id ->
            replace node_id Batch.gid_prefix "" <> id) ->
         Batch.results l2 !! id = None) /\
      Batch.uncachedIds l2 = Batch.uncachedIds l1 /\
      match out with
      | Ok _ => True
      | Throw _ => exists node, In (Some node) ns /\ Batch.id node = None
      end
  end.
Proof.
  pose (I := fun (pre : list (option Batch.Node)) (s : Batch.Locals * Redis) =>
    log_extends r1 (snd s) /\
    (forall id, is_Some (Batch.results l1 !! id) -> is_Some (Batch.results (fst s) !! id)) /\
    (forall id, Batch.results l1 !! id = None ->
       (forall node node_id, In (Some node) ns -> Batch.id node = Some node_id ->
          replace node_id Batch.gid_prefix "" <> id) ->
       Batch.results (fst s) !! id = None) /\
    Batch.uncachedIds (fst s) = Batch.uncachedIds l1).
  assert (Hloop : hoare (I []) (for_of ns Batch.process_node) (fun _ => I ns)
            (fun s => I [] s /\ exists node, In (Some node) ns /\ Batch.id node = None)).
  { apply hoare_for_of. intros pre x post Hns s (Hlog & Hkeep & Hnone & Hunc).
    assert (Hx : In x ns). { rewrite Hns. apply in_or_app. right. by left. }
    unfold Batch.process_node. destruct x as [node|]; [|simpl; unfold I; auto].
    destruct (Batch.id node) as [node_id|] eqn:Hid.
    - unfold bind, assign, liftIO. simpl. rewrite batch_setCached_eq. unfold I. simpl.
      split; [eapply log_extends_trans; [exact Hlog | apply log_extends_issued]|].
      split; [|split; [|exact Hunc]].
      + intros id Hs.
        destruct (decide (replace node_id Batch.gid_prefix "" = id)) as [->|Hne];
          [rewrite lookup_insert_eq; eauto | rewrite lookup_insert_ne by done; auto].
      + intros id Hmiss Hnot. rewrite lookup_insert_ne; [by apply Hnone|].
        by apply (Hnot node node_id).
    - simpl. split; [unfold I; auto | eauto]. }
  assert (Hinit : I [] (l1, r1)).
  { unfold I. simpl. split; [apply log_extends_refl|]. auto. }
  specialize (Hloop _ Hinit).
  destruct (for_of ns Batch.process_node (l1, r1)) as [[[]|e] [l2 r2]].
  - destruct Hloop as (? & ? & ? & ?). auto.
  - destruct Hloop as [(? & ? & ? & ?) ?]. auto.
Qed.

Lemma batch_default_remaining_eq variantId (s : Batch.Locals * Redis) :
  Batch.default_remaining variantId s =
  (Ok tt,
   match Batch.results (fst s) !! variantId with
   | None =>
       (Batch.results_set variantId false (fst s),
        issued (SETEX (Batch.cacheKey variantId) CACHE_TTL (JSON_stringify false))
          (cache_written (Batch.cacheKey variantId) false (snd s)) (snd s))
   | Some _ => s
   end).
Proof.
  unfold Batch.default_remaining, bind, locals, assign, liftIO.
  destruct (Batch.results (fst s) !! variantId); simpl; [reflexivity|].
  rewrite batch_setCached_eq. reflexivity.
Qed.

(** The loop that defaults the ids the answer left out. *)
Lemma batch_default_loop (uncached : list string) (lN : Batch.Locals) (rN : Redis) :
  exists l2 r2,
    for_of uncached Batch.default_remaining (lN, rN) = (Ok tt, (l2, r2)) /\
    log_extends rN r2 /\
    (forall id v, Batch.results lN !! id = Some v -> Batch.results l2 !! id = Some v) /\
    (forall id, In id uncached -> is_Some (Batch.results l2 !! id)) /\
    (forall id, In id uncached -> Batch.results lN !! id = None ->
       Batch.results l2 !! id = Some false /\
       In (SETEX (Batch.cacheKey id) CACHE_TTL (JSON_stringify false)) (log r2)).
Proof.
  pose (I := fun (pre : list string) (s : Batch.Locals * Redis) =>
    log_extends rN (snd s) /\
    (forall id v, Batch.results lN !! id = Some v -> Batch.results (fst s) !! id = Some v) /\
    (forall id, In id pre -> is_Some (Batch.results (fst s) !! id)) /\
    (forall id, In id pre -> Batch.results lN !! id = None ->
       Batch.results (fst s) !! id = Some false /\
       In (SETEX (Batch.cacheKey id) CACHE_TTL (JSON_stringify false)) (log (snd s))) /\
    (forall id, is_Some (Batch.results (fst s) !! id) ->
       is_Some (Batch.results lN !! id) \/ In id pre)).
  assert (Hloop : hoare (I []) (for_of uncached Batch.default_remaining)
                    (fun _ => I uncached) (fun _ => False)).
  { apply hoare_for_of. intros pre x post _ s (Hlog & Hkeep & Hsome & Hdone & Hdom).
    rewrite batch_default_remaining_eq.
    destruct (Batch.results (fst s) !! x) as [v|] eqn:Hx; unfold I; simpl.
    - split; [exact Hlog|]. split; [exact Hkeep|]. split; [|split].
      + intros id Hin. apply in_app_or in Hin as [Hin|[<-|[]]]; [by apply Hsome | eauto].
      + intros id Hin Hmiss. apply in_app_or in Hin as [Hin|[<-|[]]]; [by apply Hdone|].
        destruct (Hdom x) as [[w Hw]|Hin]; [eauto | congruence | by apply Hdone].
      + intros id Hs. destruct (Hdom id Hs) as [?|Hin]; [by left|right].
        apply in_or_app. by left.
    - split; [eapply log_extends_trans; [exact Hlog | apply log_extends_issued]|].
      split; [|split; [|split]].
      + intros id v Hv. rewrite lookup_insert_ne; [by apply Hkeep|].
        intros ->. rewrite (Hkeep _ _ Hv) in Hx. discriminate.
      + intros id Hin. apply in_app_or in Hin as [Hin|[<-|[]]].
        * destruct (decide (x = id)) as [->|Hne];
            [rewrite lookup_insert_eq; eauto | rewrite lookup_insert_ne by done; auto].
        * rewrite lookup_insert_eq. eauto.
      + intros id Hin Hmiss. apply in_app_or in Hin as [Hin|[<-|[]]].
        * destruct (Hdone id Hin Hmiss) as [Hv Hw]. split.
          -- rewrite lookup_insert_ne; [exact Hv|]. intros ->. congruence.
          -- apply in_or_app. by left.
        * split; [by rewrite lookup_insert_eq|]. apply in_or_app. right. by left.
      + intros id Hs. destruct (decide (x = id)) as [->|Hne].
        * right. apply in_or_app. right. by left.
        * rewrite lookup_insert_ne in Hs by done.
          destruct (Hdom id Hs) as [?|Hin]; [by left|right]. apply in_or_app. by left. }
  assert (Hinit : I [] (lN, rN)).
  { unfold I. simpl. split; [apply log_extends_refl|]. split; [auto|].
    split; [intros id []|]. split; [intros id []|]. auto. }
  specialize (Hloop _ Hinit).
  destruct (for_of uncached Batch.default_remaining (lN, rN)) as [[[]|e] [l2 r2]]; [|done].
  exists l2, r2. split; [reflexivity|].
  destruct Hloop as (? & ? & ? & ? & ?). auto.
Qed.

(** The fallback loop of the [catch] block: no Redis command at all. *)
Lemma batch_fallback_loop (uncached : list string) (lE : Batch.Locals) (rE : Redis) :
  exists l2,
    for_of uncached (fun variantId => assign (Batch.results_set variantId false)) (lE, rE)
      = (Ok tt, (l2, rE)) /\
    (forall id, is_Some (Batch.results lE !! id) -> is_Some (Batch.results l2 !! id)) /\
    (forall id, In id uncached -> Batch.results l2 !! id = Some false).
Proof.
  pose (I := fun (pre : list string) (s : Batch.Locals * Redis) =>
    snd s = rE /\
    (forall id, is_Some (Batch.results lE !! id) -> is_Some (Batch.results (fst s) !! id)) /\
    (forall id, In id pre -> Batch.results (fst s) !! id = Some false)).
  assert (Hloop : hoare (I [])
            (for_of uncached (fun variantId => assign (Batch.results_set variantId false)))
            (fun _ => I uncached) (fun _ => False)).
  { apply hoare_for_of. intros pre x post _ s (Hr & Hkeep & Hdone).
    unfold assign, I. simpl. split; [exact Hr|]. split.
    - intros id Hs. destruct (decide (x = id)) as [->|Hne];
        [rewrite lookup_insert_eq; eauto | rewrite lookup_insert_ne by done; auto].
    - intros id Hin. apply in_app_or in Hin as [Hin|[<-|[]]].
      + destruct (decide (x = id)) as [->|Hne];
          [by rewrite lookup_insert_eq | rewrite lookup_insert_ne by done; auto].
      + by rewrite lookup_insert_eq. }
  assert (Hinit : I [] (lE, rE)).
  { unfold I. simpl. split; [done|]. split; [auto|]. intros id []. }
  specialize (Hloop _ Hinit).
  destruct (for_of uncached _ (lE, rE)) as [[[]|e] [l2 r2]]; [|done].
  destruct Hloop as (Hr & ? & ?). simpl in Hr. subst r2.
  exists l2. auto.
Qed.

Lemma batch_check_cache_loop_faults (variantIds : list string) (s : Batch.Locals * Redis) :
  faults (snd s) = [] ->
  faults (snd (snd (for_of variantIds Batch.check_cache s))) = [].
Proof.
  revert s. induction variantIds as [|x l IH]; intros s H; [exact H|].
  cbn [for_of]. unfold bind. rewrite batch_check_cache_eq. apply IH.
  simpl. by rewrite H.
Qed.

Lemma batch_nodes_loop_faults (ns : list (option Batch.Node)) (s : Batch.Locals * Redis) :
  faults (snd s) = [] ->
  faults (snd (snd (for_of ns Batch.process_node s))) = [].
Proof.
  revert s. induction ns as [|x l IH]; intros s H; [exact H|].
  cbn [for_of]. unfold bind at 1. unfold Batch.process_node at 1.
  destruct x as [node|]; [|by apply IH].
  destruct (Batch.id node) as [node_id|]; [|exact H].
  unfold bind, assign, liftIO. simpl. rewrite batch_setCached_eq. apply IH.
  simpl. by rewrite H.
Qed.

(** With a healthy backend the store ends up holding [false], under the
    TTL, for every id the defaulting loop found without an entry. *)
Lemma batch_default_loop_store (uncached : list string) (lN : Batch.Locals) (rN : Redis) :
  faults rN = [] ->
  forall id, In id uncached -> Batch.results lN !! id = None ->
    store (snd (snd (for_of uncached Batch.default_remaining (lN, rN))))
      !! Batch.cacheKey id
    = Some (CACHE_TTL, JSON_stringify false).
Proof.
  intros Hf.
  pose (I := fun (pre : list string) (s : Batch.Locals * Redis) =>
    faults (snd s) = [] /\
    (forall id, In id pre -> Batch.results lN !! id = None ->
       store (snd s) !! Batch.cacheKey id = Some (CACHE_TTL, JSON_stringify false)) /\
    (forall id, is_Some (Batch.results (fst s) !! id) ->
       is_Some (Batch.results lN !! id) \/ In id pre) /\
    (forall id, In id pre -> is_Some (Batch.results (fst s) !! id))).
  assert (Hloop : hoare (I []) (for_of uncached Batch.default_remaining)
                    (fun _ => I uncached) (fun _ => False)).
  { apply hoare_for_of. intros pre x post _ s (Hf' & Hdone & Hdom & Hsome).
    rewrite batch_default_remaining_eq.
    destruct (Batch.results (fst s) !! x) as [v|] eqn:Hx; unfold I; simpl.
    - split; [exact Hf'|]. split; [|split].
      + intros id Hin Hmiss. apply in_app_or in Hin as [Hin|[<-|[]]]; [by apply Hdone|].
        destruct (Hdom x) as [[w Hw]|Hin]; [eauto | congruence | by apply Hdone].
      + intros id Hs. destruct (Hdom id Hs) as [?|Hin]; [by left|right].
        apply in_or_app. by left.
      + intros id Hin. apply in_app_or in Hin as [Hin|[<-|[]]]; [by apply Hsome | eauto].
    - split; [by rewrite Hf'|]. rewrite (cache_written_healthy _ _ _ Hf'). split; [|split].
      + intros id Hin Hmiss. apply in_app_or in Hin as [Hin|[<-|[]]];
          [|by rewrite lookup_insert_eq].
        rewrite lookup_insert_ne; [by apply Hdone|].
        intros Heq. apply batch_cacheKey_inj in Heq as ->.
        destruct (Hsome id Hin) as [w Hw]. congruence.
      + intros id Hs. destruct (decide (x = id)) as [->|Hne].
        * right. apply in_or_app. right. by left.
        * rewrite lookup_insert_ne in Hs by done.
          destruct (Hdom id Hs) as [?|Hin]; [by left|right]. apply in_or_app. by left.
      + intros id Hin. apply in_app_or in Hin as [Hin|[<-|[]]].
        * destruct (decide (x = id)) as [->|Hne];
            [rewrite lookup_insert_eq; eauto | rewrite lookup_insert_ne by done; auto].
        * rewrite lookup_insert_eq. eauto. }
  assert (Hinit : I [] (lN, rN)).
  { unfold I. simpl. split; [exact Hf|]. split; [intros id []|]. split; [auto|]. intros id []. }
  specialize (Hloop _ Hinit).
  destruct (for_of uncached Batch.default_remaining (lN, rN)) as [[[]|e] s2]; [|done].
  destruct Hloop as (_ & Hdone & _). exact Hdone.
Qed.

Lemma nodes_of_loop (gql : Batch.GqlData) (s : Batch.Locals * Redis) :
  match Batch.data gql with
  | Some d =>
      match Batch.nodes d with
      | Some ns => for_of ns Batch.process_node
      | None => ret tt
      end
  | None => ret tt
  end s = for_of (nodes_of gql) Batch.process_node s.
Proof.
  unfold nodes_of. destruct (Batch.data gql) as [d|]; [|reflexivity].
  destruct (Batch.nodes d); reflexivity.
Qed.

Lemma not_listed_nodes_of f gql id :
  Spec.fetch_payload f = Some gql -> ~ Spec.batch_lists f id ->
  forall node node_id, In (Some node) (nodes_of gql) -> Batch.id node = Some node_id ->
    replace node_id Batch.gid_prefix "" <> id.
Proof.
  intros Hp Hnot node node_id Hin Hid Heq. apply Hnot.
  unfold nodes_of in Hin.
  destruct (Batch.data gql) as [d|] eqn:Hd; [|destruct Hin].
  destruct (Batch.nodes d) as [ns|] eqn:Hns; [|destruct Hin].
  exists gql, d, ns, node, node_id. tauto.
Qed.

Lemma malformed_nodes_of f gql node :
  Spec.fetch_payload f = Some gql -> In (Some node) (nodes_of gql) -> Batch.id node = None ->
  ~ Spec.batch_well_formed f.
Proof.
  intros Hp Hin Hid (gql' & Hp' & Hwf). rewrite Hp in Hp'. injection Hp' as <-.
  unfold nodes_of in Hin.
  destruct (Batch.data gql) as [d|] eqn:Hd; [|destruct Hin].
  destruct (Batch.nodes d) as [ns|] eqn:Hns; [|destruct Hin].
  exact (Hwf d ns node eq_refl Hns Hin Hid).
Qed.

(** The batch lookup of the uncached ids, [try] and [catch] together. *)
Lemma batch_fetch_uncached env (uncached : list string) (l1 : Batch.Locals) (r1 : Redis) :
  exists l2 r2,
    Batch.fetch_uncached env uncached (l1, r1) = (Ok tt, (l2, r2)) /\
    log_extends r1 r2 /\
    (forall id, is_Some (Batch.results l1 !! id) -> is_Some (Batch.results l2 !! id)) /\
    (forall id, In id uncached -> is_Some (Batch.results l2 !! id)) /\
    (forall id, In id uncached -> Batch.results l1 !! id = None ->
       ~ Spec.batch_lists (batch_query env uncached) id ->
       Batch.results l2 !! id = Some false /\
       (Spec.batch_well_formed (batch_query env uncached) ->
        In (SETEX (Batch.cacheKey id) CACHE_TTL (JSON_stringify false)) (log r2) /\
        (faults r1 = [] ->
         store r2 !! Batch.cacheKey id = Some (CACHE_TTL, JSON_stringify false)))) /\
    (Spec.fetch_payload (batch_query env uncached) = None -> r2 = r1).
Proof.
  unfold Batch.fetch_uncached, try_catch.
  unfold bind at 1. unfold bind at 1. unfold liftIO at 1. simpl.
  destruct (fetchVariantMetafields_eq env uncached r1) as (out & -> & Hout).
  fold (batch_query env uncached) in Hout.
  destruct (Spec.fetch_payload (batch_query env uncached)) as [gql|] eqn:Hp.
  - subst out. rewrite nodes_of_loop.
    pose proof (batch_nodes_loop (nodes_of gql) l1 r1) as Hnodes.
    pose proof (batch_nodes_loop_faults (nodes_of gql) (l1, r1)) as HfN.
    destruct (for_of (nodes_of gql) Batch.process_node (l1, r1)) as [[[]|e] [lN rN]].
    + destruct Hnodes as (Hlog & Hkeep & Hnone & _ & _).
      pose proof (batch_default_loop_store uncached lN rN) as Hstore.
      destruct (batch_default_loop uncached lN rN)
        as (l2 & r2 & E2 & Hlog2 & Hkeep2 & Hsome & Hdone).
      rewrite E2 in Hstore |- *. simpl in Hstore, HfN.
      exists l2, r2. split; [reflexivity|].
      split; [eapply log_extends_trans; eassumption|].
      split; [|split; [exact Hsome|split; [|discriminate]]].
      * intros id Hs. destruct (Hkeep id Hs) as [v Hv]. rewrite (Hkeep2 _ _ Hv). eauto.
      * intros id Hin Hmiss Hnot.
        assert (HN : Batch.results lN !! id = None).
        { apply Hnone; [exact Hmiss|]. by apply (not_listed_nodes_of _ _ _ Hp). }
        destruct (Hdone id Hin HN) as [Hv Hw]. split; [exact Hv|].
        intros _. split; [exact Hw|]. intros Hf. apply Hstore; auto.
    + destruct Hnodes as (Hlog & Hkeep & _ & _ & node & Hin & Hid).
      destruct (batch_fallback_loop uncached lN rN) as (l2 & -> & Hkeep2 & Hdone).
      exists l2, rN. split; [reflexivity|]. split; [exact Hlog|].
      split; [auto|]. split; [intros id Hu; rewrite (Hdone id Hu); eauto|].
      split; [|discriminate].
      intros id Hu _ _. split; [by apply Hdone|].
      intros Hwf. destruct (malformed_nodes_of _ _ _ Hp Hin Hid Hwf).
  - destruct Hout as [e ->].
    destruct (batch_fallback_loop uncached l1 r1) as (l2 & -> & Hkeep2 & Hdone).
    exists l2, r1. split; [reflexivity|]. split; [apply log_extends_refl|].
    split; [auto|]. split; [intros id Hu; rewrite (Hdone id Hu); eauto|].
    split; [|reflexivity].
    intros id Hu _ _. split; [by apply Hdone|].
    intros (gql & Hp' & _). congruence.
Qed.

(** The batch resolver never throws; its mapping has an entry for every
    requested id; an id missing from the store that the answer does not
    list is mapped to [false], with a cache write when the answer is
    well formed; when the request fails nothing is written. *)
Lemma batch_resolver env (variantIds : list string) (r : Redis) :
  exists results r' uncached,
    Batch.getVariantPreOrderStatus env variantIds r = (Ok results, r') /\
    log_extends r r' /\
    (forall id, In id variantIds -> is_Some (results !! id)) /\
    (forall id, In id variantIds -> store r !! Batch.cacheKey id = None ->
       ~ Spec.batch_lists (batch_query env uncached) id ->
       results !! id = Some false /\
       (Spec.batch_well_formed (batch_query env uncached) ->
        In (SETEX (Batch.cacheKey id) CACHE_TTL (JSON_stringify false)) (log r') /\
        (faults r = [] ->
         store r' !! Batch.cacheKey id = Some (CACHE_TTL, JSON_stringify false)))) /\
    (Spec.fetch_payload (batch_query env uncached) = None ->
       reads_only r r' /\ store r' = store r).
Proof.
  destruct (batch_check_cache_loop variantIds r)
    as (l1 & r1 & E1 & Hst & Hlog1 & Hrd & Hall & Hres & Hunc).
  pose proof (batch_check_cache_loop_faults variantIds (Batch.mkLocals ∅ [], r)) as Hf1.
  rewrite E1 in Hf1. simpl in Hf1.
  assert (Hstep : exists l2 r2,
    (if Nat.ltb 0 (length (Batch.uncachedIds l1))
     then Batch.fetch_uncached env (Batch.uncachedIds l1) else ret tt) (l1, r1)
      = (Ok tt, (l2, r2)) /\
    log_extends r1 r2 /\
    (forall id, is_Some (Batch.results l1 !! id) -> is_Some (Batch.results l2 !! id)) /\
    (forall id, In id (Batch.uncachedIds l1) -> is_Some (Batch.results l2 !! id)) /\
    (forall id, In id (Batch.uncachedIds l1) -> Batch.results l1 !! id = None ->
       ~ Spec.batch_lists (batch_query env (Batch.uncachedIds l1)) id ->
       Batch.results l2 !! id = Some false /\
       (Spec.batch_well_formed (batch_query env (Batch.uncachedIds l1)) ->
        In (SETEX (Batch.cacheKey id) CACHE_TTL (JSON_stringify false)) (log r2) /\
        (faults r1 = [] ->
         store r2 !! Batch.cacheKey id = Some (CACHE_TTL, JSON_stringify false)))) /\
    (Spec.fetch_payload (batch_query env (Batch.uncachedIds l1)) = None -> r2 = r1)).
  { destruct (Batch.uncachedIds l1) as [|u us] eqn:Hu.
    - exists l1, r1. simpl. split; [reflexivity|]. split; [apply log_extends_refl|].
      split; [auto|]. split; [intros id []|]. split; [intros id []|]. auto.
    - simpl. apply batch_fetch_uncached. }
  destruct Hstep as (l2 & r2 & E2 & Hlog2 & Hkeep & Hsome & Hdone & Hfail).
  exists (Batch.results l2), r2, (Batch.uncachedIds l1).
  split.
  { unfold Batch.getVariantPreOrderStatus, with_locals.
    unfold bind at 1. rewrite E1.
    unfold bind at 1. unfold locals at 1. simpl fst.
    unfold bind at 1. rewrite E2. reflexivity. }
  split; [eapply log_extends_trans; eassumption|].
  split; [|split].
  - intros id Hin. destruct (Hall id Hin) as [H1|Hu]; [by apply Hkeep | by apply Hsome].
  - intros id Hin Hmiss Hnot.
    assert (H1 : Batch.results l1 !! id = None).
    { destruct (Batch.results l1 !! id) as [v|] eqn:Hv; [|reflexivity].
      destruct (Hres id) as [_ Hhit]; [eauto|contradiction]. }
    assert (Hu : In id (Batch.uncachedIds l1)).
    { destruct (Hall id Hin) as [[v Hv]|Hu]; [congruence|exact Hu]. }
    destruct (Hdone id Hu H1 Hnot) as [Hv Hw]. split; [exact Hv|].
    intros Hwf. destruct (Hw Hwf) as [Hlog Hstore]. split; [exact Hlog|].
    intros Hf. apply Hstore. by apply Hf1.
  - intros Hp. rewrite (Hfail Hp). split; [exact Hrd | exact Hst].
Qed.

(** ** Numbers that are integers *)

Lemma digits2_size (p : positive) : digits2_pos p = Pos.size p.
Proof. induction p as [p IH|p IH|]; simpl; [by rewrite IH | by rewrite IH | reflexivity]. Qed.

Lemma digits2_log2 (p : positive) : Zpos (digits2_pos p) = Z.log2 (Zpos p) + 1.
Proof.
  rewrite digits2_size. destruct p as [p|p|]; simpl; [| |reflexivity];
    rewrite Pos2Z.inj_succ; lia.
Qed.

Lemma shr_1_even (z : Z) :
  0 < z ->
  shr_1 {| shr_m := 2 * z; shr_r := false; shr_s := false |} =
  {| shr_m := z; shr_r := false; shr_s := false |}.
Proof. destruct z as [|p|p]; [lia | reflexivity | lia]. Qed.

Lemma pow2_xO (p : positive) : 2 ^ Zpos p~0 = 2 ^ Zpos p * 2 ^ Zpos p.
Proof. replace (Zpos p~0) with (Zpos p + Zpos p) by lia. apply Z.pow_add_r; lia. Qed.

Lemma pow2_xI (p : positive) : 2 ^ Zpos p~1 = 2 * (2 ^ Zpos p * 2 ^ Zpos p).
Proof.
  replace (Zpos p~1) with (1 + (Zpos p + Zpos p)) by lia.
  rewrite Z.pow_add_r, Z.pow_add_r by lia. reflexivity.
Qed.

Lemma iter_shr_exact (p : positive) (x : Z) :
  0 < x ->
  SpecFloat.iter_pos shr_1 p {| shr_m := x * 2 ^ Zpos p; shr_r := false; shr_s := false |} =
  {| shr_m := x; shr_r := false; shr_s := false |}.
Proof.
  revert x. induction p as [p IH|p IH|]; intros x Hx.
  - cbn [SpecFloat.iter_pos]. rewrite pow2_xI.
    assert (0 < 2 ^ Zpos p) by (apply Z.pow_pos_nonneg; lia).
    replace (x * (2 * (2 ^ Zpos p * 2 ^ Zpos p))) with (2 * ((x * 2 ^ Zpos p) * 2 ^ Zpos p))
      by ring.
    rewrite shr_1_even by nia. rewrite IH by nia. by apply IH.
  - cbn [SpecFloat.iter_pos]. rewrite pow2_xO.
    assert (0 < 2 ^ Zpos p) by (apply Z.pow_pos_nonneg; lia).
    replace (x * (2 ^ Zpos p * 2 ^ Zpos p)) with ((x * 2 ^ Zpos p) * 2 ^ Zpos p) by ring.
    rewrite IH by nia. by apply IH.
  - cbn [SpecFloat.iter_pos]. replace (x * 2 ^ 1) with (2 * x) by lia. by apply shr_1_even.
Qed.

(** Rounding a value that needs no rounding: [v * 2^k * 2^e] with [v] of
    at most 53 bits. *)
Lemma round_exact (s : bool) (M : positive) (v k e : Z) :
  0 < v -> Z.log2 v + 1 <= 53 -> 0 <= k -> Zpos M = v * 2 ^ k ->
  53 <= Z.log2 v + 1 + k ->
  -1074 <= Z.log2 v + 1 + k + e - 53 <= 971 ->
  binary_round_aux Number.prec Number.emax s (Zpos M) e loc_Exact =
  S754_finite s (Z.to_pos (v * 2 ^ (53 - (Z.log2 v + 1)))) (Z.log2 v + 1 + k + e - 53).
Proof.
  intros Hv Hd Hk HM Hn He.
  set (d := Z.log2 v + 1) in *.
  assert (HD : Zdigits2 (Zpos M) = d + k).
  { cbn [Zdigits2]. rewrite digits2_log2, HM, Z.log2_mul_pow2 by lia. lia. }
  set (m' := v * 2 ^ (53 - d)).
  assert (Hm' : 0 < m') by (apply Z.mul_pos_pos; [lia | apply Z.pow_pos_nonneg; lia]).
  assert (HMm : Zpos M = m' * 2 ^ (d + k - 53)).
  { rewrite HM. unfold m'. rewrite <- Z.mul_assoc, <- Z.pow_add_r by lia.
    f_equal. f_equal. lia. }
  assert (Hfexp : forall x, -1074 <= x - 53 -> fexp Number.prec Number.emax x = x - 53).
  { intros x Hx. unfold fexp, emin, Number.prec, Number.emax. lia. }
  unfold binary_round_aux.
  assert (H1 : shr_fexp Number.prec Number.emax (Zpos M) e loc_Exact =
               ({| shr_m := m'; shr_r := false; shr_s := false |}, d + k + e - 53)).
  { unfold shr_fexp. rewrite HD, Hfexp by lia. cbn [shr_record_of_loc].
    destruct (d + k + e - 53 - e) as [|p|p] eqn:Hp; [|
      |lia].
    - cbn [shr]. f_equal; [|lia]. f_equal. rewrite HMm.
      replace (d + k - 53) with 0 by lia. lia.
    - cbn [shr]. f_equal; [|lia]. rewrite HMm.
      replace (d + k - 53) with (Zpos p) by lia. by apply iter_shr_exact. }
  rewrite H1. cbn [shr_m loc_of_shr_record round_nearest_even].
  assert (HD' : Zdigits2 m' = 53).
  { destruct m' as [|pm|pm] eqn:Hpm; [lia| |lia]. cbn [Zdigits2].
    rewrite digits2_log2, <- Hpm. unfold m'. rewrite Z.log2_mul_pow2 by lia. lia. }
  assert (H2 : shr_fexp Number.prec Number.emax m' (d + k + e - 53) loc_Exact =
               ({| shr_m := m'; shr_r := false; shr_s := false |}, d + k + e - 53)).
  { unfold shr_fexp. rewrite HD', Hfexp by lia. cbn [shr_record_of_loc].
    replace (53 + (d + k + e - 53) - 53 - (d + k + e - 53)) with 0 by lia. reflexivity. }
  rewrite H2. cbn [shr_m].
  destruct m' as [|pm|pm] eqn:Hpm; [lia| |lia].
  replace (d + k + e - 53 <=? Number.emax - Number.prec) with true.
  2:{ symmetry. apply Z.leb_le. unfold Number.emax, Number.prec. lia. }
  reflexivity.
Qed.

Lemma iter_xO (p n : positive) : Zpos (Pos.iter xO p n) = Zpos p * 2 ^ Zpos n.
Proof.
  induction n as [|n IH] using Pos.peano_ind.
  - cbn [Pos.iter]. lia.
  - rewrite Pos.iter_succ, Pos2Z.inj_xO, IH, Pos2Z.inj_succ, Z.pow_succ_r by lia. ring.
Qed.

(** The Number of a positive integer below [2^53], written out. *)
Lemma of_Z_pos (z : Z) :
  0 < z < 2 ^ 53 ->
  Number.of_Z z = S754_finite false (Z.to_pos (z * 2 ^ (53 - Number.bits z))) (Number.bits z - 53).
Proof.
  intros Hz. unfold Number.bits.
  assert (Hd : 0 <= Z.log2 z < 53).
  { split; [apply Z.log2_nonneg|]. apply Z.log2_lt_pow2; lia. }
  destruct z as [|p|p]; [lia| |lia].
  unfold Number.of_Z. cbn [binary_normalize]. unfold binary_round.
  rewrite digits2_log2.
  replace (fexp Number.prec Number.emax (Z.log2 (Zpos p) + 1 + 0))
    with (Z.log2 (Zpos p) + 1 - 53)
    by (unfold fexp, emin, Number.prec, Number.emax; lia).
  unfold shl_align.
  destruct (Z.log2 (Zpos p) + 1 - 53 - 0) as [|q|q] eqn:Hq; [|lia|].
  - rewrite (round_exact false p (Zpos p) 0 0); try lia.
    f_equal; lia.
  - assert (Hiter := iter_xO p q).
    destruct (Pos.iter xO p q) as [m|m|] eqn:Hm.
    + rewrite (round_exact false m~1 (Zpos p) (Zpos q) (Z.log2 (Zpos p) + 1 - 53));
        try lia. f_equal; lia.
    + rewrite (round_exact false m~0 (Zpos p) (Zpos q) (Z.log2 (Zpos p) + 1 - 53));
        try lia. f_equal; lia.
    + rewrite (round_exact false 1 (Zpos p) (Zpos q) (Z.log2 (Zpos p) + 1 - 53));
        try lia. f_equal; lia.
Qed.

Lemma bits_bounds (z : Z) : 0 < z < 2 ^ 53 -> 1 <= Number.bits z <= 53.
Proof.
  intros Hz. unfold Number.bits. split; [pose proof (Z.log2_nonneg z); lia|].
  assert (Z.log2 z < 53) by (apply Z.log2_lt_pow2; lia). lia.
Qed.

Lemma mantissa_pos (z : Z) : 0 < z < 2 ^ 53 -> 0 < z * 2 ^ (53 - Number.bits z).
Proof.
  intros Hz. pose proof (bits_bounds z Hz).
  apply Z.mul_pos_pos; [lia | apply Z.pow_pos_nonneg; lia].
Qed.

Lemma mul_of_Z_pos (a b : Z) :
  0 < a -> 0 < b -> a * b < 2 ^ 53 ->
  Number.mul (Number.of_Z a) (Number.of_Z b) = Number.of_Z (a * b).
Proof.
  intros Ha Hb Hab.
  assert (Ha' : 0 < a < 2 ^ 53) by nia. assert (Hb' : 0 < b < 2 ^ 53) by nia.
  assert (Hab' : 0 < a * b < 2 ^ 53) by nia.
  rewrite (of_Z_pos a Ha'), (of_Z_pos b Hb'), (of_Z_pos (a * b) Hab').
  pose proof (bits_bounds a Ha'). pose proof (bits_bounds b Hb').
  pose proof (bits_bounds (a * b) Hab').
  pose proof (mantissa_pos a Ha'). pose proof (mantissa_pos b Hb').
  assert (Hlow : Number.bits a + Number.bits b - 1 <= Number.bits (a * b)).
  { unfold Number.bits. pose proof (Z.log2_mul_below a b Ha Hb). lia. }
  unfold Number.mul. cbn [SFmul xorb].
  rewrite (round_exact false _ (a * b) (106 - Number.bits a - Number.bits b) (Number.bits a - 53 + (Number.bits b - 53)));
    fold (Number.bits (a * b)); try lia.
  - f_equal. lia.
  - rewrite Pos2Z.inj_mul, !Z2Pos.id by lia.
    replace (106 - Number.bits a - Number.bits b) with ((53 - Number.bits a) + (53 - Number.bits b)) by lia.
    rewrite Z.pow_add_r by lia. ring.
Qed.

Lemma of_Z_0 : Number.of_Z 0 = S754_zero false.
Proof. reflexivity. Qed.

Lemma mul_of_Z (a b : Z) :
  0 <= a < 2 ^ 53 -> 0 <= b < 2 ^ 53 -> a * b < 2 ^ 53 ->
  Number.mul (Number.of_Z a) (Number.of_Z b) = Number.of_Z (a * b).
Proof.
  intros Ha Hb Hab.
  destruct (Z.eq_dec a 0) as [->|Ha0].
  - rewrite Z.mul_0_l, of_Z_0. destruct (Z.eq_dec b 0) as [->|Hb0]; [reflexivity|].
    rewrite (of_Z_pos b) by lia. reflexivity.
  - destruct (Z.eq_dec b 0) as [->|Hb0].
    + rewrite Z.mul_0_r, of_Z_0. rewrite (of_Z_pos a) by lia. reflexivity.
    + apply mul_of_Z_pos; lia.
Qed.

Lemma shl_align_fst (m : positive) (e e' : Z) :
  e' <= e -> Zpos (fst (shl_align m e e')) = Zpos m * 2 ^ (e - e').
Proof.
  intros He. unfold shl_align. destruct (e' - e) as [|p|p] eqn:Hp; [|lia|].
  - cbn [fst]. replace (e - e') with 0 by lia. lia.
  - cbn [fst]. rewrite iter_xO. f_equal. f_equal. lia.
Qed.

Lemma bits_mono (a b : Z) : 0 < a -> a <= b -> Number.bits a <= Number.bits b.
Proof. intros Ha Hab. unfold Number.bits. pose proof (Z.log2_le_mono a b Hab). lia. Qed.

Lemma add_of_Z_pos (a b : Z) :
  0 < a -> 0 < b -> a + b < 2 ^ 53 ->
  Number.add (Number.of_Z a) (Number.of_Z b) = Number.of_Z (a + b).
Proof.
  intros Ha Hb Hab.
  assert (Ha' : 0 < a < 2 ^ 53) by lia. assert (Hb' : 0 < b < 2 ^ 53) by lia.
  assert (Hab' : 0 < a + b < 2 ^ 53) by lia.
  rewrite (of_Z_pos a Ha'), (of_Z_pos b Hb'), (of_Z_pos (a + b) Hab').
  pose proof (bits_bounds a Ha'). pose proof (bits_bounds b Hb').
  pose proof (bits_bounds (a + b) Hab').
  pose proof (mantissa_pos a Ha'). pose proof (mantissa_pos b Hb').
  pose proof (bits_mono a (a + b) Ha ltac:(lia)).
  pose proof (bits_mono b (a + b) Hb ltac:(lia)).
  unfold Number.add. cbn [SFadd cond_Zopp].
  set (ez := Z.min (Number.bits a - 53) (Number.bits b - 53)).
  rewrite !shl_align_fst by (unfold ez; lia).
  rewrite !Z2Pos.id by lia.
  assert (Hsum : a * 2 ^ (53 - Number.bits a) * 2 ^ (Number.bits a - 53 - ez) +
                 b * 2 ^ (53 - Number.bits b) * 2 ^ (Number.bits b - 53 - ez) = (a + b) * 2 ^ (- ez)).
  { rewrite <- !Z.mul_assoc, <- !Z.pow_add_r by (unfold ez; lia).
    replace (53 - Number.bits a + (Number.bits a - 53 - ez)) with (- ez) by lia.
    replace (53 - Number.bits b + (Number.bits b - 53 - ez)) with (- ez) by lia. ring. }
  rewrite Hsum.
  assert (Hpos : 0 < (a + b) * 2 ^ (- ez)).
  { apply Z.mul_pos_pos; [lia | apply Z.pow_pos_nonneg; unfold ez; lia]. }
  destruct ((a + b) * 2 ^ (- ez)) as [|M|M] eqn:HM; [lia| |lia].
  cbn [binary_normalize]. unfold binary_round.
  assert (HD : Zpos (digits2_pos M) = Number.bits (a + b) - ez).
  { rewrite digits2_log2, <- HM. unfold Number.bits.
    rewrite Z.log2_mul_pow2 by (unfold ez; lia). lia. }
  rewrite HD.
  replace (fexp Number.prec Number.emax (Number.bits (a + b) - ez + ez)) with (Number.bits (a + b) - 53)
    by (unfold fexp, emin, Number.prec, Number.emax; lia).
  unfold shl_align.
  destruct (Number.bits (a + b) - 53 - ez) as [|p|p] eqn:Hp; [| |unfold ez in Hp; lia].
  - rewrite (round_exact false M (a + b) (- ez) ez); fold (Number.bits (a + b));
      try (unfold ez; lia); [f_equal; lia | by rewrite HM].
  - rewrite (round_exact false M (a + b) (- ez) ez); fold (Number.bits (a + b));
      try (unfold ez; lia); [f_equal; lia | by rewrite HM].
Qed.

Lemma add_of_Z (a b : Z) :
  0 <= a -> 0 <= b -> a + b < 2 ^ 53 ->
  Number.add (Number.of_Z a) (Number.of_Z b) = Number.of_Z (a + b).
Proof.
  intros Ha Hb Hab.
  destruct (Z.eq_dec a 0) as [->|Ha0].
  - rewrite Z.add_0_l, of_Z_0. destruct (Z.eq_dec b 0) as [->|Hb0]; [reflexivity|].
    rewrite (of_Z_pos b) by lia. reflexivity.
  - destruct (Z.eq_dec b 0) as [->|Hb0].
    + rewrite Z.add_0_r, of_Z_0. rewrite (of_Z_pos a) by lia. reflexivity.
    + apply add_of_Z_pos; lia.
Qed.

Lemma to_Z_of_Z (z : Z) : 0 <= z < 2 ^ 53 -> Number.to_Z (Number.of_Z z) = z.
Proof.
  intros Hz. destruct (Z.eq_dec z 0) as [->|Hz0]; [reflexivity|].
  rewrite of_Z_pos by lia. pose proof (bits_bounds z ltac:(lia)).
  pose proof (mantissa_pos z ltac:(lia)).
  cbn [Number.to_Z]. rewrite Z2Pos.id by lia.
  destruct (0 <=? Number.bits z - 53) eqn:He.
  - apply Z.leb_le in He. replace (Number.bits z - 53) with 0 by lia.
    replace (53 - Number.bits z) with 0 by lia. lia.
  - replace (- (Number.bits z - 53)) with (53 - Number.bits z) by lia.
    apply Z.div_mul. apply Z.pow_nonzero; lia.
Qed.

Lemma compare_of_Z (a b : Z) :
  0 <= a < 2 ^ 53 -> 0 <= b < 2 ^ 53 ->
  SFcompare (Number.of_Z a) (Number.of_Z b) = Some (a ?= b).
Proof.
  intros Ha Hb.
  destruct (Z.eq_dec a 0) as [->|Ha0]; destruct (Z.eq_dec b 0) as [->|Hb0].
  - reflexivity.
  - rewrite of_Z_0, (of_Z_pos b) by lia. cbn [SFcompare].
    f_equal. symmetry. apply Z.compare_lt_iff. lia.
  - rewrite of_Z_0, (of_Z_pos a) by lia. cbn [SFcompare].
    f_equal. symmetry. apply Z.compare_gt_iff. lia.
  - rewrite (of_Z_pos a), (of_Z_pos b) by lia. cbn [SFcompare]. f_equal.
    pose proof (bits_bounds a ltac:(lia)) as Hba. pose proof (bits_bounds b ltac:(lia)) as Hbb.
    pose proof (mantissa_pos a ltac:(lia)). pose proof (mantissa_pos b ltac:(lia)).
    assert (Hspec : forall z, 0 < z -> 2 ^ (Number.bits z - 1) <= z < 2 ^ Number.bits z).
    { intros z Hz. unfold Number.bits. replace (Z.log2 z + 1 - 1) with (Z.log2 z) by lia.
      pose proof (Z.log2_spec z Hz). replace (Z.log2 z + 1) with (Z.succ (Z.log2 z)) by lia.
      lia. }
    destruct (Z.compare_spec (Number.bits a - 53) (Number.bits b - 53)) as [Heq|Hlt|Hgt].
    + match goal with
      | |- Pos.compare_cont Eq ?x ?y = _ => change (Z.compare (Zpos x) (Zpos y) = (a ?= b))
      end.
      rewrite !Z2Pos.id by lia. replace (Number.bits b) with (Number.bits a) by lia.
      assert (0 < 2 ^ (53 - Number.bits a)) by (apply Z.pow_pos_nonneg; lia).
      destruct (Z.compare_spec a b) as [->|?|?].
      * apply Z.compare_refl.
      * apply Z.compare_lt_iff. nia.
      * apply Z.compare_gt_iff. nia.
    + symmetry. apply Z.compare_lt_iff.
      pose proof (Hspec a ltac:(lia)). pose proof (Hspec b ltac:(lia)).
      assert (2 ^ Number.bits a <= 2 ^ (Number.bits b - 1)) by (apply Z.pow_le_mono_r; lia). lia.
    + symmetry. apply Z.compare_gt_iff.
      pose proof (Hspec a ltac:(lia)). pose proof (Hspec b ltac:(lia)).
      assert (2 ^ Number.bits b <= 2 ^ (Number.bits a - 1)) by (apply Z.pow_le_mono_r; lia). lia.
Qed.

(** ** The rate engine *)

Lemma bucket_of_status (statusMap : gmap string bool) (item : Item) :
  Spec.bucket_of statusMap item =
  if default false (statusMap !! toString (variant_id item))
  then Spec.PreOrder else Spec.ReadyToShip.
Proof.
  unfold Spec.bucket_of.
  destruct (statusMap !! toString (variant_id item)) as [[|]|]; reflexivity.
Qed.

Lemma twohop_fold_subtotals (statusMap : gmap string bool) (items : list Item)
    (a b : Number.t) :
  fold_left (TwoHop.add_item statusMap) items (a, b) =
  (fold_left Spec.add_extended (Spec.bucket_items Spec.ReadyToShip statusMap items) a,
   fold_left Spec.add_extended (Spec.bucket_items Spec.PreOrder statusMap items) b).
Proof.
  revert a b. induction items as [|item items IH]; intros a b; [reflexivity|].
  cbn [fold_left]. unfold TwoHop.add_item at 2. cbn [fst snd].
  unfold Spec.bucket_items. cbn [List.filter]. rewrite bucket_of_status.
  destruct (default false (statusMap !! toString (variant_id item))); rewrite IH; reflexivity.
Qed.

Lemma batch_fold_subtotals (statusMap : gmap string bool) (items : list Item)
    (a b : Number.t) :
  fold_left (Batch.add_item statusMap) items (a, b) =
  (fold_left Spec.add_extended (Spec.bucket_items Spec.ReadyToShip statusMap items) a,
   fold_left Spec.add_extended (Spec.bucket_items Spec.PreOrder statusMap items) b).
Proof.
  revert a b. induction items as [|item items IH]; intros a b; [reflexivity|].
  cbn [fold_left]. unfold Batch.add_item at 2. cbn [fst snd].
  unfold Spec.bucket_items. cbn [List.filter]. rewrite bucket_of_status.
  destruct (default false (statusMap !! toString (variant_id item))); rewrite IH; reflexivity.
Qed.

Lemma twohop_subtotals_spec (statusMap : gmap string bool) (items : list Item) :
  TwoHop.subtotals statusMap items =
  (Spec.bucket_subtotal Spec.ReadyToShip statusMap items,
   Spec.bucket_subtotal Spec.PreOrder statusMap items).
Proof. unfold TwoHop.subtotals. by rewrite twohop_fold_subtotals. Qed.

Lemma batch_subtotals_spec (statusMap : gmap string bool) (items : list Item) :
  Batch.subtotals statusMap items =
  (Spec.bucket_subtotal Spec.ReadyToShip statusMap items,
   Spec.bucket_subtotal Spec.PreOrder statusMap items).
Proof. unfold Batch.subtotals. by rewrite batch_fold_subtotals. Qed.

Lemma twohop_emit_rates_spec (appConfig : AppConfig) (a b : Number.t) :
  TwoHop.emit_rates appConfig a b =
  Spec.bucket_quote appConfig Spec.ReadyToShip a ++ Spec.bucket_quote appConfig Spec.PreOrder b.
Proof.
  unfold TwoHop.emit_rates, Spec.bucket_quote, Spec.bucket_price.
  destruct (Number.gt a Number.zero), (Number.gt b Number.zero); reflexivity.
Qed.

Lemma batch_emit_rates_spec (appConfig : AppConfig) (a b : Number.t) :
  Batch.emit_rates appConfig a b =
  Spec.bucket_quote appConfig Spec.ReadyToShip a ++ Spec.bucket_quote appConfig Spec.PreOrder b.
Proof.
  unfold Batch.emit_rates, Spec.bucket_quote, Spec.bucket_price.
  destruct (Number.gt a Number.zero), (Number.gt b Number.zero); reflexivity.
Qed.

Lemma twohop_calculate_rates_spec appConfig items (statusMap : gmap string bool) :
  TwoHop.calculate_rates appConfig items statusMap =
  Spec.bucket_quote appConfig Spec.ReadyToShip
    (Spec.bucket_subtotal Spec.ReadyToShip statusMap items) ++
  Spec.bucket_quote appConfig Spec.PreOrder
    (Spec.bucket_subtotal Spec.PreOrder statusMap items).
Proof.
  unfold TwoHop.calculate_rates. rewrite twohop_subtotals_spec. apply twohop_emit_rates_spec.
Qed.

Lemma batch_calculate_rates_spec appConfig items (statusMap : gmap string bool) :
  Batch.calculate_rates appConfig items statusMap =
  Spec.bucket_quote appConfig Spec.ReadyToShip
    (Spec.bucket_subtotal Spec.ReadyToShip statusMap items) ++
  Spec.bucket_quote appConfig Spec.PreOrder
    (Spec.bucket_subtotal Spec.PreOrder statusMap items).
Proof.
  unfold Batch.calculate_rates. rewrite batch_subtotals_spec. apply batch_emit_rates_spec.
Qed.

(** The handler on a cart that reaches the resolver. *)
Lemma twohop_post_rates_resolved appConfig env (its : list Item) (r : Redis) statuses r' :
  killSwitch appConfig = false -> its <> [] -> forallb TwoHop.isGiftCard its = false ->
  TwoHop.getVariantPreOrderStatus env (map (fun item => toString (variant_id item)) its) r
    = (Ok statuses, r') ->
  TwoHop.post_rates appConfig env (Examples.request its) r =
  (Ok (res_json None (Some (TwoHop.calculate_rates appConfig its statuses))), r').
Proof.
  intros Hk Hne Hg Hres. unfold TwoHop.post_rates, try_catch. rewrite Hk.
  cbn [Examples.request rate items].
  assert (Hlen : Nat.eqb (length its) 0 = false) by (by destruct its).
  rewrite Hlen, Hg. unfold bind. rewrite Hres. reflexivity.
Qed.

Lemma batch_post_rates_resolved appConfig env (its : list Item) (r : Redis) statuses r' :
  killSwitch appConfig = false -> its <> [] -> forallb Batch.isGiftCard its = false ->
  Batch.getVariantPreOrderStatus env (map (fun item => toString (variant_id item)) its) r
    = (Ok statuses, r') ->
  Batch.post_rates appConfig env (Examples.request its) r =
  (Ok (res_json None (Some (Batch.calculate_rates appConfig its statuses))), r').
Proof.
  intros Hk Hne Hg Hres. unfold Batch.post_rates, try_catch. rewrite Hk.
  cbn [Examples.request rate items].
  assert (Hlen : Nat.eqb (length its) 0 = false) by (by destruct its).
  rewrite Hlen, Hg. unfold bind. rewrite Hres. reflexivity.
Qed.

(** Each bucket keeps the cart order; together they rearrange the cart. *)
Lemma bucket_items_permutation (statusMap : gmap string bool) (items : list Item) :
  Permutation items
    (Spec.bucket_items Spec.ReadyToShip statusMap items ++
     Spec.bucket_items Spec.PreOrder statusMap items).
Proof.
  induction items as [|item items IH]; [constructor|].
  unfold Spec.bucket_items in *. simpl.
  destruct (Spec.bucket_of statusMap item); simpl.
  - by constructor.
  - by apply Permutation_cons_app.
Qed.

(** The exact amounts of a cart of integer prices and quantities. *)
Lemma filter_permutation {A} (f : A -> bool) (xs ys : list A) :
  Permutation xs ys -> Permutation (List.filter f xs) (List.filter f ys).
Proof.
  induction 1 as [|x xs ys _ IH|x y xs|xs ys zs _ IH1 _ IH2]; simpl.
  - constructor.
  - destruct (f x); [by constructor | exact IH].
  - destruct (f x), (f y); try reflexivity. apply perm_swap.
  - by etransitivity.
Qed.

Lemma exact_total_app (xs ys : list Item) :
  Spec.exact_total (xs ++ ys) = Spec.exact_total xs + Spec.exact_total ys.
Proof. induction xs as [|x xs IH]; simpl; [reflexivity|]. rewrite IH. lia. Qed.

Lemma exact_total_permutation (xs ys : list Item) :
  Permutation xs ys -> Spec.exact_total xs = Spec.exact_total ys.
Proof. induction 1; simpl; lia. Qed.

Lemma bucket_exact_totals_sum (statusMap : gmap string bool) (items : list Item) :
  Spec.exact_total (Spec.bucket_items Spec.ReadyToShip statusMap items) +
  Spec.exact_total (Spec.bucket_items Spec.PreOrder statusMap items) =
  Spec.exact_total items.
Proof.
  rewrite <- exact_total_app. symmetry.
  apply exact_total_permutation, bucket_items_permutation.
Qed.

Lemma cents_nonneg (item : Item) : Spec.integer_amounts item -> 0 <= Spec.cents item.
Proof. intros [[_ Hp] [_ Hq]]. unfold Spec.cents. nia. Qed.

Lemma exact_total_nonneg (items : list Item) :
  Forall Spec.integer_amounts items -> 0 <= Spec.exact_total items.
Proof.
  induction 1 as [|x xs Hx _ IH]; simpl; [lia|]. pose proof (cents_nonneg x Hx). lia.
Qed.

Lemma bucket_items_Forall (P : Item -> Prop) b (statusMap : gmap string bool)
    (items : list Item) :
  Forall P items -> Forall P (Spec.bucket_items b statusMap items).
Proof.
  intros H. unfold Spec.bucket_items. apply List.Forall_forall. intros x Hx.
  apply filter_In in Hx as [Hx _]. revert x Hx. by apply List.Forall_forall.
Qed.

Lemma bucket_exact_total_le b (statusMap : gmap string bool) (items : list Item) :
  Forall Spec.integer_amounts items ->
  0 <= Spec.exact_total (Spec.bucket_items b statusMap items) <= Spec.exact_total items.
Proof.
  intros H. pose proof (bucket_exact_totals_sum statusMap items).
  pose proof (exact_total_nonneg _ (bucket_items_Forall _ Spec.ReadyToShip statusMap items H)).
  pose proof (exact_total_nonneg _ (bucket_items_Forall _ Spec.PreOrder statusMap items H)).
  destruct b; lia.
Qed.

(** The product the code computes for an integer line is exact. *)
Lemma extended_integral (item : Item) :
  Spec.integer_amounts item -> Spec.cents item < 2 ^ 53 ->
  Spec.extended item = Number.of_Z (Spec.cents item).
Proof.
  intros [[Hp Hpb] [Hq Hqb]] Hc. unfold Spec.extended, Spec.cents in *.
  rewrite Hp, Hq at 1. by apply mul_of_Z.
Qed.

(** The sum the code accumulates over integer lines is exact as long as
    the exact total stays below [2^53]. *)
Lemma total_integral_from (items : list Item) (a : Z) :
  Forall Spec.integer_amounts items -> 0 <= a -> a + Spec.exact_total items < 2 ^ 53 ->
  fold_left Spec.add_extended items (Number.of_Z a) =
  Number.of_Z (a + Spec.exact_total items).
Proof.
  intros H. revert a. induction H as [|x xs Hx Hxs IH]; intros a Ha Hb.
  - simpl. by rewrite Z.add_0_r.
  - cbn [fold_left Spec.exact_total fold_right] in *.
    pose proof (cents_nonneg x Hx). pose proof (exact_total_nonneg xs Hxs).
    fold (Spec.exact_total xs) in *.
    unfold Spec.add_extended at 2. rewrite extended_integral by (auto; lia).
    rewrite add_of_Z by lia. rewrite IH by lia. f_equal. lia.
Qed.

Lemma total_integral (items : list Item) :
  Forall Spec.integer_amounts items -> Spec.exact_total items < 2 ^ 53 ->
  Spec.total items = Number.of_Z (Spec.exact_total items).
Proof.
  intros H Hb. unfold Spec.total. change Number.zero with (Number.of_Z 0).
  by rewrite total_integral_from.
Qed.

Lemma bucket_subtotal_integral b (statusMap : gmap string bool) (items : list Item) :
  Forall Spec.integer_amounts items -> Spec.exact_total items < 2 ^ 53 ->
  Spec.bucket_subtotal b statusMap items =
  Number.of_Z (Spec.exact_total (Spec.bucket_items b statusMap items)).
Proof.
  intros H Hb. unfold Spec.bucket_subtotal. apply total_integral.
  - by apply bucket_items_Forall.
  - pose proof (bucket_exact_total_le b statusMap items H). lia.
Qed.

(** The gift-card test of the handlers, spelled out. *)
Lemma isGiftCard_cases (item : Item) :
  TwoHop.isGiftCard item = true <->
  product_type item = Some "Gift Card" \/
  exists t, title item = Some t /\ includes (toLowerCase t) "gift card" = true.
Proof.
  unfold TwoHop.isGiftCard. rewrite orb_true_iff. split.
  - intros [H|H].
    + left. destruct (product_type item) as [t|]; [|discriminate].
      apply String.eqb_eq in H. by subst.
    + right. destruct (title item) as [t|]; [eauto | discriminate].
  - intros [H|(t & Ht & H)].
    + left. rewrite H. reflexivity.
    + right. by rewrite Ht.
Qed.

(** ** Properties of the rate endpoint *)

(** The three cases of [tests/rates.test.js] and the two-bucket example. *)
Example test_rts_30_ships_now_5 :
  fst (Batch.post_rates Examples.appConfig Examples.batch_test_mock
         (Examples.request [Examples.item_3000]) Examples.redis0) =
  Ok {| status := 200;
        body := JsonBody None (Some
          [ {| service_name := "Ships Now (In-Stock)"; service_code := "RTS_STD";
               total_price := "500"; rate_currency := "USD";
               rate_description := "Free over $50" |} ]) |}.
Proof. vm_compute. reflexivity. Qed.

Example test_rts_60_ships_now_free :
  fst (Batch.post_rates Examples.appConfig Examples.batch_test_mock
         (Examples.request [Examples.item_6000_rts]) Examples.redis0) =
  Ok {| status := 200;
        body := JsonBody None (Some
          [ {| service_name := "Ships Now (In-Stock)"; service_code := "RTS_STD";
               total_price := "0"; rate_currency := "USD";
               rate_description := "Free over $50" |} ]) |}.
Proof. vm_compute. reflexivity. Qed.

Example test_gift_cards_only_free :
  fst (Batch.post_rates Examples.appConfig Examples.batch_test_mock
         (Examples.request [Examples.gift_card]) Examples.redis0) =
  Ok {| status := 200;
        body := JsonBody None (Some
          [ {| service_name := "Free Shipping"; service_code := "GIFT_CARD_FREE";
               total_price := "0"; rate_currency := "USD";
               rate_description := "Gift cards ship free" |} ]) |}.
Proof. vm_compute. reflexivity. Qed.

Example two_buckets_fee_then_free :
  fst (TwoHop.post_rates Examples.appConfig Examples.twohop_up
         (Examples.request [Examples.item_3000; Examples.item_6000]) Examples.redis0) =
  Ok {| status := 200;
        body := JsonBody None (Some
          [ {| service_name := "Ships Now (In-Stock)"; service_code := "RTS_STD";
               total_price := "500"; rate_currency := "USD";
               rate_description := "Free over $50" |};
            {| service_name := "Ships Later (Pre-Order)"; service_code := "PO_STD";
               total_price := "0"; rate_currency := "USD";
               rate_description := "Free over $50" |} ]) |}.
Proof. vm_compute. reflexivity. Qed.

(** Numbers at the edges: texts in exponent form from [1e21] on, a
    fee as large as that, a price of one half under a threshold of 1,
    and additions that round from [2^53] on. *)
Example toString_samples :
  Number.toString (Number.of_Z 0) = "0" /\
  Number.toString (Number.of_Z 500) = "500" /\
  Number.toString (Number.of_Z (-100)) = "-100" /\
  Number.toString (Number.of_Z (10 ^ 21)) = "1e+21" /\
  Number.toString (Number.of_Z 123456789012345680000) = "123456789012345680000" /\
  Number.toString (Number.of_Z (2 ^ 53 + 1)) = "9007199254740992" /\
  Number.toString (Number.div (Number.of_Z 1) (Number.of_Z 2)) = "0.5".
Proof. repeat split; vm_compute; reflexivity. Qed.

Example fee_in_exponent_form :
  map total_price
    (TwoHop.calculate_rates
       {| threshold := 5000; feeUnderThreshold := 10 ^ 21;
          labels := labels Examples.appConfig; description := "";
          killSwitch := false; currency := "USD" |}
       [Examples.item_3000] Examples.statuses) = ["1e+21"].
Proof. vm_compute. reflexivity. Qed.

Example half_a_unit_below_threshold :
  map total_price
    (TwoHop.calculate_rates
       {| threshold := 1; feeUnderThreshold := 500;
          labels := labels Examples.appConfig; description := "";
          killSwitch := false; currency := "USD" |}
       [ {| variant_id := IdNum 789012;
            price := Number.div (Number.of_Z 1) (Number.of_Z 2); quantity := 1;
            product_type := None; title := None |} ] Examples.statuses) = ["500"].
Proof. vm_compute. reflexivity. Qed.

Example additions_round_from_2_53 :
  TwoHop.subtotals ∅ Examples.huge_cart = (Number.of_Z (2 ^ 53), Number.zero) /\
  TwoHop.subtotals ∅ Examples.huge_cart_reordered = (Number.of_Z (2 ^ 53 + 2), Number.zero).
Proof. split; vm_compute; reflexivity. Qed.

(** C1: for a non-empty cart that is not gift-cards-only, with the kill
    switch off, both variants answer 200 with the rate list made of the
    ready-to-ship quote followed by the pre-order quote, where a bucket
    contributes one quote exactly when its subtotal (under the statuses
    the resolver returned) is positive: priced "0" at or above the
    threshold and the configured fee below it, with the bucket's label,
    the code RTS_STD or PO_STD, the configured currency and description.
    The subtotal is the Number the loop accumulates, price times
    quantity added up in cart order; it is compared as a Number and the
    price is the text [toString] gives for 0 or for the fee. *)
Theorem C1_rates_per_bucket (appConfig : AppConfig) (envA : TwoHop.Env) (envB : Batch.Env)
    (its : list Item) (r : Redis) :
  killSwitch appConfig = false -> its <> [] ->
  forallb TwoHop.isGiftCard its = false -> forallb Batch.isGiftCard its = false ->
  (exists statuses r',
     TwoHop.getVariantPreOrderStatus envA
       (map (fun item => toString (variant_id item)) its) r = (Ok statuses, r') /\
     TwoHop.post_rates appConfig envA {| rate := Some {| items := Some its |} |} r =
     (Ok {| status := 200;
            body := JsonBody None (Some
              (Spec.bucket_quote appConfig Spec.ReadyToShip
                 (Spec.bucket_subtotal Spec.ReadyToShip statuses its) ++
               Spec.bucket_quote appConfig Spec.PreOrder
                 (Spec.bucket_subtotal Spec.PreOrder statuses its))) |}, r')) /\
  (exists statuses r',
     Batch.getVariantPreOrderStatus envB
       (map (fun item => toString (variant_id item)) its) r = (Ok statuses, r') /\
     Batch.post_rates appConfig envB {| rate := Some {| items := Some its |} |} r =
     (Ok {| status := 200;
            body := JsonBody None (Some
              (Spec.bucket_quote appConfig Spec.ReadyToShip
                 (Spec.bucket_subtotal Spec.ReadyToShip statuses its) ++
               Spec.bucket_quote appConfig Spec.PreOrder
                 (Spec.bucket_subtotal Spec.PreOrder statuses its))) |}, r')).
Proof.
  intros Hk Hne HgA HgB. split.
  - destruct (twohop_resolver envA (map (fun item => toString (variant_id item)) its) r)
      as (statuses & r' & Hres & _).
    exists statuses, r'. split; [exact Hres|].
    rewrite <- twohop_calculate_rates_spec.
    exact (twohop_post_rates_resolved appConfig envA its r statuses r' Hk Hne HgA Hres).
  - destruct (batch_resolver envB (map (fun item => toString (variant_id item)) its) r)
      as (statuses & r' & uncached & Hres & _).
    exists statuses, r'. split; [exact Hres|].
    rewrite <- batch_calculate_rates_spec.
    exact (batch_post_rates_resolved appConfig envB its r statuses r' Hk Hne HgB Hres).
Qed.

Lemma C1_rates_per_bucket_witness :
  killSwitch Examples.appConfig = false /\
  [Examples.item_3000; Examples.item_6000] <> [] /\
  forallb TwoHop.isGiftCard [Examples.item_3000; Examples.item_6000] = false /\
  forallb Batch.isGiftCard [Examples.item_3000; Examples.item_6000] = false /\
  (exists statuses r',
     TwoHop.getVariantPreOrderStatus Examples.twohop_up
       (map (fun item => toString (variant_id item))
          [Examples.item_3000; Examples.item_6000]) Examples.redis0 = (Ok statuses, r') /\
     TwoHop.post_rates Examples.appConfig Examples.twohop_up
       {| rate := Some {| items := Some [Examples.item_3000; Examples.item_6000] |} |}
       Examples.redis0 =
     (Ok {| status := 200;
            body := JsonBody None (Some
              (Spec.bucket_quote Examples.appConfig Spec.ReadyToShip
                 (Spec.bucket_subtotal Spec.ReadyToShip statuses
                    [Examples.item_3000; Examples.item_6000]) ++
               Spec.bucket_quote Examples.appConfig Spec.PreOrder
                 (Spec.bucket_subtotal Spec.PreOrder statuses
                    [Examples.item_3000; Examples.item_6000]))) |}, r')) /\
  (exists statuses r',
     Batch.getVariantPreOrderStatus Examples.batch_up
       (map (fun item => toString (variant_id item))
          [Examples.item_3000; Examples.item_6000]) Examples.redis0 = (Ok statuses, r') /\
     Batch.post_rates Examples.appConfig Examples.batch_up
       {| rate := Some {| items := Some [Examples.item_3000; Examples.item_6000] |} |}
       Examples.redis0 =
     (Ok {| status := 200;
            body := JsonBody None (Some
              (Spec.bucket_quote Examples.appConfig Spec.ReadyToShip
                 (Spec.bucket_subtotal Spec.ReadyToShip statuses
                    [Examples.item_3000; Examples.item_6000]) ++
               Spec.bucket_quote Examples.appConfig Spec.PreOrder
                 (Spec.bucket_subtotal Spec.PreOrder statuses
                    [Examples.item_3000; Examples.item_6000]))) |}, r')).
Proof.
  split; [reflexivity|]. split; [discriminate|]. split; [reflexivity|]. split; [reflexivity|].
  apply (C1_rates_per_bucket Examples.appConfig Examples.twohop_up Examples.batch_up
           [Examples.item_3000; Examples.item_6000] Examples.redis0);
    [reflexivity | discriminate | reflexivity | reflexivity].
Defined.

(** C2: with the kill switch on, both variants answer 200 with the empty
    rate list whatever the request body is, and touch nothing else. *)
Theorem C2_kill_switch_empty (appConfig : AppConfig) (envA : TwoHop.Env) (envB : Batch.Env)
    (req_body : RequestBody) (r : Redis) :
  killSwitch appConfig = true ->
  TwoHop.post_rates appConfig envA req_body r =
    (Ok {| status := 200; body := JsonBody None (Some []) |}, r) /\
  Batch.post_rates appConfig envB req_body r =
    (Ok {| status := 200; body := JsonBody None (Some []) |}, r).
Proof.
  intros Hk. unfold TwoHop.post_rates, Batch.post_rates, try_catch. rewrite Hk.
  split; reflexivity.
Qed.

Lemma C2_kill_switch_empty_witness :
  killSwitch Examples.promoConfig = true /\
  TwoHop.post_rates Examples.promoConfig Examples.twohop_up
    (Examples.request [Examples.item_3000; Examples.item_6000]) Examples.redis0 =
    (Ok {| status := 200; body := JsonBody None (Some []) |}, Examples.redis0) /\
  Batch.post_rates Examples.promoConfig Examples.batch_up
    (Examples.request [Examples.item_3000; Examples.item_6000]) Examples.redis0 =
    (Ok {| status := 200; body := JsonBody None (Some []) |}, Examples.redis0).
Proof.
  split; [reflexivity|].
  apply (C2_kill_switch_empty Examples.promoConfig Examples.twohop_up Examples.batch_up
           (Examples.request [Examples.item_3000; Examples.item_6000]) Examples.redis0).
  reflexivity.
Defined.

(** C3 as stated fails: with the kill switch on, a cart holding only a
    gift card gets the empty rate list, not the gift-card quote. *)
Lemma C3_gift_cards_counterexample :
  [Examples.gift_card] <> [] /\
  forallb TwoHop.isGiftCard [Examples.gift_card] = true /\
  forallb Batch.isGiftCard [Examples.gift_card] = true /\
  fst (TwoHop.post_rates Examples.promoConfig Examples.twohop_up
         (Examples.request [Examples.gift_card]) Examples.redis0) =
    Ok {| status := 200; body := JsonBody None (Some []) |} /\
  fst (Batch.post_rates Examples.promoConfig Examples.batch_up
         (Examples.request [Examples.gift_card]) Examples.redis0) =
    Ok {| status := 200; body := JsonBody None (Some []) |}.
Proof.
  split; [discriminate|]. repeat split; reflexivity.
Qed.

(** C3 (amended): with the kill switch off, for a non-empty cart whose
    items are all classified as gift cards (product type "Gift Card", or a
    title containing "gift card" in any letter case), both variants answer
    200 with exactly one quote, of code GIFT_CARD_FREE and price "0", and
    leave the Redis client untouched: the resolver is not called. *)
Theorem C3_gift_cards_only (appConfig : AppConfig) (envA : TwoHop.Env) (envB : Batch.Env)
    (its : list Item) (r : Redis) :
  killSwitch appConfig = false -> its <> [] ->
  forallb TwoHop.isGiftCard its = true -> forallb Batch.isGiftCard its = true ->
  (forall item, In item its ->
     product_type item = Some "Gift Card" \/
     exists t, title item = Some t /\ includes (toLowerCase t) "gift card" = true) /\
  TwoHop.post_rates appConfig envA {| rate := Some {| items := Some its |} |} r =
    (Ok {| status := 200;
           body := JsonBody None (Some
             [ {| service_name := "Free Shipping";
                  service_code := "GIFT_CARD_FREE";
                  total_price := "0";
                  rate_currency := currency appConfig;
                  rate_description := "Gift cards ship free" |} ]) |}, r) /\
  Batch.post_rates appConfig envB {| rate := Some {| items := Some its |} |} r =
    (Ok {| status := 200;
           body := JsonBody None (Some
             [ {| service_name := "Free Shipping";
                  service_code := "GIFT_CARD_FREE";
                  total_price := "0";
                  rate_currency := currency appConfig;
                  rate_description := "Gift cards ship free" |} ]) |}, r).
Proof.
  intros Hk Hne HgA HgB.
  assert (Hlen : Nat.eqb (length its) 0 = false) by (by destruct its).
  split.
  { intros item Hin. apply isGiftCard_cases.
    rewrite forallb_forall in HgA. by apply HgA. }
  unfold TwoHop.post_rates, Batch.post_rates, try_catch. rewrite Hk.
  cbn [rate items]. rewrite Hlen, HgA, HgB. split; reflexivity.
Qed.

Lemma C3_gift_cards_only_witness :
  killSwitch Examples.appConfig = false /\
  [Examples.gift_card] <> [] /\
  forallb TwoHop.isGiftCard [Examples.gift_card] = true /\
  forallb Batch.isGiftCard [Examples.gift_card] = true /\
  TwoHop.post_rates Examples.appConfig Examples.twohop_down
    {| rate := Some {| items := Some [Examples.gift_card] |} |} Examples.redis0 =
    (Ok {| status := 200;
           body := JsonBody None (Some
             [ {| service_name := "Free Shipping";
                  service_code := "GIFT_CARD_FREE";
                  total_price := "0";
                  rate_currency := currency Examples.appConfig;
                  rate_description := "Gift cards ship free" |} ]) |}, Examples.redis0) /\
  Batch.post_rates Examples.appConfig Examples.batch_down
    {| rate := Some {| items := Some [Examples.gift_card] |} |} Examples.redis0 =
    (Ok {| status := 200;
           body := JsonBody None (Some
             [ {| service_name := "Free Shipping";
                  service_code := "GIFT_CARD_FREE";
                  total_price := "0";
                  rate_currency := currency Examples.appConfig;
                  rate_description := "Gift cards ship free" |} ]) |}, Examples.redis0).
Proof.
  split; [reflexivity|]. split; [discriminate|]. split; [reflexivity|]. split; [reflexivity|].
  apply (C3_gift_cards_only Examples.appConfig Examples.twohop_down Examples.batch_down
           [Examples.gift_card] Examples.redis0);
    [reflexivity | discriminate | reflexivity | reflexivity].
Defined.

(** C4 as stated fails on the last point: the subtotals are JavaScript
    Numbers, and from [2^53] on their sum is rounded. A cart of three
    ready-to-ship lines with the integer prices [2^53], 1 and 1 has the
    exact total [2^53 + 2], while the loop of either variant leaves the
    ready-to-ship subtotal at [2^53]. *)
Lemma C4_bucket_partition_counterexample :
  Spec.exact_total Examples.huge_cart = 2 ^ 53 + 2 /\
  TwoHop.subtotals ∅ Examples.huge_cart = (Number.of_Z (2 ^ 53), Number.zero) /\
  Batch.subtotals ∅ Examples.huge_cart = (Number.of_Z (2 ^ 53), Number.zero) /\
  Number.to_Z (fst (TwoHop.subtotals ∅ Examples.huge_cart)) +
  Number.to_Z (snd (TwoHop.subtotals ∅ Examples.huge_cart)) <>
  Spec.exact_total Examples.huge_cart /\
  Number.add (fst (TwoHop.subtotals ∅ Examples.huge_cart))
             (snd (TwoHop.subtotals ∅ Examples.huge_cart)) <>
  Number.of_Z (Spec.exact_total Examples.huge_cart).
Proof.
  split; [vm_compute; reflexivity|]. split; [vm_compute; reflexivity|].
  split; [vm_compute; reflexivity|]. split; vm_compute; discriminate.
Qed.

(** C4: under any status map every item belongs to exactly one bucket
    (pre-order when its status is [true], ready-to-ship when the status is
    absent or [false]); the loop of either variant adds the item's
    price times quantity to the subtotal of that bucket alone; the two
    buckets rearrange the whole cart without overlap; the two subtotals
    the loop computes are the sums over the two buckets, added up as
    Numbers in cart order; and when prices and quantities are
    non-negative integers below [2^53] and the exact total of the cart
    is below [2^53] too, the subtotals are the exact bucket sums and add
    up to the cart's total of unit price times quantity. *)
Theorem C4_bucket_partition (statusMap : gmap string bool) (its : list Item) :
  (forall item,
     (Spec.bucket_of statusMap item = Spec.PreOrder <->
        statusMap !! toString (variant_id item) = Some true) /\
     (Spec.bucket_of statusMap item = Spec.ReadyToShip <->
        statusMap !! toString (variant_id item) = None \/
        statusMap !! toString (variant_id item) = Some false)) /\
  (forall item a b,
     TwoHop.add_item statusMap (a, b) item =
       match Spec.bucket_of statusMap item with
       | Spec.ReadyToShip => (Number.add a (Spec.extended item), b)
       | Spec.PreOrder => (a, Number.add b (Spec.extended item))
       end /\
     Batch.add_item statusMap (a, b) item =
       match Spec.bucket_of statusMap item with
       | Spec.ReadyToShip => (Number.add a (Spec.extended item), b)
       | Spec.PreOrder => (a, Number.add b (Spec.extended item))
       end) /\
  Permutation its
    (Spec.bucket_items Spec.ReadyToShip statusMap its ++
     Spec.bucket_items Spec.PreOrder statusMap its) /\
  (forall item,
     ~ (In item (Spec.bucket_items Spec.ReadyToShip statusMap its) /\
        In item (Spec.bucket_items Spec.PreOrder statusMap its))) /\
  TwoHop.subtotals statusMap its =
    (Spec.total (Spec.bucket_items Spec.ReadyToShip statusMap its),
     Spec.total (Spec.bucket_items Spec.PreOrder statusMap its)) /\
  Batch.subtotals statusMap its =
    (Spec.total (Spec.bucket_items Spec.ReadyToShip statusMap its),
     Spec.total (Spec.bucket_items Spec.PreOrder statusMap its)) /\
  (Forall Spec.integer_amounts its -> Spec.exact_total its < 2 ^ 53 ->
   TwoHop.subtotals statusMap its =
     (Number.of_Z (Spec.exact_total (Spec.bucket_items Spec.ReadyToShip statusMap its)),
      Number.of_Z (Spec.exact_total (Spec.bucket_items Spec.PreOrder statusMap its))) /\
   Batch.subtotals statusMap its =
     (Number.of_Z (Spec.exact_total (Spec.bucket_items Spec.ReadyToShip statusMap its)),
      Number.of_Z (Spec.exact_total (Spec.bucket_items Spec.PreOrder statusMap its))) /\
   Spec.exact_total (Spec.bucket_items Spec.ReadyToShip statusMap its) +
   Spec.exact_total (Spec.bucket_items Spec.PreOrder statusMap its) = Spec.exact_total its /\
   Number.add (fst (TwoHop.subtotals statusMap its)) (snd (TwoHop.subtotals statusMap its)) =
     Number.of_Z (Spec.exact_total its) /\
   Number.add (fst (Batch.subtotals statusMap its)) (snd (Batch.subtotals statusMap its)) =
     Number.of_Z (Spec.exact_total its)).
Proof.
  split; [|split; [|split; [|split; [|split; [|split]]]]].
  - intros item. unfold Spec.bucket_of.
    destruct (statusMap !! toString (variant_id item)) as [[|]|]; split; split;
      try done; try (intros [?|?]; done); auto.
  - intros item a b. unfold TwoHop.add_item, Batch.add_item. rewrite bucket_of_status.
    destruct (default false (statusMap !! toString (variant_id item))); split; reflexivity.
  - apply bucket_items_permutation.
  - intros item [H1 H2]. unfold Spec.bucket_items in *.
    apply filter_In in H1 as [_ H1]. apply filter_In in H2 as [_ H2].
    destruct (Spec.bucket_of statusMap item); discriminate.
  - apply twohop_subtotals_spec.
  - apply batch_subtotals_spec.
  - intros Hint Hb.
    pose proof (bucket_exact_totals_sum statusMap its) as Hsum.
    pose proof (bucket_exact_total_le Spec.ReadyToShip statusMap its Hint).
    pose proof (bucket_exact_total_le Spec.PreOrder statusMap its Hint).
    rewrite twohop_subtotals_spec, batch_subtotals_spec.
    rewrite !(bucket_subtotal_integral _ statusMap its Hint Hb). cbn [fst snd].
    rewrite add_of_Z by lia. rewrite Hsum. auto.
Qed.

Lemma C4_bucket_partition_witness :
  Forall Spec.integer_amounts [Examples.item_3000; Examples.item_6000] /\
  Spec.exact_total [Examples.item_3000; Examples.item_6000] < 2 ^ 53 /\
  TwoHop.subtotals Examples.statuses [Examples.item_3000; Examples.item_6000] =
    (Number.of_Z
       (Spec.exact_total
          (Spec.bucket_items Spec.ReadyToShip Examples.statuses
             [Examples.item_3000; Examples.item_6000])),
     Number.of_Z
       (Spec.exact_total
          (Spec.bucket_items Spec.PreOrder Examples.statuses
             [Examples.item_3000; Examples.item_6000]))) /\
  Number.add
    (fst (TwoHop.subtotals Examples.statuses [Examples.item_3000; Examples.item_6000]))
    (snd (TwoHop.subtotals Examples.statuses [Examples.item_3000; Examples.item_6000])) =
  Number.of_Z 9000.
Proof.
  assert (Hint : Forall Spec.integer_amounts [Examples.item_3000; Examples.item_6000]).
  { repeat constructor; vm_compute; intros; discriminate. }
  assert (Hb : Spec.exact_total [Examples.item_3000; Examples.item_6000] < 2 ^ 53)
    by (vm_compute; reflexivity).
  split; [exact Hint|]. split; [exact Hb|].
  destruct (C4_bucket_partition Examples.statuses [Examples.item_3000; Examples.item_6000])
    as (_ & _ & _ & _ & _ & _ & Hsafe).
  destruct (Hsafe Hint Hb) as (HA & _ & _ & Hsum & _).
  split; [exact HA | exact Hsum].
Defined.

(** C7 as stated fails twice: with the kill switch on, a body without a
    [rate] object is answered 200, not with a client error; with the kill
    switch off it is answered 400 with an error message and no rate list
    at all. *)
Lemma C7_malformed_request_counterexample :
  rate Examples.empty_body = None /\
  fst (TwoHop.post_rates Examples.promoConfig Examples.twohop_up Examples.empty_body
         Examples.redis0) =
    Ok {| status := 200; body := JsonBody None (Some []) |} /\
  fst (Batch.post_rates Examples.promoConfig Examples.batch_up Examples.empty_body
         Examples.redis0) =
    Ok {| status := 200; body := JsonBody None (Some []) |} /\
  fst (TwoHop.post_rates Examples.appConfig Examples.twohop_up Examples.empty_body
         Examples.redis0) =
    Ok {| status := 400; body := JsonBody (Some "Invalid rate request format") None |} /\
  fst (Batch.post_rates Examples.appConfig Examples.batch_up Examples.empty_body
         Examples.redis0) =
    Ok {| status := 400; body := JsonBody (Some "Invalid rate request format") None |}.
Proof. repeat split; reflexivity. Qed.

(** C7 (amended): with the kill switch off, a request whose body lacks
    the [rate] object or the [items] list is answered by both variants
    with the client error 400, and the Redis client is left untouched. *)
Theorem C7_malformed_request_rejected (appConfig : AppConfig) (envA : TwoHop.Env)
    (envB : Batch.Env) (req_body : RequestBody) (r : Redis) :
  killSwitch appConfig = false ->
  (rate req_body = None \/ exists rt, rate req_body = Some rt /\ items rt = None) ->
  (exists resp, TwoHop.post_rates appConfig envA req_body r = (Ok resp, r) /\ status resp = 400) /\
  (exists resp, Batch.post_rates appConfig envB req_body r = (Ok resp, r) /\ status resp = 400).
Proof.
  intros Hk Hbad. unfold TwoHop.post_rates, Batch.post_rates, try_catch. rewrite Hk.
  destruct Hbad as [-> | (rt & -> & ->)]; split; eexists; split; reflexivity.
Qed.

Lemma C7_malformed_request_rejected_witness :
  killSwitch Examples.appConfig = false /\
  (rate Examples.empty_body = None \/
   exists rt, rate Examples.empty_body = Some rt /\ items rt = None) /\
  (exists resp,
     TwoHop.post_rates Examples.appConfig Examples.twohop_up Examples.empty_body
       Examples.redis0 = (Ok resp, Examples.redis0) /\ status resp = 400) /\
  (exists resp,
     Batch.post_rates Examples.appConfig Examples.batch_up Examples.empty_body
       Examples.redis0 = (Ok resp, Examples.redis0) /\ status resp = 400).
Proof.
  split; [reflexivity|]. split; [left; reflexivity|].
  apply (C7_malformed_request_rejected Examples.appConfig Examples.twohop_up
           Examples.batch_up Examples.empty_body Examples.redis0);
    [reflexivity | left; reflexivity].
Defined.

(** C9: with the kill switch on, a request whose body lacks the [rate]
    object or the [items] list is answered 200 with the empty rate list by
    both variants, not with the client error: the kill switch is tested
    before the body is looked at. *)
Theorem C9_kill_switch_before_validation (appConfig : AppConfig) (envA : TwoHop.Env)
    (envB : Batch.Env) (req_body : RequestBody) (r : Redis) :
  killSwitch appConfig = true ->
  (rate req_body = None \/ exists rt, rate req_body = Some rt /\ items rt = None) ->
  TwoHop.post_rates appConfig envA req_body r =
    (Ok {| status := 200; body := JsonBody None (Some []) |}, r) /\
  Batch.post_rates appConfig envB req_body r =
    (Ok {| status := 200; body := JsonBody None (Some []) |}, r) /\
  status {| status := 200; body := JsonBody None (Some []) |} <> 400.
Proof.
  intros Hk _. unfold TwoHop.post_rates, Batch.post_rates, try_catch. rewrite Hk.
  split; [reflexivity|]. split; [reflexivity|]. discriminate.
Qed.

Lemma C9_kill_switch_before_validation_witness :
  killSwitch Examples.promoConfig = true /\
  (rate Examples.empty_body = None \/
   exists rt, rate Examples.empty_body = Some rt /\ items rt = None) /\
  TwoHop.post_rates Examples.promoConfig Examples.twohop_up Examples.empty_body
    Examples.redis0 =
    (Ok {| status := 200; body := JsonBody None (Some []) |}, Examples.redis0) /\
  Batch.post_rates Examples.promoConfig Examples.batch_up Examples.empty_body
    Examples.redis0 =
    (Ok {| status := 200; body := JsonBody None (Some []) |}, Examples.redis0) /\
  status {| status := 200; body := JsonBody None (Some []) |} <> 400.
Proof.
  split; [reflexivity|]. split; [left; reflexivity|].
  apply (C9_kill_switch_before_validation Examples.promoConfig Examples.twohop_up
           Examples.batch_up Examples.empty_body Examples.redis0);
    [reflexivity | left; reflexivity].
Defined.

(** C10: on the same items, status map and configuration the pricing step
    of the two-hop variant and that of the batch variant produce the same
    ordered rate list; hence, whenever the two resolvers return the same
    status map for a request, the two handlers give the same answer. *)
Theorem C10_variants_price_alike :
  (forall (appConfig : AppConfig) (its : list Item) (statuses : gmap string bool),
     TwoHop.calculate_rates appConfig its statuses =
     Batch.calculate_rates appConfig its statuses) /\
  (forall (appConfig : AppConfig) (envA : TwoHop.Env) (envB : Batch.Env)
          (req_body : RequestBody) (rA rB rA' rB' : Redis) (statuses : gmap string bool),
     TwoHop.getVariantPreOrderStatus envA (Spec.request_variant_ids req_body) rA
       = (Ok statuses, rA') ->
     Batch.getVariantPreOrderStatus envB (Spec.request_variant_ids req_body) rB
       = (Ok statuses, rB') ->
     fst (TwoHop.post_rates appConfig envA req_body rA) =
     fst (Batch.post_rates appConfig envB req_body rB)).
Proof.
  split.
  - intros appConfig its statuses.
    rewrite twohop_calculate_rates_spec, batch_calculate_rates_spec. reflexivity.
  - intros appConfig envA envB [[[[its|]]|]] rA rB rA' rB' statuses HA HB;
      unfold TwoHop.post_rates, Batch.post_rates, try_catch;
      destruct (killSwitch appConfig); try reflexivity.
    cbn [rate items]. cbn [Spec.request_variant_ids rate items] in HA, HB.
    destruct (Nat.eqb (length its) 0); [reflexivity|].
    change (forallb Batch.isGiftCard its) with (forallb TwoHop.isGiftCard its).
    destruct (forallb TwoHop.isGiftCard its); [reflexivity|].
    unfold bind. rewrite HA, HB. cbn [fst].
    rewrite twohop_calculate_rates_spec, batch_calculate_rates_spec. reflexivity.
Qed.

Lemma C10_variants_price_alike_witness :
  TwoHop.getVariantPreOrderStatus Examples.twohop_up
    (Spec.request_variant_ids (Examples.request [Examples.item_3000; Examples.item_6000]))
    Examples.redis0 =
    (Ok Examples.statuses,
     snd (TwoHop.getVariantPreOrderStatus Examples.twohop_up
            (Spec.request_variant_ids
               (Examples.request [Examples.item_3000; Examples.item_6000]))
            Examples.redis0)) /\
  Batch.getVariantPreOrderStatus Examples.batch_up
    (Spec.request_variant_ids (Examples.request [Examples.item_3000; Examples.item_6000]))
    Examples.redis0 =
    (Ok Examples.statuses,
     snd (Batch.getVariantPreOrderStatus Examples.batch_up
            (Spec.request_variant_ids
               (Examples.request [Examples.item_3000; Examples.item_6000]))
            Examples.redis0)) /\
  fst (TwoHop.post_rates Examples.appConfig Examples.twohop_up
         (Examples.request [Examples.item_3000; Examples.item_6000]) Examples.redis0) =
  fst (Batch.post_rates Examples.appConfig Examples.batch_up
         (Examples.request [Examples.item_3000; Examples.item_6000]) Examples.redis0).
Proof.
  assert (HA : TwoHop.getVariantPreOrderStatus Examples.twohop_up
    (Spec.request_variant_ids (Examples.request [Examples.item_3000; Examples.item_6000]))
    Examples.redis0 =
    (Ok Examples.statuses,
     snd (TwoHop.getVariantPreOrderStatus Examples.twohop_up
            (Spec.request_variant_ids
               (Examples.request [Examples.item_3000; Examples.item_6000]))
            Examples.redis0))) by (vm_compute; reflexivity).
  assert (HB : Batch.getVariantPreOrderStatus Examples.batch_up
    (Spec.request_variant_ids (Examples.request [Examples.item_3000; Examples.item_6000]))
    Examples.redis0 =
    (Ok Examples.statuses,
     snd (Batch.getVariantPreOrderStatus Examples.batch_up
            (Spec.request_variant_ids
               (Examples.request [Examples.item_3000; Examples.item_6000]))
            Examples.redis0))) by (vm_compute; reflexivity).
  split; [exact HA|]. split; [exact HB|].
  exact (proj2 C10_variants_price_alike Examples.appConfig Examples.twohop_up
           Examples.batch_up _ _ _ _ _ _ HA HB).
Defined.

(** ** Properties of the status resolver *)

(** C5: for any requested ids, any environment and any Redis (faults
    included) the resolver of either variant returns a mapping instead of
    throwing; the mapping has a boolean entry for every requested id (in
    the two-hop variant for no other id); and an id that is not in the
    store and that the remote source cannot resolve is mapped to [false]. *)
Theorem C5_resolver_total (envA : TwoHop.Env) (envB : Batch.Env)
    (variantIds : list string) (r : Redis) :
  (exists results r',
     TwoHop.getVariantPreOrderStatus envA variantIds r = (Ok results, r') /\
     (forall id, is_Some (results !! id) <-> In id variantIds) /\
     (forall id, In id variantIds -> store r !! TwoHop.cacheKey id = None ->
        Spec.twohop_status envA id = None -> results !! id = Some false)) /\
  (exists results r',
     Batch.getVariantPreOrderStatus envB variantIds r = (Ok results, r') /\
     (forall id, In id variantIds -> is_Some (results !! id)) /\
     (forall id, In id variantIds -> store r !! Batch.cacheKey id = None ->
        (forall q, ~ Spec.batch_lists (Batch.shopify_graphql envB q) id) ->
        results !! id = Some false)).
Proof.
  split.
  - destruct (twohop_resolver envA variantIds r) as (results & r' & Hres & _ & Hdom & Hmiss).
    exists results, r'. split; [exact Hres|]. split; [exact Hdom|].
    intros id Hin Hst Hun. destruct (Hmiss id Hin Hst) as [Hv _].
    rewrite Hv. unfold Spec.twohop_default. by rewrite Hun.
  - destruct (batch_resolver envB variantIds r)
      as (results & r' & uncached & Hres & _ & Hall & Hmiss & _).
    exists results, r'. split; [exact Hres|]. split; [exact Hall|].
    intros id Hin Hst Hnot. by apply (Hmiss id Hin Hst (Hnot _)).
Qed.

Lemma C5_resolver_total_witness :
  In "789012" ["789012"; "789013"] /\
  store Examples.redis0 !! TwoHop.cacheKey "789012" = None /\
  Spec.twohop_status Examples.twohop_down "789012" = None /\
  (exists results r',
     TwoHop.getVariantPreOrderStatus Examples.twohop_down ["789012"; "789013"]
       Examples.redis0 = (Ok results, r') /\
     results !! "789012" = Some false) /\
  store Examples.redis0 !! Batch.cacheKey "789012" = None /\
  (forall q, ~ Spec.batch_lists (Batch.shopify_graphql Examples.batch_down q) "789012") /\
  (exists results r',
     Batch.getVariantPreOrderStatus Examples.batch_down ["789012"; "789013"]
       Examples.redis0 = (Ok results, r') /\
     results !! "789012" = Some false).
Proof.
  assert (Hnot : forall q,
            ~ Spec.batch_lists (Batch.shopify_graphql Examples.batch_down q) "789012").
  { intros q (gql & d & ns & node & node_id & Hp & _). discriminate. }
  split; [left; reflexivity|]. split; [reflexivity|]. split; [reflexivity|].
  destruct (C5_resolver_total Examples.twohop_down Examples.batch_down
              ["789012"; "789013"] Examples.redis0)
    as [(resultsA & rA & HresA & _ & HfalseA) (resultsB & rB & HresB & _ & HfalseB)].
  split.
  { exists resultsA, rA. split; [exact HresA|].
    apply HfalseA; [left; reflexivity | reflexivity | reflexivity]. }
  split; [reflexivity|]. split; [exact Hnot|].
  exists resultsB, rB. split; [exact HresB|].
  apply HfalseB; [left; reflexivity | reflexivity | exact Hnot].
Defined.

(** C6 as stated fails: when the batch request fails, the uncached id
    is mapped to [false] but no cache write is issued; the only command
    sent to Redis is the initial read and the store stays without the key. *)
Lemma C6_unresolved_cached_counterexample :
  Spec.fetch_payload (batch_query Examples.batch_down ["789012"]) = None /\
  Batch.getVariantPreOrderStatus Examples.batch_down ["789012"] Examples.redis0 =
    (Ok (<["789012" := false]> ∅), mkRedis ∅ [] [GET "variant_po_789012"]) /\
  ~ In (SETEX (Batch.cacheKey "789012") CACHE_TTL (JSON_stringify false))
       [GET "variant_po_789012"].
Proof.
  split; [reflexivity|]. split; [vm_compute; reflexivity|].
  intros [H|[]]. discriminate.
Qed.

(** C6 (amended): an id that is not in the store and cannot be resolved
    is mapped to [false], and a cache write of [false] with the TTL of 24
    hours is issued for it before the resolver returns (and, the backend
    being healthy, the store then holds [false] for it under that TTL),
    in the two-hop variant always and in the batch variant when the
    answer is well formed and leaves the id out. When the batch request
    itself fails, the ids are mapped to [false] by the catch block, which
    issues no write: the store is unchanged and only reads were sent. *)
Theorem C6_unresolved_cached_false (envA : TwoHop.Env) (envB : Batch.Env)
    (variantIds : list string) (r : Redis) (id : string) :
  In id variantIds ->
  (store r !! TwoHop.cacheKey id = None -> Spec.twohop_status envA id = None ->
   exists results r',
     TwoHop.getVariantPreOrderStatus envA variantIds r = (Ok results, r') /\
     results !! id = Some false /\
     In (SETEX (TwoHop.cacheKey id) CACHE_TTL "false") (log r') /\
     (faults r = [] -> store r' !! TwoHop.cacheKey id = Some (CACHE_TTL, "false"))) /\
  (store r !! Batch.cacheKey id = None ->
   (forall q, Spec.batch_well_formed (Batch.shopify_graphql envB q)) ->
   (forall q, ~ Spec.batch_lists (Batch.shopify_graphql envB q) id) ->
   exists results r',
     Batch.getVariantPreOrderStatus envB variantIds r = (Ok results, r') /\
     results !! id = Some false /\
     In (SETEX (Batch.cacheKey id) CACHE_TTL "false") (log r') /\
     (faults r = [] -> store r' !! Batch.cacheKey id = Some (CACHE_TTL, "false"))) /\
  (store r !! Batch.cacheKey id = None ->
   (forall q, Spec.fetch_payload (Batch.shopify_graphql envB q) = None) ->
   exists results r',
     Batch.getVariantPreOrderStatus envB variantIds r = (Ok results, r') /\
     results !! id = Some false /\
     store r' = store r /\
     forall cmd, In cmd (log r') -> In cmd (log r) \/ is_write cmd = false) /\
  CACHE_TTL = 24 * 60 * 60.
Proof.
  intros Hin. split; [|split; [|split; [|reflexivity]]].
  - intros Hst Hun.
    destruct (twohop_resolver envA variantIds r) as (results & r' & Hres & _ & _ & Hmiss).
    destruct (Hmiss id Hin Hst) as [Hv Hw].
    pose proof (twohop_resolver_store envA variantIds r id) as Hstore.
    rewrite Hres in Hstore. cbn [snd] in Hstore.
    unfold Spec.twohop_default in Hv, Hw, Hstore. rewrite Hun in Hv, Hw, Hstore.
    exists results, r'. split; [exact Hres|]. split; [exact Hv|]. split; [exact Hw|].
    intros Hf. by apply Hstore.
  - intros Hst Hwf Hnot.
    destruct (batch_resolver envB variantIds r)
      as (results & r' & uncached & Hres & _ & _ & Hmiss & _).
    destruct (Hmiss id Hin Hst (Hnot _)) as [Hv Hw].
    destruct (Hw (Hwf _)) as [Hlog Hstore].
    exists results, r'. auto.
  - intros Hst Hdown.
    destruct (batch_resolver envB variantIds r)
      as (results & r' & uncached & Hres & _ & _ & Hmiss & Hfail).
    assert (Hnot : ~ Spec.batch_lists (batch_query envB uncached) id).
    { intros (gql & ? & ? & ? & ? & Hp & _). unfold batch_query in Hp.
      rewrite Hdown in Hp. discriminate. }
    destruct (Hmiss id Hin Hst Hnot) as [Hv _].
    destruct (Hfail (Hdown _)) as [Hrd Hstore].
    exists results, r'. auto.
Qed.

Lemma C6_unresolved_cached_false_witness :
  In "789012" ["789012"] /\
  store Examples.redis0 !! TwoHop.cacheKey "789012" = None /\
  Spec.twohop_status Examples.twohop_down "789012" = None /\
  (exists results r',
     TwoHop.getVariantPreOrderStatus Examples.twohop_down ["789012"] Examples.redis0
       = (Ok results, r') /\
     results !! "789012" = Some false /\
     In (SETEX (TwoHop.cacheKey "789012") CACHE_TTL "false") (log r') /\
     (faults Examples.redis0 = [] ->
      store r' !! TwoHop.cacheKey "789012" = Some (CACHE_TTL, "false"))) /\
  store Examples.redis0 !! Batch.cacheKey "789012" = None /\
  (forall q, Spec.batch_well_formed (Batch.shopify_graphql Examples.batch_silent q)) /\
  (forall q, ~ Spec.batch_lists (Batch.shopify_graphql Examples.batch_silent q) "789012") /\
  (exists results r',
     Batch.getVariantPreOrderStatus Examples.batch_silent ["789012"] Examples.redis0
       = (Ok results, r') /\
     results !! "789012" = Some false /\
     In (SETEX (Batch.cacheKey "789012") CACHE_TTL "false") (log r') /\
     (faults Examples.redis0 = [] ->
      store r' !! Batch.cacheKey "789012" = Some (CACHE_TTL, "false"))) /\
  (forall q, Spec.fetch_payload (Batch.shopify_graphql Examples.batch_down q) = None) /\
  (exists results r',
     Batch.getVariantPreOrderStatus Examples.batch_down ["789012"] Examples.redis0
       = (Ok results, r') /\
     results !! "789012" = Some false /\
     store r' = store Examples.redis0 /\
     forall cmd, In cmd (log r') -> In cmd (log Examples.redis0) \/ is_write cmd = false).
Proof.
  assert (Hwf : forall q,
            Spec.batch_well_formed (Batch.shopify_graphql Examples.batch_silent q)).
  { intros q. eexists. split; [reflexivity|].
    intros d ns node [= <-] [= <-] []. }
  assert (Hnot : forall q,
            ~ Spec.batch_lists (Batch.shopify_graphql Examples.batch_silent q) "789012").
  { intros q (gql & d & ns & node & node_id & [= <-] & [= <-] & [= <-] & [] & _). }
  split; [left; reflexivity|]. split; [reflexivity|]. split; [reflexivity|].
  split.
  { apply (C6_unresolved_cached_false Examples.twohop_down Examples.batch_silent
             ["789012"] Examples.redis0 "789012");
      [left; reflexivity | reflexivity | reflexivity]. }
  split; [reflexivity|]. split; [exact Hwf|]. split; [exact Hnot|].
  split.
  { apply (C6_unresolved_cached_false Examples.twohop_down Examples.batch_silent
             ["789012"] Examples.redis0 "789012");
      [left; reflexivity | reflexivity | exact Hwf | exact Hnot]. }
  split; [reflexivity|].
  apply (C6_unresolved_cached_false Examples.twohop_down Examples.batch_down
           ["789012"] Examples.redis0 "789012");
    [left; reflexivity | reflexivity | reflexivity].
Defined.

(** ** Properties of the cache invalidation listener *)

Lemma env_set_nonempty (secret : string) :
  secret <> "" -> Webhook.env_set (Some secret) = Some secret.
Proof. intros H. destruct secret; [done | reflexivity]. Qed.

Lemma bytes_eqb_true (a b : list Byte.byte) : Webhook.bytes_eqb a b = true -> a = b.
Proof. unfold Webhook.bytes_eqb. destruct (List.list_eq_dec _ a b); [done | discriminate]. Qed.

Lemma bytes_eqb_refl (a : list Byte.byte) : Webhook.bytes_eqb a a = true.
Proof. unfold Webhook.bytes_eqb. destruct (List.list_eq_dec _ a a); [reflexivity | done]. Qed.

Lemma bytes_eqb_false (a b : list Byte.byte) : a <> b -> Webhook.bytes_eqb a b = false.
Proof. intros H. unfold Webhook.bytes_eqb. destruct (List.list_eq_dec _ a b); done. Qed.

(** The text of an object is never parsed. *)
Lemma object_text_rejected rt (members : list (string * Json)) (text : string) :
  Json_toString (Some (JObject members)) = Ok text ->
  Webhook.JSON_parse rt text = Throw "SyntaxError".
Proof.
  cbn [Json_toString Json_ToString].
  destruct (Json_member "toString" members); [discriminate|]. intros [= <-]. reflexivity.
Qed.

(** The listener of a variant on a body that is a JSON object. *)
Lemma twohop_webhook_object rt (configured : option string) (req : Webhook.Request)
    (members : list (string * Json)) (r : Redis) :
  Webhook.body req = Some (JObject members) ->
  TwoHop.post_webhook_product_update rt configured req r =
  (Ok {| status := 500; body := TextBody "Internal Server Error" |}, r).
Proof.
  intros Hb. unfold TwoHop.post_webhook_product_update, try_catch, TwoHop.verifyWebhook.
  rewrite Hb. unfold bind at 1. unfold lift_result.
  destruct (Webhook.env_set configured) as [secret|]; [reflexivity|].
  cbn [negb]. unfold bind at 1.
  destruct (Json_toString (Some (JObject members))) as [text|e] eqn:Ht; [|reflexivity].
  unfold bind at 1. rewrite (object_text_rejected rt members text Ht). reflexivity.
Qed.

(** The listener of a variant with a secret, on anything but a string. *)
Lemma twohop_webhook_secret rt (secret : string) (req : Webhook.Request) (r : Redis) :
  secret <> "" -> (forall s, Webhook.body req <> Some (JString s)) ->
  TwoHop.post_webhook_product_update rt (Some secret) req r =
  (Ok {| status := 500; body := TextBody "Internal Server Error" |}, r).
Proof.
  intros Hs Hb. unfold TwoHop.post_webhook_product_update, try_catch, TwoHop.verifyWebhook.
  rewrite (env_set_nonempty _ Hs). unfold bind at 1. unfold lift_result.
  destruct (Webhook.body req) as [[| | |s| |]|] eqn:Hbody; try reflexivity.
  destruct (Hb s eq_refl).
Qed.

(** The listener of a variant on a body that is a JSON object. *)
Lemma batch_webhook_object rt (configured : option string) (req : Webhook.Request)
    (members : list (string * Json)) (r : Redis) :
  Webhook.body req = Some (JObject members) ->
  Batch.post_webhook_product_update rt configured req r =
  (Ok {| status := 500; body := TextBody "Internal Server Error" |}, r).
Proof.
  intros Hb. unfold Batch.post_webhook_product_update, try_catch, Batch.verifyWebhook.
  rewrite Hb. unfold bind at 1. unfold lift_result.
  destruct (Webhook.env_set configured) as [secret|]; [reflexivity|].
  cbn [negb]. unfold bind at 1.
  destruct (Json_toString (Some (JObject members))) as [text|e] eqn:Ht; [|reflexivity].
  unfold bind at 1. rewrite (object_text_rejected rt members text Ht). reflexivity.
Qed.

(** The listener of a variant with a secret, on anything but a string. *)
Lemma batch_webhook_secret rt (secret : string) (req : Webhook.Request) (r : Redis) :
  secret <> "" -> (forall s, Webhook.body req <> Some (JString s)) ->
  Batch.post_webhook_product_update rt (Some secret) req r =
  (Ok {| status := 500; body := TextBody "Internal Server Error" |}, r).
Proof.
  intros Hs Hb. unfold Batch.post_webhook_product_update, try_catch, Batch.verifyWebhook.
  rewrite (env_set_nonempty _ Hs). unfold bind at 1. unfold lift_result.
  destruct (Webhook.body req) as [[| | |s| |]|] eqn:Hbody; try reflexivity.
  destruct (Hb s eq_refl).
Qed.

(** C8: the failing input. An authentic notification (its header
    carries the digest of the raw text under the configured secret, and
    the raw text is the JSON text of a product with a cached variant)
    reaches the handler with its body already parsed by the global
    [express.json()]; the listener of either variant answers 500,
    issues no Redis command and leaves the cached status in place. *)
Lemma C8_webhook_counterexample :
  Spec.authentic Examples.stub_runtime "shpss_secret" Examples.product_text
    (Webhook.hmac Examples.signed_notification) /\
  Webhook.JSON_parse Examples.stub_runtime Examples.product_text =
    Ok Examples.product_json /\
  Webhook.body Examples.signed_notification = Some Examples.product_json /\
  store Examples.redis_cached !! "preproduct_variant_789012" = Some (CACHE_TTL, "true") /\
  TwoHop.post_webhook_product_update Examples.stub_runtime (Some "shpss_secret")
    Examples.signed_notification Examples.redis_cached =
    (Ok {| status := 500; body := TextBody "Internal Server Error" |},
     Examples.redis_cached) /\
  Batch.post_webhook_product_update Examples.stub_runtime (Some "shpss_secret")
    Examples.signed_notification Examples.redis_cached =
    (Ok {| status := 500; body := TextBody "Internal Server Error" |},
     Examples.redis_cached).
Proof.
  split; [eexists; split; reflexivity|].
  repeat split; vm_compute; reflexivity.
Qed.

(** C8: what the listener does instead of what the claim says. A
    notification whose body is a JSON object, which is what Shopify
    sends, is never verified and never purges anything: whatever the
    secret (set or not), the signature header, the runtime and the
    backend, the listener of either variant answers 500 and issues no
    Redis command. The HMAC is asked of the parsed object, which
    throws; without a secret the text of the object does not parse. *)
Theorem C8_webhook_object_never_purges (rt : Webhook.Runtime) (configured : option string)
    (req : Webhook.Request) (members : list (string * Json)) (r : Redis) :
  Webhook.body req = Some (JObject members) ->
  TwoHop.post_webhook_product_update rt configured req r =
    (Ok {| status := 500; body := TextBody "Internal Server Error" |}, r) /\
  Batch.post_webhook_product_update rt configured req r =
    (Ok {| status := 500; body := TextBody "Internal Server Error" |}, r).
Proof.
  intros Hb. split; [by eapply twohop_webhook_object | by eapply batch_webhook_object].
Qed.

Lemma C8_webhook_object_never_purges_witness :
  Webhook.body Examples.signed_notification =
    Some (JObject [("variants", JArray [JObject [("id", JNumber 789012)]])]) /\
  TwoHop.post_webhook_product_update Examples.stub_runtime None
    Examples.signed_notification Examples.redis_cached =
    (Ok {| status := 500; body := TextBody "Internal Server Error" |},
     Examples.redis_cached) /\
  Batch.post_webhook_product_update Examples.stub_runtime None
    Examples.signed_notification Examples.redis_cached =
    (Ok {| status := 500; body := TextBody "Internal Server Error" |},
     Examples.redis_cached).
Proof.
  split; [reflexivity|].
  exact (C8_webhook_object_never_purges Examples.stub_runtime None
           Examples.signed_notification _ Examples.redis_cached eq_refl).
Defined.

(** * Further properties of the server *)

(** ** The rate engine beyond the claims *)

Lemma bucket_of_same_pricing (st1 st2 : gmap string bool) (i j : Item) :
  Props.same_pricing i j ->
  st1 !! toString (variant_id i) = st2 !! toString (variant_id i) ->
  Spec.bucket_of st1 i = Spec.bucket_of st2 j.
Proof.
  intros (Hv & _ & _) Hst. unfold Spec.bucket_of. by rewrite <- Hv, Hst.
Qed.

Lemma fold_same_pricing b (st1 st2 : gmap string bool) (xs ys : list Item) (a : Number.t) :
  Forall2 Props.same_pricing xs ys ->
  (forall i, In i xs -> st1 !! toString (variant_id i) = st2 !! toString (variant_id i)) ->
  fold_left Spec.add_extended (Spec.bucket_items b st1 xs) a =
  fold_left Spec.add_extended (Spec.bucket_items b st2 ys) a.
Proof.
  unfold Spec.bucket_items. intros H. revert a.
  induction H as [|i j xs ys Hij _ IH]; intros a Hst; [reflexivity|].
  cbn [List.filter].
  rewrite (bucket_of_same_pricing st1 st2 i j Hij (Hst i (or_introl eq_refl))).
  assert (IH' := fun a => IH a (fun k Hk => Hst k (or_intror Hk))).
  destruct Hij as (_ & Hp & Hq).
  destruct (Spec.Bucket_eqb (Spec.bucket_of st2 j) b); [|apply IH'].
  cbn [fold_left]. unfold Spec.add_extended at 2 4. unfold Spec.extended.
  rewrite Hp, Hq. apply IH'.
Qed.

Lemma bucket_subtotal_same_pricing b (st1 st2 : gmap string bool) (xs ys : list Item) :
  Forall2 Props.same_pricing xs ys ->
  (forall i, In i xs -> st1 !! toString (variant_id i) = st2 !! toString (variant_id i)) ->
  Spec.bucket_subtotal b st1 xs = Spec.bucket_subtotal b st2 ys.
Proof. intros H Hst. unfold Spec.bucket_subtotal, Spec.total. by apply fold_same_pricing. Qed.

Lemma bucket_exact_total_permutation b (statusMap : gmap string bool) (xs ys : list Item) :
  Permutation xs ys ->
  Spec.exact_total (Spec.bucket_items b statusMap xs) =
  Spec.exact_total (Spec.bucket_items b statusMap ys).
Proof.
  intros H. unfold Spec.bucket_items. by apply exact_total_permutation, filter_permutation.
Qed.

Lemma integral_of_Z (z : Z) : 0 <= z < 2 ^ 53 -> Spec.integral (Number.of_Z z).
Proof. intros Hz. unfold Spec.integral. rewrite to_Z_of_Z by exact Hz. auto. Qed.

(** X2: with the kill switch off, a request with an empty items list is
    answered 200 with the empty rate list by either variant, and no Redis
    command is issued: the resolver is not called. *)
Theorem X2_empty_cart_no_rates (appConfig : AppConfig) (envA : TwoHop.Env)
    (envB : Batch.Env) (r : Redis) :
  killSwitch appConfig = false ->
  TwoHop.post_rates appConfig envA {| rate := Some {| items := Some [] |} |} r =
    (Ok {| status := 200; body := JsonBody None (Some []) |}, r) /\
  Batch.post_rates appConfig envB {| rate := Some {| items := Some [] |} |} r =
    (Ok {| status := 200; body := JsonBody None (Some []) |}, r).
Proof.
  intros Hk. unfold TwoHop.post_rates, Batch.post_rates, try_catch. rewrite Hk.
  split; reflexivity.
Qed.

Lemma X2_empty_cart_no_rates_witness :
  killSwitch Examples.appConfig = false /\
  TwoHop.post_rates Examples.appConfig Examples.twohop_up
    {| rate := Some {| items := Some [] |} |} Examples.redis_cached =
    (Ok {| status := 200; body := JsonBody None (Some []) |}, Examples.redis_cached) /\
  Batch.post_rates Examples.appConfig Examples.batch_up
    {| rate := Some {| items := Some [] |} |} Examples.redis_cached =
    (Ok {| status := 200; body := JsonBody None (Some []) |}, Examples.redis_cached).
Proof.
  split; [reflexivity|].
  apply (X2_empty_cart_no_rates Examples.appConfig Examples.twohop_up Examples.batch_up
           Examples.redis_cached).
  reflexivity.
Defined.

(** X3: for a cart whose prices and quantities are non-negative
    integers below [2^53] and whose exact total is below [2^53], the
    rate list a variant computes from resolved statuses does not depend
    on the order of the line items, nor on whether a quantity is given
    on one line or split over two lines of the same variant and price.
    Beyond that
    range the order matters: with the threshold [2^53 + 2], three
    ready-to-ship lines priced [2^53], 1 and 1 are charged the fee in
    that order and ship free with the large line last. *)
Theorem X3_rates_ignore_line_order (appConfig : AppConfig) (statuses : gmap string bool) :
  (forall its its' : list Item, Permutation its its' ->
     Forall Spec.integer_amounts its -> Spec.exact_total its < 2 ^ 53 ->
     TwoHop.calculate_rates appConfig its statuses =
       TwoHop.calculate_rates appConfig its' statuses /\
     Batch.calculate_rates appConfig its statuses =
       Batch.calculate_rates appConfig its' statuses) /\
  (forall (i : Item) (q1 q2 : Z) (rest : list Item),
     0 <= q1 -> 0 <= q2 -> q1 + q2 < 2 ^ 53 ->
     Spec.integral (price i) -> Forall Spec.integer_amounts rest ->
     Spec.exact_total (Props.with_quantity (q1 + q2) i :: rest) < 2 ^ 53 ->
     TwoHop.calculate_rates appConfig (Props.with_quantity (q1 + q2) i :: rest) statuses =
       TwoHop.calculate_rates appConfig
         (Props.with_quantity q1 i :: Props.with_quantity q2 i :: rest) statuses /\
     Batch.calculate_rates appConfig (Props.with_quantity (q1 + q2) i :: rest) statuses =
       Batch.calculate_rates appConfig
         (Props.with_quantity q1 i :: Props.with_quantity q2 i :: rest) statuses) /\
  Permutation Examples.huge_cart Examples.huge_cart_reordered /\
  map total_price (TwoHop.calculate_rates Examples.huge_threshold Examples.huge_cart ∅) =
    ["500"] /\
  map total_price
    (TwoHop.calculate_rates Examples.huge_threshold Examples.huge_cart_reordered ∅) = ["0"] /\
  map total_price (Batch.calculate_rates Examples.huge_threshold Examples.huge_cart ∅) =
    ["500"] /\
  map total_price
    (Batch.calculate_rates Examples.huge_threshold Examples.huge_cart_reordered ∅) = ["0"].
Proof.
  split; [|split].
  - intros its its' Hperm Hint Hb.
    assert (Hint' : Forall Spec.integer_amounts its').
    { apply List.Forall_forall. intros x Hx.
      apply (proj1 (List.Forall_forall _ _) Hint).
      eapply Permutation_in; [symmetry; exact Hperm | exact Hx]. }
    assert (Hb' : Spec.exact_total its' < 2 ^ 53)
      by (rewrite <- (exact_total_permutation its its' Hperm); exact Hb).
    split; [rewrite !twohop_calculate_rates_spec | rewrite !batch_calculate_rates_spec];
      rewrite !(bucket_subtotal_integral _ statuses its Hint Hb);
      rewrite !(bucket_subtotal_integral _ statuses its' Hint' Hb');
      rewrite (bucket_exact_total_permutation Spec.ReadyToShip statuses its its' Hperm);
      rewrite (bucket_exact_total_permutation Spec.PreOrder statuses its its' Hperm);
      reflexivity.
  - intros i q1 q2 rest Hq1 Hq2 Hq Hp Hrest Hb.
    assert (Hto : forall q, 0 <= q < 2 ^ 53 ->
              Spec.cents (Props.with_quantity q i) = Number.to_Z (price i) * q).
    { intros q Hqb. unfold Spec.cents, Props.with_quantity. cbn [price quantity].
      by rewrite to_Z_of_Z. }
    assert (Hamt : forall q, 0 <= q < 2 ^ 53 ->
              Spec.integer_amounts (Props.with_quantity q i)).
    { intros q Hqb. split; [exact Hp | by apply integral_of_Z]. }
    assert (Hint : Forall Spec.integer_amounts (Props.with_quantity (q1 + q2) i :: rest)).
    { constructor; [apply Hamt; lia | exact Hrest]. }
    assert (Hint' : Forall Spec.integer_amounts
                      (Props.with_quantity q1 i :: Props.with_quantity q2 i :: rest)).
    { constructor; [apply Hamt; lia|]. constructor; [apply Hamt; lia | exact Hrest]. }
    assert (Hb' : Spec.exact_total
                    (Props.with_quantity q1 i :: Props.with_quantity q2 i :: rest) < 2 ^ 53).
    { cbn [Spec.exact_total fold_right] in *. fold (Spec.exact_total rest) in *.
      rewrite !Hto in * by lia. lia. }
    assert (Heq : forall b,
              Spec.exact_total
                (Spec.bucket_items b statuses (Props.with_quantity (q1 + q2) i :: rest)) =
              Spec.exact_total
                (Spec.bucket_items b statuses
                   (Props.with_quantity q1 i :: Props.with_quantity q2 i :: rest))).
    { intros b. unfold Spec.bucket_items. cbn [List.filter].
      change (Spec.bucket_of statuses (Props.with_quantity (q1 + q2) i))
        with (Spec.bucket_of statuses i).
      change (Spec.bucket_of statuses (Props.with_quantity q1 i))
        with (Spec.bucket_of statuses i).
      change (Spec.bucket_of statuses (Props.with_quantity q2 i))
        with (Spec.bucket_of statuses i).
      destruct (Spec.Bucket_eqb (Spec.bucket_of statuses i) b); [|reflexivity].
      cbn [Spec.exact_total fold_right]. rewrite !Hto by lia. lia. }
    split; [rewrite !twohop_calculate_rates_spec | rewrite !batch_calculate_rates_spec];
      rewrite !(bucket_subtotal_integral _ statuses _ Hint Hb);
      rewrite !(bucket_subtotal_integral _ statuses _ Hint' Hb');
      rewrite !Heq; reflexivity.
  - split; [|repeat split; vm_compute; reflexivity].
    unfold Examples.huge_cart, Examples.huge_cart_reordered.
    change [Examples.huge_item; Examples.unit_item; Examples.unit_item]
      with ([Examples.huge_item] ++ [Examples.unit_item; Examples.unit_item]).
    change [Examples.unit_item; Examples.unit_item; Examples.huge_item]
      with ([Examples.unit_item; Examples.unit_item] ++ [Examples.huge_item]).
    apply Permutation_app_comm.
Qed.

Lemma X3_rates_ignore_line_order_witness :
  Permutation [Examples.item_3000; Examples.item_6000]
              [Examples.item_6000; Examples.item_3000] /\
  Forall Spec.integer_amounts [Examples.item_3000; Examples.item_6000] /\
  Spec.exact_total [Examples.item_3000; Examples.item_6000] < 2 ^ 53 /\
  TwoHop.calculate_rates Examples.appConfig [Examples.item_3000; Examples.item_6000]
    Examples.statuses =
  TwoHop.calculate_rates Examples.appConfig [Examples.item_6000; Examples.item_3000]
    Examples.statuses /\
  0 <= 2 /\ 0 <= 3 /\ 2 + 3 < 2 ^ 53 /\ Spec.integral (price Examples.item_3000) /\
  Spec.exact_total (Props.with_quantity (2 + 3) Examples.item_3000 :: []) < 2 ^ 53 /\
  Batch.calculate_rates Examples.appConfig
    (Props.with_quantity (2 + 3) Examples.item_3000 :: []) Examples.statuses =
  Batch.calculate_rates Examples.appConfig
    (Props.with_quantity 2 Examples.item_3000 :: Props.with_quantity 3 Examples.item_3000 :: [])
    Examples.statuses.
Proof.
  assert (Hperm : Permutation [Examples.item_3000; Examples.item_6000]
                              [Examples.item_6000; Examples.item_3000])
    by apply perm_swap.
  assert (Hint : Forall Spec.integer_amounts [Examples.item_3000; Examples.item_6000]).
  { repeat constructor; vm_compute; intros; discriminate. }
  assert (Hb : Spec.exact_total [Examples.item_3000; Examples.item_6000] < 2 ^ 53)
    by (vm_compute; reflexivity).
  assert (Hp : Spec.integral (price Examples.item_3000)).
  { repeat constructor; vm_compute; intros; discriminate. }
  assert (Hb2 : Spec.exact_total (Props.with_quantity (2 + 3) Examples.item_3000 :: [])
                < 2 ^ 53) by (vm_compute; reflexivity).
  split; [exact Hperm|]. split; [exact Hint|]. split; [exact Hb|].
  split.
  { exact (proj1 (proj1 (X3_rates_ignore_line_order Examples.appConfig Examples.statuses)
                    _ _ Hperm Hint Hb)). }
  split; [lia|]. split; [lia|]. split; [lia|]. split; [exact Hp|]. split; [exact Hb2|].
  exact (proj2 (proj1 (proj2 (X3_rates_ignore_line_order Examples.appConfig
                                Examples.statuses))
                  Examples.item_3000 2 3 [] ltac:(lia) ltac:(lia) ltac:(lia) Hp
                  (List.Forall_nil _) Hb2)).
Defined.

(** X4: the rate list depends on a line item only through its variant
    id, price and quantity (product type and title play no part once the
    cart is not gift-cards-only), and on the status map only at the
    variant ids of the cart. *)
Theorem X4_rates_depend_on_pricing_data (appConfig : AppConfig)
    (st1 st2 : gmap string bool) (its its' : list Item) :
  Forall2 Props.same_pricing its its' ->
  (forall i, In i its -> st1 !! toString (variant_id i) = st2 !! toString (variant_id i)) ->
  TwoHop.calculate_rates appConfig its st1 = TwoHop.calculate_rates appConfig its' st2 /\
  Batch.calculate_rates appConfig its st1 = Batch.calculate_rates appConfig its' st2.
Proof.
  intros Hsame Hst.
  split; [rewrite !twohop_calculate_rates_spec | rewrite !batch_calculate_rates_spec];
    rewrite (bucket_subtotal_same_pricing Spec.ReadyToShip st1 st2 its its' Hsame Hst);
    rewrite (bucket_subtotal_same_pricing Spec.PreOrder st1 st2 its its' Hsame Hst);
    reflexivity.
Qed.

Lemma X4_rates_depend_on_pricing_data_witness :
  Forall2 Props.same_pricing [Examples.gift_card; Examples.item_3000]
    [ {| variant_id := IdNum 789014; price := 5000; quantity := 1;
         product_type := None; title := Some "Mug" |}; Examples.item_3000 ] /\
  (forall i, In i [Examples.gift_card; Examples.item_3000] ->
     Examples.statuses !! toString (variant_id i) =
     (<["unrelated" := true]> Examples.statuses) !! toString (variant_id i)) /\
  TwoHop.calculate_rates Examples.appConfig [Examples.gift_card; Examples.item_3000]
    Examples.statuses =
  TwoHop.calculate_rates Examples.appConfig
    [ {| variant_id := IdNum 789014; price := 5000; quantity := 1;
         product_type := None; title := Some "Mug" |}; Examples.item_3000 ]
    (<["unrelated" := true]> Examples.statuses).
Proof.
  assert (Hsame : Forall2 Props.same_pricing [Examples.gift_card; Examples.item_3000]
    [ {| variant_id := IdNum 789014; price := 5000; quantity := 1;
         product_type := None; title := Some "Mug" |}; Examples.item_3000 ]).
  { repeat constructor. }
  assert (Hst : forall i, In i [Examples.gift_card; Examples.item_3000] ->
     Examples.statuses !! toString (variant_id i) =
     (<["unrelated" := true]> Examples.statuses) !! toString (variant_id i)).
  { intros i [<-|[<-|[]]]; vm_compute; reflexivity. }
  split; [exact Hsame|]. split; [exact Hst|].
  exact (proj1 (X4_rates_depend_on_pricing_data Examples.appConfig _ _ _ _ Hsame Hst)).
Defined.

(** A positive subtotal is at or above a threshold that is zero or
    negative (the zeros of either sign and minus infinity included). *)
Lemma positive_above_nonpositive (subtotal limit : Number.t) :
  Number.gt subtotal Number.zero = true -> Number.ge Number.zero limit = true ->
  Number.ge subtotal limit = true.
Proof.
  unfold Number.gt, Number.ge, Number.zero, SFltb, SFleb.
  destruct subtotal as [[]|[]| |[] ms es], limit as [[]|[]| |[] ml el];
    cbn [SFcompare]; try discriminate; try reflexivity.
Qed.

(** X5: the configuration is not validated, and with a threshold that
    is zero or negative every quote either variant emits is free,
    whatever the fee and whatever Numbers the cart holds: a bucket is
    quoted only when its subtotal is positive, hence at or above such a
    threshold. *)
Theorem X5_low_threshold_always_free (appConfig : AppConfig) (its : list Item)
    (statuses : gmap string bool) (q : RateQuote) :
  Number.ge Number.zero (threshold appConfig) = true ->
  In q (TwoHop.calculate_rates appConfig its statuses) \/
  In q (Batch.calculate_rates appConfig its statuses) ->
  total_price q = "0".
Proof.
  intros Ht Hin.
  rewrite twohop_calculate_rates_spec in Hin.
  rewrite ?batch_calculate_rates_spec in Hin.
  assert (Hq : forall b subtotal, In q (Spec.bucket_quote appConfig b subtotal) ->
                 total_price q = "0").
  { intros b subtotal. unfold Spec.bucket_quote, Spec.bucket_price.
    destruct (Number.gt subtotal Number.zero) eqn:Hpos; [|intros []].
    rewrite (positive_above_nonpositive _ _ Hpos Ht).
    intros [<-|[]]. reflexivity. }
  destruct Hin as [Hin|Hin]; apply in_app_or in Hin as [Hin|Hin]; eauto.
Qed.

Lemma X5_low_threshold_always_free_witness :
  Number.ge Number.zero
    (threshold {| threshold := -100; feeUnderThreshold := 500;
                  labels := labels Examples.appConfig; description := "";
                  killSwitch := false; currency := "USD" |}) = true /\
  In {| service_name := "Ships Now (In-Stock)"; service_code := "RTS_STD";
        total_price := "0"; rate_currency := "USD"; rate_description := "" |}
     (TwoHop.calculate_rates
        {| threshold := -100; feeUnderThreshold := 500;
           labels := labels Examples.appConfig; description := "";
           killSwitch := false; currency := "USD" |}
        [Examples.item_3000] Examples.statuses) /\
  total_price
    {| service_name := "Ships Now (In-Stock)"; service_code := "RTS_STD";
       total_price := "0"; rate_currency := "USD"; rate_description := "" |} = "0".
Proof.
  assert (Ht : Number.ge Number.zero
    (threshold {| threshold := -100; feeUnderThreshold := 500;
                  labels := labels Examples.appConfig; description := "";
                  killSwitch := false; currency := "USD" |}) = true)
    by (vm_compute; reflexivity).
  assert (Hin : In {| service_name := "Ships Now (In-Stock)"; service_code := "RTS_STD";
        total_price := "0"; rate_currency := "USD"; rate_description := "" |}
     (TwoHop.calculate_rates
        {| threshold := -100; feeUnderThreshold := 500;
           labels := labels Examples.appConfig; description := "";
           killSwitch := false; currency := "USD" |}
        [Examples.item_3000] Examples.statuses))
    by (vm_compute; left; reflexivity).
  split; [exact Ht|]. split; [exact Hin|].
  exact (X5_low_threshold_always_free _ _ _ _ Ht (or_introl Hin)).
Defined.

(** ** The status resolver beyond the claims *)

Lemma JSON_parse_stringify (b : bool) : JSON_parse (JSON_stringify b) = Ok (Some b).
Proof. by destruct b. Qed.

Lemma cache_read_healthy key (r r' : Redis) :
  faults r = [] -> faults r' = [] -> store r' = store r ->
  cache_read key r' = cache_read key r.
Proof. intros H H' Hst. unfold cache_read, faulty. by rewrite H, H', Hst. Qed.

Lemma cache_read_stored key (r : Redis) (ttl : Z) (b : bool) :
  faults r = [] -> store r !! key = Some (ttl, JSON_stringify b) ->
  cache_read key r = Some b.
Proof.
  intros Hf Hst. unfold cache_read, faulty. rewrite Hf, Hst, JSON_parse_stringify.
  reflexivity.
Qed.

(** X6: for a requested id that is not in the store and that both remote
    lookups resolve (Shopify names the owning product, PreProduct answers
    with a flag), the two-hop resolver returns that flag, issues a cache
    write of it with the 24-hour TTL, and with a healthy backend the
    store then holds it. *)
Theorem X6_twohop_resolved_and_cached (env : TwoHop.Env) (variantIds : list string)
    (r : Redis) (id : string) (b : bool) :
  In id variantIds -> store r !! TwoHop.cacheKey id = None ->
  Spec.twohop_status env id = Some b ->
  exists results r',
    TwoHop.getVariantPreOrderStatus env variantIds r = (Ok results, r') /\
    results !! id = Some b /\
    In (SETEX (TwoHop.cacheKey id) CACHE_TTL (JSON_stringify b)) (log r') /\
    (faults r = [] ->
     store r' !! TwoHop.cacheKey id = Some (CACHE_TTL, JSON_stringify b)).
Proof.
  intros Hin Hmiss Hb.
  destruct (twohop_resolver env variantIds r) as (results & r' & Hres & _ & _ & Hfresh).
  destruct (Hfresh id Hin Hmiss) as [Hv Hw].
  pose proof (twohop_resolver_store env variantIds r id) as Hstore.
  rewrite Hres in Hstore. cbn [snd] in Hstore.
  unfold Spec.twohop_default in Hv, Hw, Hstore. rewrite Hb in Hv, Hw, Hstore.
  exists results, r'. split; [exact Hres|]. split; [exact Hv|]. split; [exact Hw|].
  intros Hf. by apply Hstore.
Qed.

Lemma X6_twohop_resolved_and_cached_witness :
  In "789013" ["789012"; "789013"] /\
  store Examples.redis0 !! TwoHop.cacheKey "789013" = None /\
  Spec.twohop_status Examples.twohop_up "789013" = Some true /\
  exists results r',
    TwoHop.getVariantPreOrderStatus Examples.twohop_up ["789012"; "789013"]
      Examples.redis0 = (Ok results, r') /\
    results !! "789013" = Some true /\
    In (SETEX (TwoHop.cacheKey "789013") CACHE_TTL (JSON_stringify true)) (log r') /\
    (faults Examples.redis0 = [] ->
     store r' !! TwoHop.cacheKey "789013" = Some (CACHE_TTL, JSON_stringify true)).
Proof.
  split; [right; left; reflexivity|]. split; [reflexivity|]. split; [reflexivity|].
  apply (X6_twohop_resolved_and_cached Examples.twohop_up ["789012"; "789013"]
           Examples.redis0 "789013" true);
    [right; left; reflexivity | reflexivity | reflexivity].
Defined.

(** X10: what [setCached...] writes, [getCached...] reads back: with a
    healthy backend, a status written for a variant is the status read
    for it afterwards, in either variant, and the status read for any
    other variant is what it was before the write. A faulty backend
    makes the write a no-op on the store and the read a miss, without a
    throw. *)
Theorem X10_cache_write_then_read (variantId other : string) (b : bool) (r : Redis) :
  (faults r = [] ->
   fst (TwoHop.getCachedVariantPreOrder variantId
          (snd (TwoHop.setCachedVariantPreOrder variantId b r))) = Ok (Some b) /\
   fst (Batch.getCachedVariantMetafield variantId
          (snd (Batch.setCachedVariantMetafield variantId b r))) = Ok (Some b) /\
   (other <> variantId ->
    fst (TwoHop.getCachedVariantPreOrder other
           (snd (TwoHop.setCachedVariantPreOrder variantId b r))) =
    fst (TwoHop.getCachedVariantPreOrder other r) /\
    fst (Batch.getCachedVariantMetafield other
           (snd (Batch.setCachedVariantMetafield variantId b r))) =
    fst (Batch.getCachedVariantMetafield other r))) /\
  (faulty r = true ->
   TwoHop.setCachedVariantPreOrder variantId b r =
     (Ok tt, issued (SETEX (TwoHop.cacheKey variantId) CACHE_TTL (JSON_stringify b))
               (store r) r) /\
   TwoHop.getCachedVariantPreOrder variantId r =
     (Ok None, issued (GET (TwoHop.cacheKey variantId)) (store r) r) /\
   Batch.setCachedVariantMetafield variantId b r =
     (Ok tt, issued (SETEX (Batch.cacheKey variantId) CACHE_TTL (JSON_stringify b))
               (store r) r) /\
   Batch.getCachedVariantMetafield variantId r =
     (Ok None, issued (GET (Batch.cacheKey variantId)) (store r) r)).
Proof.
  split.
  - intros Hf.
    rewrite twohop_setCached_eq, batch_setCached_eq. cbn [snd].
    rewrite !twohop_getCached_eq, !batch_getCached_eq. cbn [fst].
    rewrite !(cache_written_healthy _ _ _ Hf).
    assert (Hf' : forall cmd st, faults (issued cmd st r) = []).
    { intros cmd st. unfold issued. simpl. by rewrite Hf. }
    split; [|split].
    + f_equal. apply (cache_read_stored _ _ CACHE_TTL); [apply Hf'|].
      simpl. by rewrite lookup_insert_eq.
    + f_equal. apply (cache_read_stored _ _ CACHE_TTL); [apply Hf'|].
      simpl. by rewrite lookup_insert_eq.
    + intros Hne. split; f_equal; unfold cache_read, faulty; rewrite Hf' , Hf; simpl.
      * rewrite lookup_insert_ne; [reflexivity|].
        intros Heq. apply twohop_cacheKey_inj in Heq. congruence.
      * rewrite lookup_insert_ne; [reflexivity|].
        intros Heq. apply batch_cacheKey_inj in Heq. congruence.
  - intros Hf.
    rewrite twohop_setCached_eq, batch_setCached_eq, twohop_getCached_eq, batch_getCached_eq.
    unfold cache_written, cache_read. rewrite Hf. auto.
Qed.

Lemma X10_cache_write_then_read_witness :
  faults Examples.redis0 = [] /\
  fst (TwoHop.getCachedVariantPreOrder "789012"
         (snd (TwoHop.setCachedVariantPreOrder "789012" true Examples.redis0)))
    = Ok (Some true) /\
  faulty (mkRedis ∅ [true] []) = true /\
  TwoHop.getCachedVariantPreOrder "789012" (mkRedis ∅ [true] []) =
    (Ok None, issued (GET (TwoHop.cacheKey "789012")) (store (mkRedis ∅ [true] []))
                (mkRedis ∅ [true] [])).
Proof.
  split; [reflexivity|]. split.
  { apply (proj1 (X10_cache_write_then_read "789012" "789013" true Examples.redis0)).
    reflexivity. }
  split; [reflexivity|].
  apply (proj2 (X10_cache_write_then_read "789012" "789013" true (mkRedis ∅ [true] []))).
  reflexivity.
Defined.

Lemma prefix_append (p x : string) : String.prefix p (p +:+ x) = true.
Proof.
  induction p as [|c p IH]; simpl; [by destruct x|].
  destruct (ascii_dec c c); [exact IH | done].
Qed.

Lemma drop_chars_append (p x : string) : drop_chars (String.length p) (p +:+ x) = x.
Proof. induction p as [|c p IH]; simpl; [reflexivity | exact IH]. Qed.

(** X11: the variant id the batch resolver extracts from a node id
    undoes the global id the query builds: removing the prefix from the
    gid of any variant id gives the variant id back, so the ids of the
    query are distinct whenever the variant ids are. *)
Theorem X11_gid_round_trip (variantId other : string) :
  replace (Batch.gid_prefix +:+ variantId) Batch.gid_prefix "" = variantId /\
  (Batch.gid_prefix +:+ variantId = Batch.gid_prefix +:+ other -> variantId = other).
Proof.
  split; [|apply append_prefix_inj].
  destruct variantId as [|c v].
  - reflexivity.
  - unfold Batch.gid_prefix.
    change (replace ("gid://shopify/ProductVariant/" +:+ String c v)
              "gid://shopify/ProductVariant/" "")
      with (if String.prefix "gid://shopify/ProductVariant/"
                 ("gid://shopify/ProductVariant/" +:+ String c v)
            then "" +:+ drop_chars (String.length "gid://shopify/ProductVariant/")
                          ("gid://shopify/ProductVariant/" +:+ String c v)
            else String "g" (replace ("id://shopify/ProductVariant/" +:+ String c v)
                               "gid://shopify/ProductVariant/" "")).
    rewrite prefix_append, drop_chars_append. reflexivity.
Qed.

(** The first loop of the two-hop resolver on a healthy backend: one
    read per id, in order; an id is answered exactly when the store
    yields a status for it and queued exactly when it does not. *)
Lemma twohop_check_cache_loop_healthy (variantIds : list string) (r : Redis) :
  faults r = [] ->
  exists l1 r1,
    for_of variantIds TwoHop.check_cache (TwoHop.mkLocals ∅ [], r) = (Ok tt, (l1, r1)) /\
    faults r1 = [] /\ store r1 = store r /\
    log r1 = log r ++ map (fun id => GET (TwoHop.cacheKey id)) variantIds /\
    (forall id, In id variantIds ->
       TwoHop.results l1 !! id = cache_read (TwoHop.cacheKey id) r) /\
    (forall id, is_Some (TwoHop.results l1 !! id) -> In id variantIds) /\
    (forall id, In id (TwoHop.uncachedVariants l1) <->
       In id variantIds /\ cache_read (TwoHop.cacheKey id) r = None).
Proof.
  intros Hf.
  pose (I := fun (pre : list string) (s : TwoHop.Locals * Redis) =>
    faults (snd s) = [] /\ store (snd s) = store r /\
    log (snd s) = log r ++ map (fun id => GET (TwoHop.cacheKey id)) pre /\
    (forall id, In id pre ->
       TwoHop.results (fst s) !! id = cache_read (TwoHop.cacheKey id) r) /\
    (forall id, is_Some (TwoHop.results (fst s) !! id) -> In id pre) /\
    (forall id, In id (TwoHop.uncachedVariants (fst s)) <->
       In id pre /\ cache_read (TwoHop.cacheKey id) r = None)).
  assert (Hloop : hoare (I []) (for_of variantIds TwoHop.check_cache)
                    (fun _ => I variantIds) (fun _ => False)).
  { apply hoare_for_of. intros pre x post _ s (Hf' & Hst & Hlog & Hres & Hdom & Hunc).
    rewrite twohop_check_cache_eq.
    rewrite (cache_read_healthy (TwoHop.cacheKey x) r (snd s) Hf Hf' Hst).
    unfold I. cbn [fst snd].
    split; [simpl; by rewrite Hf'|]. split; [exact Hst|].
    split; [simpl; by rewrite Hlog, map_app, app_assoc|].
    destruct (cache_read (TwoHop.cacheKey x) r) as [c|] eqn:Hread; simpl.
    - split; [|split].
      + intros id Hin. destruct (decide (x = id)) as [->|Hne].
        * by rewrite lookup_insert_eq.
        * rewrite lookup_insert_ne by done.
          apply in_app_or in Hin as [Hin|[?|[]]]; [by apply Hres | done].
      + intros id Hs. apply in_or_app. destruct (decide (x = id)) as [->|Hne].
        * right. by left.
        * rewrite lookup_insert_ne in Hs by done. left. by apply Hdom.
      + intros id. rewrite Hunc. split.
        * intros [Hin Hn]. split; [apply in_or_app; by left | exact Hn].
        * intros [Hin Hn]. split; [|exact Hn].
          apply in_app_or in Hin as [Hin|[<-|[]]]; [exact Hin | congruence].
    - split; [|split].
      + intros id Hin. apply in_app_or in Hin as [Hin|[<-|[]]]; [by apply Hres|].
        destruct (TwoHop.results (fst s) !! x) as [v|] eqn:Hv; [|by rewrite Hread].
        rewrite <- Hv. apply Hres. apply Hdom. rewrite Hv. eauto.
      + intros id Hs. apply in_or_app. left. by apply Hdom.
      + intros id. split.
        * intros Hin. apply in_app_or in Hin as [Hin|[<-|[]]].
          -- apply Hunc in Hin as [Hin Hn]. split; [apply in_or_app; by left | exact Hn].
          -- split; [apply in_or_app; right; by left | exact Hread].
        * intros [Hin Hn]. apply in_or_app.
          apply in_app_or in Hin as [Hin|[<-|[]]]; [left | right; by left].
          apply Hunc. by split. }
  assert (Hinit : I [] (TwoHop.mkLocals ∅ [], r)).
  { unfold I. simpl. split; [exact Hf|]. split; [reflexivity|].
    split; [by rewrite app_nil_r|]. split; [intros id []|].
    split; [intros id [v Hv]; by rewrite lookup_empty in Hv|].
    intros id. split; [intros [] | intros [[] _]]. }
  specialize (Hloop _ Hinit).
  destruct (for_of variantIds TwoHop.check_cache (TwoHop.mkLocals ∅ [], r))
    as [[[]|e] [l1 r1]]; [|done].
  exists l1, r1. split; [reflexivity|]. exact Hloop.
Qed.

(** The first loop of the batch resolver on a healthy backend: one
    read per id, in order; an id is answered exactly when the store
    yields a status for it and queued exactly when it does not. *)
Lemma batch_check_cache_loop_healthy (variantIds : list string) (r : Redis) :
  faults r = [] ->
  exists l1 r1,
    for_of variantIds Batch.check_cache (Batch.mkLocals ∅ [], r) = (Ok tt, (l1, r1)) /\
    faults r1 = [] /\ store r1 = store r /\
    log r1 = log r ++ map (fun id => GET (Batch.cacheKey id)) variantIds /\
    (forall id, In id variantIds ->
       Batch.results l1 !! id = cache_read (Batch.cacheKey id) r) /\
    (forall id, is_Some (Batch.results l1 !! id) -> In id variantIds) /\
    (forall id, In id (Batch.uncachedIds l1) <->
       In id variantIds /\ cache_read (Batch.cacheKey id) r = None).
Proof.
  intros Hf.
  pose (I := fun (pre : list string) (s : Batch.Locals * Redis) =>
    faults (snd s) = [] /\ store (snd s) = store r /\
    log (snd s) = log r ++ map (fun id => GET (Batch.cacheKey id)) pre /\
    (forall id, In id pre ->
       Batch.results (fst s) !! id = cache_read (Batch.cacheKey id) r) /\
    (forall id, is_Some (Batch.results (fst s) !! id) -> In id pre) /\
    (forall id, In id (Batch.uncachedIds (fst s)) <->
       In id pre /\ cache_read (Batch.cacheKey id) r = None)).
  assert (Hloop : hoare (I []) (for_of variantIds Batch.check_cache)
                    (fun _ => I variantIds) (fun _ => False)).
  { apply hoare_for_of. intros pre x post _ s (Hf' & Hst & Hlog & Hres & Hdom & Hunc).
    rewrite batch_check_cache_eq.
    rewrite (cache_read_healthy (Batch.cacheKey x) r (snd s) Hf Hf' Hst).
    unfold I. cbn [fst snd].
    split; [simpl; by rewrite Hf'|]. split; [exact Hst|].
    split; [simpl; by rewrite Hlog, map_app, app_assoc|].
    destruct (cache_read (Batch.cacheKey x) r) as [c|] eqn:Hread; simpl.
    - split; [|split].
      + intros id Hin. destruct (decide (x = id)) as [->|Hne].
        * by rewrite lookup_insert_eq.
        * rewrite lookup_insert_ne by done.
          apply in_app_or in Hin as [Hin|[?|[]]]; [by apply Hres | done].
      + intros id Hs. apply in_or_app. destruct (decide (x = id)) as [->|Hne].
        * right. by left.
        * rewrite lookup_insert_ne in Hs by done. left. by apply Hdom.
      + intros id. rewrite Hunc. split.
        * intros [Hin Hn]. split; [apply in_or_app; by left | exact Hn].
        * intros [Hin Hn]. split; [|exact Hn].
          apply in_app_or in Hin as [Hin|[<-|[]]]; [exact Hin | congruence].
    - split; [|split].
      + intros id Hin. apply in_app_or in Hin as [Hin|[<-|[]]]; [by apply Hres|].
        destruct (Batch.results (fst s) !! x) as [v|] eqn:Hv; [|by rewrite Hread].
        rewrite <- Hv. apply Hres. apply Hdom. rewrite Hv. eauto.
      + intros id Hs. apply in_or_app. left. by apply Hdom.
      + intros id. split.
        * intros Hin. apply in_app_or in Hin as [Hin|[<-|[]]].
          -- apply Hunc in Hin as [Hin Hn]. split; [apply in_or_app; by left | exact Hn].
          -- split; [apply in_or_app; right; by left | exact Hread].
        * intros [Hin Hn]. apply in_or_app.
          apply in_app_or in Hin as [Hin|[<-|[]]]; [left | right; by left].
          apply Hunc. by split. }
  assert (Hinit : I [] (Batch.mkLocals ∅ [], r)).
  { unfold I. simpl. split; [exact Hf|]. split; [reflexivity|].
    split; [by rewrite app_nil_r|]. split; [intros id []|].
    split; [intros id [v Hv]; by rewrite lookup_empty in Hv|].
    intros id. split; [intros [] | intros [[] _]]. }
  specialize (Hloop _ Hinit).
  destruct (for_of variantIds Batch.check_cache (Batch.mkLocals ∅ [], r))
    as [[[]|e] [l1 r1]]; [|done].
  exists l1, r1. split; [reflexivity|]. exact Hloop.
Qed.

Lemma no_elements_nil {A} (l : list A) : (forall x, ~ In x l) -> l = [].
Proof. destruct l as [|x l]; [reflexivity|]. intros H. destruct (H x). by left. Qed.

(** The two-hop resolver when the store yields a status for every id. *)
Lemma twohop_resolver_hits env (variantIds : list string) (r : Redis) :
  faults r = [] ->
  (forall id, In id variantIds -> is_Some (cache_read (TwoHop.cacheKey id) r)) ->
  exists results r',
    TwoHop.getVariantPreOrderStatus env variantIds r = (Ok results, r') /\
    (forall id, In id variantIds -> results !! id = cache_read (TwoHop.cacheKey id) r) /\
    (forall id, is_Some (results !! id) -> In id variantIds) /\
    faults r' = [] /\ store r' = store r /\
    log r' = log r ++ map (fun id => GET (TwoHop.cacheKey id)) variantIds.
Proof.
  intros Hf Hhit.
  destruct (twohop_check_cache_loop_healthy variantIds r Hf)
    as (l1 & r1 & E1 & Hf1 & Hst & Hlog & Hres & Hdom & Hunc).
  assert (Hnil : TwoHop.uncachedVariants l1 = []).
  { apply no_elements_nil. intros id Hin. apply Hunc in Hin as [Hin Hn].
    destruct (Hhit id Hin) as [c Hc]. congruence. }
  exists (TwoHop.results l1), r1. split; [|auto].
  unfold TwoHop.getVariantPreOrderStatus, with_locals, bind.
  rewrite E1. simpl. rewrite Hnil. reflexivity.
Qed.

Lemma batch_resolver_hits env (variantIds : list string) (r : Redis) :
  faults r = [] ->
  (forall id, In id variantIds -> is_Some (cache_read (Batch.cacheKey id) r)) ->
  exists results r',
    Batch.getVariantPreOrderStatus env variantIds r = (Ok results, r') /\
    (forall id, In id variantIds -> results !! id = cache_read (Batch.cacheKey id) r) /\
    (forall id, is_Some (results !! id) -> In id variantIds) /\
    faults r' = [] /\ store r' = store r /\
    log r' = log r ++ map (fun id => GET (Batch.cacheKey id)) variantIds.
Proof.
  intros Hf Hhit.
  destruct (batch_check_cache_loop_healthy variantIds r Hf)
    as (l1 & r1 & E1 & Hf1 & Hst & Hlog & Hres & Hdom & Hunc).
  assert (Hnil : Batch.uncachedIds l1 = []).
  { apply no_elements_nil. intros id Hin. apply Hunc in Hin as [Hin Hn].
    destruct (Hhit id Hin) as [c Hc]. congruence. }
  exists (Batch.results l1), r1. split; [|auto].
  unfold Batch.getVariantPreOrderStatus, with_locals, bind.
  rewrite E1. simpl. rewrite Hnil. reflexivity.
Qed.

(** X8: when the backend is healthy and the store holds, for every
    requested id, a status as the server writes it (the JSON text of a
    boolean, under the key of the variant), the resolver of that variant
    answers from the cache alone: each id maps to its cached status, no
    other id has an entry, the only commands issued are one GET per
    requested id in request order, and the store is left as it was. The
    remote services play no part: the answer is the same for every
    environment. Each variant needs the entries under its own keys
    only. *)
Theorem X8_cache_hits_answered_from_cache (envA : TwoHop.Env) (envB : Batch.Env)
    (variantIds : list string) (status : string -> bool) (r : Redis) :
  faults r = [] ->
  ((forall id, In id variantIds ->
      exists ttl, store r !! TwoHop.cacheKey id = Some (ttl, JSON_stringify (status id))) ->
   exists results r',
     TwoHop.getVariantPreOrderStatus envA variantIds r = (Ok results, r') /\
     (forall id, In id variantIds -> results !! id = Some (status id)) /\
     (forall id, is_Some (results !! id) -> In id variantIds) /\
     faults r' = [] /\ store r' = store r /\
     log r' = log r ++ map (fun id => GET (TwoHop.cacheKey id)) variantIds) /\
  ((forall id, In id variantIds ->
      exists ttl, store r !! Batch.cacheKey id = Some (ttl, JSON_stringify (status id))) ->
   exists results r',
     Batch.getVariantPreOrderStatus envB variantIds r = (Ok results, r') /\
     (forall id, In id variantIds -> results !! id = Some (status id)) /\
     (forall id, is_Some (results !! id) -> In id variantIds) /\
     faults r' = [] /\ store r' = store r /\
     log r' = log r ++ map (fun id => GET (Batch.cacheKey id)) variantIds).
Proof.
  intros Hf. split; intros Hheld.
  - assert (Hread : forall id, In id variantIds ->
              cache_read (TwoHop.cacheKey id) r = Some (status id)).
    { intros id Hin. destruct (Hheld id Hin) as [ttl Hst].
      by apply (cache_read_stored _ _ ttl). }
    destruct (twohop_resolver_hits envA variantIds r Hf) as (results & r' & Hrun & Hres & Hrest).
    { intros id Hin. rewrite (Hread id Hin). by eexists. }
    exists results, r'. split; [exact Hrun|]. split; [|exact Hrest].
    intros id Hin. rewrite (Hres id Hin). by apply Hread.
  - assert (Hread : forall id, In id variantIds ->
              cache_read (Batch.cacheKey id) r = Some (status id)).
    { intros id Hin. destruct (Hheld id Hin) as [ttl Hst].
      by apply (cache_read_stored _ _ ttl). }
    destruct (batch_resolver_hits envB variantIds r Hf) as (results & r' & Hrun & Hres & Hrest).
    { intros id Hin. rewrite (Hread id Hin). by eexists. }
    exists results, r'. split; [exact Hrun|]. split; [|exact Hrest].
    intros id Hin. rewrite (Hres id Hin). by apply Hread.
Qed.

Lemma X8_cache_hits_answered_from_cache_witness :
  faults Examples.redis_cached = [] /\
  (exists results r',
     TwoHop.getVariantPreOrderStatus Examples.twohop_down ["789012"]
       Examples.redis_cached = (Ok results, r') /\
     (forall id, In id ["789012"] -> results !! id = Some true) /\
     (forall id, is_Some (results !! id) -> In id ["789012"]) /\
     faults r' = [] /\ store r' = store Examples.redis_cached /\
     log r' = log Examples.redis_cached ++
              map (fun id => GET (TwoHop.cacheKey id)) ["789012"]) /\
  (exists results r',
     Batch.getVariantPreOrderStatus Examples.batch_down ["789012"]
       Examples.redis_cached = (Ok results, r') /\
     (forall id, In id ["789012"] -> results !! id = Some true) /\
     (forall id, is_Some (results !! id) -> In id ["789012"]) /\
     faults r' = [] /\ store r' = store Examples.redis_cached /\
     log r' = log Examples.redis_cached ++
              map (fun id => GET (Batch.cacheKey id)) ["789012"]).
Proof.
  split; [reflexivity|]. split.
  - apply (proj1 (X8_cache_hits_answered_from_cache Examples.twohop_down Examples.batch_down
                    ["789012"] (fun _ => true) Examples.redis_cached eq_refl)).
    intros id [<-|[]]. exists CACHE_TTL. vm_compute. reflexivity.
  - apply (proj2 (X8_cache_hits_answered_from_cache Examples.twohop_down Examples.batch_down
                    ["789012"] (fun _ => true) Examples.redis_cached eq_refl)).
    intros id [<-|[]]. exists CACHE_TTL. vm_compute. reflexivity.
Defined.

Lemma cache_read_at key (r r' : Redis) :
  faults r = [] -> faults r' = [] -> store r' !! key = store r !! key ->
  cache_read key r' = cache_read key r.
Proof. intros H H' Hst. unfold cache_read, faulty. by rewrite H, H', Hst. Qed.

(** The second loop leaves alone the entries and the keys of the ids it
    does not visit. *)
Lemma twohop_resolve_loop_frame env (uncached : list string) (s : TwoHop.Locals * Redis) :
  (forall id, ~ In id uncached ->
     TwoHop.results (fst (snd (for_of uncached (TwoHop.resolve_uncached env) s))) !! id =
     TwoHop.results (fst s) !! id) /\
  (forall id, ~ In id uncached ->
     store (snd (snd (for_of uncached (TwoHop.resolve_uncached env) s)))
       !! TwoHop.cacheKey id =
     store (snd s) !! TwoHop.cacheKey id).
Proof.
  revert s. induction uncached as [|x l IH]; intros s; [by split|].
  cbn [for_of]. unfold bind. rewrite twohop_resolve_uncached_eq.
  destruct (IH (TwoHop.results_set x (Spec.twohop_default env x) (fst s),
       issued (SETEX (TwoHop.cacheKey x) CACHE_TTL
                 (JSON_stringify (Spec.twohop_default env x)))
         (cache_written (TwoHop.cacheKey x) (Spec.twohop_default env x) (snd s)) (snd s)))
    as [IHres IHst].
  split; intros id Hnot.
  - rewrite IHres by (intros Hin; apply Hnot; by right). simpl.
    rewrite lookup_insert_ne; [reflexivity|]. intros ->. apply Hnot. by left.
  - rewrite IHst by (intros Hin; apply Hnot; by right). simpl.
    unfold cache_written. destruct (faulty (snd s)); [reflexivity|].
    rewrite lookup_insert_ne; [reflexivity|].
    intros Heq. apply twohop_cacheKey_inj in Heq as ->. apply Hnot. by left.
Qed.

(** After a run of the two-hop resolver on a healthy backend, the store
    yields for every requested id the status the resolver returned. *)
Lemma twohop_resolver_healthy env (variantIds : list string) (r : Redis) :
  faults r = [] ->
  exists results r',
    TwoHop.getVariantPreOrderStatus env variantIds r = (Ok results, r') /\
    faults r' = [] /\
    (forall id, is_Some (results !! id) <-> In id variantIds) /\
    (forall id, In id variantIds -> cache_read (TwoHop.cacheKey id) r' = results !! id).
Proof.
  intros Hf.
  destruct (twohop_check_cache_loop_healthy variantIds r Hf)
    as (l1 & r1 & E1 & Hf1 & Hst & Hlog & Hres & Hdom & Hunc).
  destruct (twohop_resolve_loop_store env (TwoHop.uncachedVariants l1) (l1, r1) Hf1)
    as [Hf2 Hstore].
  destruct (twohop_resolve_loop_frame env (TwoHop.uncachedVariants l1) (l1, r1))
    as [Hfres Hfst].
  destruct (twohop_resolve_loop env (TwoHop.uncachedVariants l1) l1 r1)
    as (l2 & r2 & E2 & _ & _ & _ & Hdone).
  rewrite E2 in Hf2, Hstore, Hfres, Hfst. cbn [fst snd] in Hf2, Hstore, Hfres, Hfst.
  destruct (twohop_resolver env variantIds r) as (results & r' & Hrun & _ & Hiff & _).
  assert (Hshape : TwoHop.getVariantPreOrderStatus env variantIds r
                   = (Ok (TwoHop.results l2), r2)).
  { unfold TwoHop.getVariantPreOrderStatus, with_locals, bind.
    rewrite E1. simpl. rewrite E2. reflexivity. }
  rewrite Hshape in Hrun. injection Hrun as <- <-.
  exists (TwoHop.results l2), r2. split; [exact Hshape|]. split; [exact Hf2|].
  split; [exact Hiff|].
  intros id Hin. destruct (cache_read (TwoHop.cacheKey id) r) as [c|] eqn:Hread.
  - assert (Hnot : ~ In id (TwoHop.uncachedVariants l1)).
    { intros Hu. apply Hunc in Hu as [_ Hn]. congruence. }
    rewrite (Hfres id Hnot), (Hres id Hin), Hread.
    rewrite <- Hread. apply cache_read_at; [exact Hf | exact Hf2|].
    rewrite (Hfst id Hnot). by rewrite Hst.
  - assert (Hu : In id (TwoHop.uncachedVariants l1)) by (apply Hunc; by split).
    destruct (Hdone id Hu) as [-> _].
    apply (cache_read_stored _ _ CACHE_TTL); [exact Hf2 | by apply Hstore].
Qed.

(** X9: caching works in the two-hop variant. On a healthy backend, a
    second run of the resolver for the same ids returns exactly the
    mapping of the first run, whatever the remote services answer by
    then, and it only reads: the store is unchanged and the commands
    issued are one GET per requested id. *)
Theorem X9_twohop_second_run_from_cache (env1 env2 : TwoHop.Env)
    (variantIds : list string) (r : Redis) :
  faults r = [] ->
  exists results r1 r2,
    TwoHop.getVariantPreOrderStatus env1 variantIds r = (Ok results, r1) /\
    TwoHop.getVariantPreOrderStatus env2 variantIds r1 = (Ok results, r2) /\
    store r2 = store r1 /\
    log r2 = log r1 ++ map (fun id => GET (TwoHop.cacheKey id)) variantIds.
Proof.
  intros Hf.
  destruct (twohop_resolver_healthy env1 variantIds r Hf)
    as (results & r1 & Hrun1 & Hf1 & Hiff & Hcached).
  assert (Hhit : forall id, In id variantIds ->
            is_Some (cache_read (TwoHop.cacheKey id) r1)).
  { intros id Hin. rewrite (Hcached id Hin). by apply Hiff. }
  destruct (twohop_resolver_hits env2 variantIds r1 Hf1 Hhit)
    as (results2 & r2 & Hrun2 & Hres2 & Hdom2 & _ & Hst2 & Hlog2).
  assert (Heq : results2 = results).
  { apply map_eq. intros id. destruct (results !! id) as [v|] eqn:Hv.
    - assert (Hin : In id variantIds) by (apply Hiff; rewrite Hv; eauto).
      rewrite (Hres2 id Hin), (Hcached id Hin). exact Hv.
    - destruct (results2 !! id) as [w|] eqn:Hw; [|reflexivity].
      assert (Hin : In id variantIds) by (apply Hdom2; rewrite Hw; eauto).
      apply Hiff in Hin as [u Hu]. congruence. }
  subst results2. exists results, r1, r2. auto.
Qed.

Lemma X9_twohop_second_run_from_cache_witness :
  faults Examples.redis0 = [] /\
  exists results r1 r2,
    TwoHop.getVariantPreOrderStatus Examples.twohop_up ["789012"; "789013"]
      Examples.redis0 = (Ok results, r1) /\
    TwoHop.getVariantPreOrderStatus Examples.twohop_down ["789012"; "789013"] r1
      = (Ok results, r2) /\
    store r2 = store r1 /\
    log r2 = log r1 ++ map (fun id => GET (TwoHop.cacheKey id)) ["789012"; "789013"].
Proof.
  split; [reflexivity|].
  apply (X9_twohop_second_run_from_cache Examples.twohop_up Examples.twohop_down
           ["789012"; "789013"] Examples.redis0).
  reflexivity.
Defined.

(** The loop over the answered nodes, for an id that the nodes carry
    with one flag: once a node carrying the id is visited, the id has
    that flag in the results and in the cache. *)
Lemma batch_nodes_loop_flag (ns : list (option Batch.Node)) (l1 : Batch.Locals) (r1 : Redis)
    (id : string) (b : bool) :
  (forall node, In (Some node) ns -> Props.carries node id -> Batch.node_isPreOrder node = b) ->
  (exists node, In (Some node) ns /\ Props.carries node id) ->
  match for_of ns Batch.process_node (l1, r1) with
  | (Ok _, (l2, r2)) =>
      Batch.results l2 !! id = Some b /\
      In (SETEX (Batch.cacheKey id) CACHE_TTL (JSON_stringify b)) (log r2) /\
      (faults r1 = [] -> store r2 !! Batch.cacheKey id = Some (CACHE_TTL, JSON_stringify b))
  | (Throw _, _) => exists node, In (Some node) ns /\ Batch.id node = None
  end.
Proof.
  intros Hflag Hsome.
  pose (I := fun (pre : list (option Batch.Node)) (s : Batch.Locals * Redis) =>
    (faults r1 = [] -> faults (snd s) = []) /\
    ((exists node, In (Some node) pre /\ Props.carries node id) ->
     Batch.results (fst s) !! id = Some b /\
     In (SETEX (Batch.cacheKey id) CACHE_TTL (JSON_stringify b)) (log (snd s)) /\
     (faults r1 = [] ->
      store (snd s) !! Batch.cacheKey id = Some (CACHE_TTL, JSON_stringify b)))).
  assert (Hloop : hoare (I []) (for_of ns Batch.process_node) (fun _ => I ns)
            (fun _ => exists node, In (Some node) ns /\ Batch.id node = None)).
  { apply hoare_for_of. intros pre x post Hns s [Hf Hdone].
    assert (Hx : In x ns). { rewrite Hns. apply in_or_app. right. by left. }
    unfold Batch.process_node. destruct x as [node|].
    2:{ simpl. split; [exact Hf|]. intros (node & Hin & Hc). apply Hdone.
        apply in_app_or in Hin as [Hin|[?|[]]]; [eauto | discriminate]. }
    destruct (Batch.id node) as [node_id|] eqn:Hid; [|simpl; eauto].
    unfold bind, assign, liftIO. simpl. rewrite batch_setCached_eq.
    unfold I. cbn [fst snd Batch.results Batch.results_set]. split.
    { intros H0. simpl. by rewrite (Hf H0). }
    intros (node' & Hin & Hc).
    destruct (decide (replace node_id Batch.gid_prefix "" = id)) as [Heq|Hne].
    - assert (Hb : Batch.node_isPreOrder node = b).
      { apply Hflag; [exact Hx|]. exists node_id. by split. }
      rewrite Heq, Hb. split; [by rewrite lookup_insert_eq|].
      split; [simpl; apply in_or_app; right; by left|].
      intros H0. simpl. rewrite (cache_written_healthy _ _ _ (Hf H0)).
      by rewrite lookup_insert_eq.
    - assert (Hpre : exists n, In (Some n) pre /\ Props.carries n id).
      { apply in_app_or in Hin as [Hin|[[= <-]|[]]]; [eauto|].
        destruct Hc as (nid & Hn & Hr). rewrite Hid in Hn. injection Hn as <-. done. }
      destruct (Hdone Hpre) as (Hv & Hw & Hs).
      split; [by rewrite lookup_insert_ne|].
      split; [simpl; apply in_or_app; by left|].
      intros H0. simpl. rewrite (cache_written_healthy _ _ _ (Hf H0)).
      rewrite lookup_insert_ne; [by apply Hs|].
      intros Hk. by apply batch_cacheKey_inj in Hk. }
  assert (Hinit : I [] (l1, r1)).
  { split; [auto|]. intros (node & [] & _). }
  specialize (Hloop _ Hinit).
  destruct (for_of ns Batch.process_node (l1, r1)) as [[[]|e] [l2 r2]]; [|exact Hloop].
  destruct Hloop as [_ Hdone]. exact (Hdone Hsome).
Qed.

(** The defaulting loop leaves alone the entry and the key of an id
    that already has an entry. *)
Lemma batch_default_loop_frame (uncached : list string) (s : Batch.Locals * Redis)
    (id : string) (v : bool) :
  Batch.results (fst s) !! id = Some v ->
  Batch.results (fst (snd (for_of uncached Batch.default_remaining s))) !! id = Some v /\
  store (snd (snd (for_of uncached Batch.default_remaining s))) !! Batch.cacheKey id =
    store (snd s) !! Batch.cacheKey id.
Proof.
  revert s. induction uncached as [|x l IH]; intros s Hv; [by split|].
  cbn [for_of]. unfold bind. rewrite batch_default_remaining_eq.
  destruct (Batch.results (fst s) !! x) as [w|] eqn:Hx; [by apply IH|].
  assert (Hne : x <> id) by (intros ->; congruence).
  destruct (IH (Batch.results_set x false (fst s),
       issued (SETEX (Batch.cacheKey x) CACHE_TTL (JSON_stringify false))
         (cache_written (Batch.cacheKey x) false (snd s)) (snd s))) as [IHres IHst].
  { simpl. by rewrite lookup_insert_ne. }
  split; [exact IHres|]. rewrite IHst. simpl.
  unfold cache_written. destruct (faulty (snd s)); [reflexivity|].
  rewrite lookup_insert_ne; [reflexivity|].
  intros Hk. by apply batch_cacheKey_inj in Hk.
Qed.

(** The batch lookup when the answer is well formed and flags an id. *)
Lemma batch_fetch_uncached_flag env (uncached : list string) (l1 : Batch.Locals)
    (r1 : Redis) (id : string) (b : bool) :
  Spec.batch_well_formed (batch_query env uncached) ->
  Props.batch_flags (batch_query env uncached) id b ->
  exists l2 r2,
    Batch.fetch_uncached env uncached (l1, r1) = (Ok tt, (l2, r2)) /\
    Batch.results l2 !! id = Some b /\
    In (SETEX (Batch.cacheKey id) CACHE_TTL (JSON_stringify b)) (log r2) /\
    (faults r1 = [] -> store r2 !! Batch.cacheKey id = Some (CACHE_TTL, JSON_stringify b)).
Proof.
  intros Hwf (gql & Hp & Hsome & Hflag).
  unfold Batch.fetch_uncached, try_catch.
  unfold bind at 1. unfold bind at 1. unfold liftIO at 1. simpl.
  destruct (fetchVariantMetafields_eq env uncached r1) as (out & -> & Hout).
  fold (batch_query env uncached) in Hout. rewrite Hp in Hout. subst out.
  rewrite nodes_of_loop.
  pose proof (batch_nodes_loop_flag (nodes_of gql) l1 r1 id b Hflag Hsome) as Hnodes.
  destruct (for_of (nodes_of gql) Batch.process_node (l1, r1)) as [[[]|e] [lN rN]].
  - destruct Hnodes as (Hv & Hw & Hs).
    destruct (batch_default_loop_frame uncached (lN, rN) id b Hv) as [Hv2 Hs2].
    destruct (batch_default_loop uncached lN rN) as (l2 & r2 & E2 & Hlog2 & _).
    rewrite E2 in Hv2, Hs2 |- *. cbn [fst snd] in Hv2, Hs2.
    exists l2, r2. split; [reflexivity|]. split; [exact Hv2|]. split.
    + destruct Hlog2 as [cmds ->]. apply in_or_app. by left.
    + intros Hf. rewrite Hs2. by apply Hs.
  - destruct Hnodes as (node & Hin & Hid).
    destruct (malformed_nodes_of _ _ _ Hp Hin Hid Hwf).
Qed.

(** The batch resolver for an id that is not in the store and that the
    answer flags whenever the query names it. *)
Lemma batch_resolver_flag (env : Batch.Env) (variantIds : list string)
    (r : Redis) (id : string) (b : bool) :
  In id variantIds -> store r !! Batch.cacheKey id = None ->
  (forall ids, In id ids -> incl ids variantIds ->
     Spec.batch_well_formed (batch_query env ids) /\
     Props.batch_flags (batch_query env ids) id b) ->
  exists results r',
    Batch.getVariantPreOrderStatus env variantIds r = (Ok results, r') /\
    results !! id = Some b /\
    In (SETEX (Batch.cacheKey id) CACHE_TTL (JSON_stringify b)) (log r') /\
    (faults r = [] -> store r' !! Batch.cacheKey id = Some (CACHE_TTL, JSON_stringify b)).
Proof.
  intros Hin Hmiss Hanswer.
  destruct (batch_check_cache_loop variantIds r)
    as (l1 & r1 & E1 & Hst & Hlog1 & Hrd & Hall & Hres & Hunc).
  pose proof (batch_check_cache_loop_faults variantIds (Batch.mkLocals ∅ [], r)) as Hf1.
  rewrite E1 in Hf1. simpl in Hf1.
  assert (Hu : In id (Batch.uncachedIds l1)).
  { destruct (Hall id Hin) as [Hs|Hu]; [|exact Hu].
    destruct (Hres id Hs) as [_ Hhit]. contradiction. }
  destruct (Hanswer (Batch.uncachedIds l1) Hu Hunc) as [Hwf Hflag].
  destruct (batch_fetch_uncached_flag env (Batch.uncachedIds l1) l1 r1 id b Hwf Hflag)
    as (l2 & r2 & E2 & Hv & Hw & Hs).
  exists (Batch.results l2), r2. split.
  { unfold Batch.getVariantPreOrderStatus, with_locals.
    unfold bind at 1. rewrite E1.
    unfold bind at 1. unfold locals at 1. simpl fst.
    assert (Hlt : Nat.ltb 0 (length (Batch.uncachedIds l1)) = true).
    { destruct (Batch.uncachedIds l1); [destruct Hu | reflexivity]. }
    rewrite Hlt. unfold bind at 1. rewrite E2. reflexivity. }
  split; [exact Hv|]. split; [exact Hw|].
  intros Hf. apply Hs. by apply Hf1.
Qed.

Lemma gid_removed (variantId : string) :
  replace (Batch.gid_prefix +:+ variantId) Batch.gid_prefix "" = variantId.
Proof.
  destruct variantId as [|c v]; [reflexivity|].
  unfold Batch.gid_prefix.
  change (replace ("gid://shopify/ProductVariant/" +:+ String c v)
            "gid://shopify/ProductVariant/" "")
    with (if String.prefix "gid://shopify/ProductVariant/"
               ("gid://shopify/ProductVariant/" +:+ String c v)
          then "" +:+ drop_chars (String.length "gid://shopify/ProductVariant/")
                        ("gid://shopify/ProductVariant/" +:+ String c v)
          else String "g" (replace ("id://shopify/ProductVariant/" +:+ String c v)
                             "gid://shopify/ProductVariant/" "")).
  rewrite prefix_append, drop_chars_append. reflexivity.
Qed.

(** The shop of the examples answers every query that names variant
    789013 with a well-formed payload that flags it. *)
Lemma batch_shop_answers (ids : list string) :
  In "789013" ids ->
  Spec.batch_well_formed (batch_query Examples.batch_shop ids) /\
  Props.batch_flags (batch_query Examples.batch_shop ids) "789013" true.
Proof.
  intros Hin. split.
  - eexists. split; [reflexivity|]. intros d ns node [= <-] [= <-] Hn.
    apply List.in_map_iff in Hn as (gid & [= <-] & _). discriminate.
  - eexists. split; [reflexivity|]. split.
    + exists {| Batch.id := Some (Batch.gid_prefix +:+ "789013");
                Batch.metafield := Some {| Batch.value := "true" |} |}. split.
      * unfold nodes_of. cbn [Batch.data Batch.nodes].
        apply List.in_map_iff. exists (Batch.gid_prefix +:+ "789013").
        split; [reflexivity|]. apply (List.in_map (fun id => Batch.gid_prefix +:+ id)).
        exact Hin.
      * eexists. split; [reflexivity|]. apply gid_removed.
    + intros node Hn (node_id & Hid & Hrep).
      unfold nodes_of in Hn. cbn [Batch.data Batch.nodes] in Hn.
      apply List.in_map_iff in Hn as (gid & [= <-] & Hg).
      apply List.in_map_iff in Hg as (id' & <- & _).
      cbn [Batch.id] in Hid. injection Hid as <-.
      rewrite gid_removed in Hrep. subst id'. reflexivity.
Qed.

(** X7: for a requested id that is not in the store, when the GraphQL
    source answers every query for requested ids that names the id with
    a well-formed payload that carries the id with one flag (the
    pre-order metafield being the text true, or not), the batch resolver
    returns that flag, issues a cache write of it with the 24-hour TTL,
    and with a healthy backend the store then holds it. Nothing is
    asked of the answers to queries that do not name the id. *)
Theorem X7_batch_resolved_and_cached (env : Batch.Env) (variantIds : list string)
    (r : Redis) (id : string) (b : bool) :
  In id variantIds -> store r !! Batch.cacheKey id = None ->
  (forall ids, In id ids -> incl ids variantIds ->
     Spec.batch_well_formed (batch_query env ids) /\
     Props.batch_flags (batch_query env ids) id b) ->
  exists results r',
    Batch.getVariantPreOrderStatus env variantIds r = (Ok results, r') /\
    results !! id = Some b /\
    In (SETEX (Batch.cacheKey id) CACHE_TTL (JSON_stringify b)) (log r') /\
    (faults r = [] -> store r' !! Batch.cacheKey id = Some (CACHE_TTL, JSON_stringify b)).
Proof. apply batch_resolver_flag. Qed.

Lemma X7_batch_resolved_and_cached_witness :
  In "789013" ["789012"; "789013"] /\
  store Examples.redis0 !! Batch.cacheKey "789013" = None /\
  (forall ids, In "789013" ids -> incl ids ["789012"; "789013"] ->
     Spec.batch_well_formed (batch_query Examples.batch_shop ids) /\
     Props.batch_flags (batch_query Examples.batch_shop ids) "789013" true) /\
  ~ Props.batch_flags (Batch.shopify_graphql Examples.batch_shop []) "789013" true /\
  exists results r',
    Batch.getVariantPreOrderStatus Examples.batch_shop ["789012"; "789013"]
      Examples.redis0 = (Ok results, r') /\
    results !! "789013" = Some true /\
    In (SETEX (Batch.cacheKey "789013") CACHE_TTL (JSON_stringify true)) (log r') /\
    (faults Examples.redis0 = [] ->
     store r' !! Batch.cacheKey "789013" = Some (CACHE_TTL, JSON_stringify true)).
Proof.
  split; [right; left; reflexivity|]. split; [reflexivity|].
  split; [intros ids Hin _; by apply batch_shop_answers|].
  split.
  { intros (gql & [= <-] & (node & [] & _) & _). }
  exact (X7_batch_resolved_and_cached Examples.batch_shop ["789012"; "789013"]
           Examples.redis0 "789013" true
           (or_intror (or_introl eq_refl)) eq_refl
           (fun ids Hin _ => batch_shop_answers ids Hin)).
Defined.

(** ** The cache invalidation listener beyond the claims *)

Lemma twohop_invalidate_eq (v : Json) (text : string) (r : Redis) :
  Webhook.variant_text v = Ok text ->
  TwoHop.invalidate v r =
  (Ok tt, issued (DEL (TwoHop.cacheKey text))
            (if faulty r then store r else delete (TwoHop.cacheKey text) (store r)) r).
Proof.
  intros Ht. unfold TwoHop.invalidate, bind, lift_result. rewrite Ht.
  unfold try_catch, redis_del. rewrite redis_call_eq.
  destruct (faulty r); reflexivity.
Qed.

(** The purge loop: one DEL per variant; keys that are not listed are
    kept whatever the backend does; on a healthy backend every listed
    key is gone. *)
Lemma twohop_invalidate_loop (vs : list Json) (texts : list string) (r : Redis) :
  Props.variants_print vs texts ->
  exists r',
    for_of vs TwoHop.invalidate r = (Ok tt, r') /\
    log r' = log r ++ map (fun text => DEL (TwoHop.cacheKey text)) texts /\
    (forall k, ~ In k (map TwoHop.cacheKey texts) -> store r' !! k = store r !! k) /\
    (faults r = [] ->
     faults r' = [] /\
     forall k, In k (map TwoHop.cacheKey texts) -> store r' !! k = None).
Proof.
  intros H. revert r. induction H as [|v text vs texts Hv _ IH]; intros r.
  { exists r. split; [reflexivity|]. split; [by rewrite app_nil_r|].
    split; [reflexivity|]. intros Hf. split; [exact Hf | intros k []]. }
  cbn [for_of]. unfold bind. rewrite (twohop_invalidate_eq v text r Hv).
  set (key := TwoHop.cacheKey text).
  set (r1 := issued (DEL key) (if faulty r then store r else delete key (store r)) r).
  destruct (IH r1) as (r' & -> & Hlog & Hkeep & Hgone).
  exists r'. split; [reflexivity|]. split; [|split].
  - rewrite Hlog. subst r1. cbn [issued log map]. by rewrite <- app_assoc.
  - intros k Hnot. rewrite Hkeep by (intros Hin; apply Hnot; by right).
    assert (Hne : key <> k) by (intros Heq; apply Hnot; by left).
    subst r1. simpl. destruct (faulty r); [reflexivity | by rewrite lookup_delete_ne].
  - intros Hf.
    assert (Hf1 : faults r1 = []) by (subst r1; simpl; by rewrite Hf).
    destruct (Hgone Hf1) as [Hf' Hnone]. split; [exact Hf'|].
    intros k Hin.
    destruct (in_dec String.string_dec k (map TwoHop.cacheKey texts)) as [Hl|Hl].
    + by apply Hnone.
    + rewrite (Hkeep k Hl). destruct Hin as [<-|Hin]; [|contradiction].
      subst r1. simpl. unfold faulty. rewrite Hf. by rewrite lookup_delete_eq.
Qed.

(** The listener once the signature check has let the request through
    and the text of the body has parsed to a product with a list of
    variants. *)
Lemma twohop_webhook_purge rt configured (req : Webhook.Request) (r : Redis)
    (text : string) (product : Json) (vs : list Json) (texts : list string)
    (id : option Json) (id_text : string) :
  TwoHop.verifyWebhook rt configured (Webhook.Value (Webhook.body req)) (Webhook.hmac req)
    = Ok true ->
  Json_toString (Webhook.body req) = Ok text ->
  Webhook.JSON_parse rt text = Ok product ->
  Json_get product "variants" = Ok (Some (JArray vs)) ->
  Props.variants_print vs texts ->
  Json_get product "id" = Ok id -> Json_template id = Ok id_text ->
  exists r',
    TwoHop.post_webhook_product_update rt configured req r =
      (Ok {| status := 200; body := TextBody "OK" |}, r') /\
    log r' = log r ++ map (fun text => DEL (TwoHop.cacheKey text)) texts /\
    (forall k, ~ In k (map TwoHop.cacheKey texts) -> store r' !! k = store r !! k) /\
    (faults r = [] ->
     faults r' = [] /\
     forall k, In k (map TwoHop.cacheKey texts) -> store r' !! k = None).
Proof.
  intros Hv Ht Hp Hvs Hprint Hid Hidt.
  destruct (twohop_invalidate_loop vs texts r Hprint) as (r' & Hloop & Hrest).
  exists r'. split; [|exact Hrest].
  unfold TwoHop.post_webhook_product_update, try_catch.
  unfold bind at 1. unfold lift_result at 1. rewrite Hv. cbn [negb].
  unfold bind at 1. unfold lift_result at 1. rewrite Ht.
  unfold bind at 1. unfold lift_result at 1. rewrite Hp.
  unfold bind at 1. unfold lift_result at 1. rewrite Hvs.
  cbn [Json_truthy Json_iterate].
  unfold bind at 1. unfold bind at 1. unfold lift_result at 1.
  unfold bind at 1. rewrite Hloop.
  unfold bind at 1. unfold lift_result at 1. rewrite Hid.
  unfold bind at 1. unfold lift_result at 1. rewrite Hidt. reflexivity.
Qed.

Lemma batch_invalidate_eq (v : Json) (text : string) (r : Redis) :
  Webhook.variant_text v = Ok text ->
  Batch.invalidate v r =
  (Ok tt, issued (DEL (Batch.cacheKey text))
            (if faulty r then store r else delete (Batch.cacheKey text) (store r)) r).
Proof.
  intros Ht. unfold Batch.invalidate, bind, lift_result. rewrite Ht.
  unfold try_catch, redis_del. rewrite redis_call_eq.
  destruct (faulty r); reflexivity.
Qed.

(** The purge loop: one DEL per variant; keys that are not listed are
    kept whatever the backend does; on a healthy backend every listed
    key is gone. *)
Lemma batch_invalidate_loop (vs : list Json) (texts : list string) (r : Redis) :
  Props.variants_print vs texts ->
  exists r',
    for_of vs Batch.invalidate r = (Ok tt, r') /\
    log r' = log r ++ map (fun text => DEL (Batch.cacheKey text)) texts /\
    (forall k, ~ In k (map Batch.cacheKey texts) -> store r' !! k = store r !! k) /\
    (faults r = [] ->
     faults r' = [] /\
     forall k, In k (map Batch.cacheKey texts) -> store r' !! k = None).
Proof.
  intros H. revert r. induction H as [|v text vs texts Hv _ IH]; intros r.
  { exists r. split; [reflexivity|]. split; [by rewrite app_nil_r|].
    split; [reflexivity|]. intros Hf. split; [exact Hf | intros k []]. }
  cbn [for_of]. unfold bind. rewrite (batch_invalidate_eq v text r Hv).
  set (key := Batch.cacheKey text).
  set (r1 := issued (DEL key) (if faulty r then store r else delete key (store r)) r).
  destruct (IH r1) as (r' & -> & Hlog & Hkeep & Hgone).
  exists r'. split; [reflexivity|]. split; [|split].
  - rewrite Hlog. subst r1. cbn [issued log map]. by rewrite <- app_assoc.
  - intros k Hnot. rewrite Hkeep by (intros Hin; apply Hnot; by right).
    assert (Hne : key <> k) by (intros Heq; apply Hnot; by left).
    subst r1. simpl. destruct (faulty r); [reflexivity | by rewrite lookup_delete_ne].
  - intros Hf.
    assert (Hf1 : faults r1 = []) by (subst r1; simpl; by rewrite Hf).
    destruct (Hgone Hf1) as [Hf' Hnone]. split; [exact Hf'|].
    intros k Hin.
    destruct (in_dec String.string_dec k (map Batch.cacheKey texts)) as [Hl|Hl].
    + by apply Hnone.
    + rewrite (Hkeep k Hl). destruct Hin as [<-|Hin]; [|contradiction].
      subst r1. simpl. unfold faulty. rewrite Hf. by rewrite lookup_delete_eq.
Qed.

(** The listener once the signature check has let the request through
    and the text of the body has parsed to a product with a list of
    variants. *)
Lemma batch_webhook_purge rt configured (req : Webhook.Request) (r : Redis)
    (text : string) (product : Json) (vs : list Json) (texts : list string)
    (id : option Json) (id_text : string) :
  Batch.verifyWebhook rt configured (Webhook.Value (Webhook.body req)) (Webhook.hmac req)
    = Ok true ->
  Json_toString (Webhook.body req) = Ok text ->
  Webhook.JSON_parse rt text = Ok product ->
  Json_get product "variants" = Ok (Some (JArray vs)) ->
  Props.variants_print vs texts ->
  Json_get product "id" = Ok id -> Json_template id = Ok id_text ->
  exists r',
    Batch.post_webhook_product_update rt configured req r =
      (Ok {| status := 200; body := TextBody "OK" |}, r') /\
    log r' = log r ++ map (fun text => DEL (Batch.cacheKey text)) texts /\
    (forall k, ~ In k (map Batch.cacheKey texts) -> store r' !! k = store r !! k) /\
    (faults r = [] ->
     faults r' = [] /\
     forall k, In k (map Batch.cacheKey texts) -> store r' !! k = None).
Proof.
  intros Hv Ht Hp Hvs Hprint Hid Hidt.
  destruct (batch_invalidate_loop vs texts r Hprint) as (r' & Hloop & Hrest).
  exists r'. split; [|exact Hrest].
  unfold Batch.post_webhook_product_update, try_catch.
  unfold bind at 1. unfold lift_result at 1. rewrite Hv. cbn [negb].
  unfold bind at 1. unfold lift_result at 1. rewrite Ht.
  unfold bind at 1. unfold lift_result at 1. rewrite Hp.
  unfold bind at 1. unfold lift_result at 1. rewrite Hvs.
  cbn [Json_truthy Json_iterate].
  unfold bind at 1. unfold bind at 1. unfold lift_result at 1.
  unfold bind at 1. rewrite Hloop.
  unfold bind at 1. unfold lift_result at 1. rewrite Hid.
  unfold bind at 1. unfold lift_result at 1. rewrite Hidt. reflexivity.
Qed.

(** X12: the purge, when the handler gets that far. If the signature
    check lets the request through, the text of [req.body] parses to a
    product and the product lists variants, the listener of either
    variant answers 200 after exactly one DEL per listed variant, in
    order, whatever the backend does; keys other than those of the
    listed variants are never touched; on a healthy backend the key of
    every listed variant is gone from the store afterwards. *)
Theorem X12_webhook_purges_listed_keys (rt : Webhook.Runtime) (configured : option string)
    (req : Webhook.Request) (r : Redis) (text : string) (product : Json)
    (vs : list Json) (texts : list string) (id : option Json) (id_text : string) :
  TwoHop.verifyWebhook rt configured (Webhook.Value (Webhook.body req)) (Webhook.hmac req)
    = Ok true ->
  Json_toString (Webhook.body req) = Ok text ->
  Webhook.JSON_parse rt text = Ok product ->
  Json_get product "variants" = Ok (Some (JArray vs)) ->
  Props.variants_print vs texts ->
  Json_get product "id" = Ok id -> Json_template id = Ok id_text ->
  (exists r',
     TwoHop.post_webhook_product_update rt configured req r =
       (Ok {| status := 200; body := TextBody "OK" |}, r') /\
     log r' = log r ++ map (fun text => DEL (TwoHop.cacheKey text)) texts /\
     (forall k, ~ In k (map TwoHop.cacheKey texts) -> store r' !! k = store r !! k) /\
     (faults r = [] ->
      faults r' = [] /\
      forall k, In k (map TwoHop.cacheKey texts) -> store r' !! k = None)) /\
  (exists r',
     Batch.post_webhook_product_update rt configured req r =
       (Ok {| status := 200; body := TextBody "OK" |}, r') /\
     log r' = log r ++ map (fun text => DEL (Batch.cacheKey text)) texts /\
     (forall k, ~ In k (map Batch.cacheKey texts) -> store r' !! k = store r !! k) /\
     (faults r = [] ->
      faults r' = [] /\
      forall k, In k (map Batch.cacheKey texts) -> store r' !! k = None)).
Proof.
  intros Hv Ht Hp Hvs Hprint Hid Hidt. split.
  - by eapply twohop_webhook_purge.
  - eapply batch_webhook_purge; eauto.
Qed.

(** With no secret configured the purge is within reach of anyone: a
    request without a signature whose body is a JSON array holding one
    string, the JSON text of a product, passes (verification is off,
    and the text of such an array is the string it holds), and the
    cached status of the product's variant is deleted. *)
Lemma X12_webhook_purges_listed_keys_witness :
  Webhook.hmac Examples.wrapped_notification = None /\
  Webhook.left_by_express_json (Webhook.body Examples.wrapped_notification) /\
  store Examples.redis_cached !! TwoHop.cacheKey "789012" = Some (CACHE_TTL, "true") /\
  (exists r',
     TwoHop.post_webhook_product_update Examples.stub_runtime None
       Examples.wrapped_notification Examples.redis_cached =
       (Ok {| status := 200; body := TextBody "OK" |}, r') /\
     log r' = log Examples.redis_cached ++ [DEL (TwoHop.cacheKey "789012")] /\
     store r' !! TwoHop.cacheKey "789012" = None) /\
  (exists r',
     Batch.post_webhook_product_update Examples.stub_runtime None
       Examples.wrapped_notification Examples.redis_cached =
       (Ok {| status := 200; body := TextBody "OK" |}, r') /\
     log r' = log Examples.redis_cached ++ [DEL (Batch.cacheKey "789012")] /\
     store r' !! Batch.cacheKey "789012" = None).
Proof.
  split; [reflexivity|]. split; [exact I|]. split; [vm_compute; reflexivity|].
  assert (Hprint : Props.variants_print [JObject [("id", JNumber 789012)]] ["789012"]).
  { constructor; [vm_compute; reflexivity | constructor]. }
  destruct (X12_webhook_purges_listed_keys Examples.stub_runtime None
              Examples.wrapped_notification Examples.redis_cached
              Examples.product_text Examples.product_json
              [JObject [("id", JNumber 789012)]] ["789012"] None "undefined"
              eq_refl ltac:(vm_compute; reflexivity) ltac:(vm_compute; reflexivity)
              eq_refl Hprint eq_refl eq_refl)
    as [(rA & HrunA & HlogA & _ & HgoneA) (rB & HrunB & HlogB & _ & HgoneB)].
  split.
  - exists rA. split; [exact HrunA|]. split; [exact HlogA|].
    apply (proj2 (HgoneA eq_refl)). left. reflexivity.
  - exists rB. split; [exact HrunB|]. split; [exact HlogB|].
    apply (proj2 (HgoneB eq_refl)). left. reflexivity.
Defined.

(** X14: [verifyWebhook] with a secret, called on the raw bytes of a
    notification, tells a bad signature apart by how it is bad: it
    throws when the header is missing or decodes to a number of bytes
    other than that of the digest, returns false on as many bytes that
    differ, and true on the digest itself. The route never gets that
    far: with a secret configured, every request whose body the parsers
    left (an object, an array, or nothing) is answered 500 by the
    listener of either variant without a Redis command, be the
    signature right, wrong or missing; the 401 answer is out of reach. *)
Theorem X14_webhook_rejection_codes (rt : Webhook.Runtime) (secret : string)
    (raw_body : string) (req : Webhook.Request) (r : Redis) :
  secret <> "" ->
  (TwoHop.verifyWebhook rt (Some secret) (Webhook.Buffer raw_body) None = Throw "TypeError" /\
   forall h,
     (length (Webhook.base64_decode rt h) <>
        length (Webhook.hmac_sha256 rt secret raw_body) ->
      TwoHop.verifyWebhook rt (Some secret) (Webhook.Buffer raw_body) (Some h) =
        Throw "RangeError") /\
     (length (Webhook.base64_decode rt h) =
        length (Webhook.hmac_sha256 rt secret raw_body) ->
      Webhook.base64_decode rt h <> Webhook.hmac_sha256 rt secret raw_body ->
      TwoHop.verifyWebhook rt (Some secret) (Webhook.Buffer raw_body) (Some h) = Ok false) /\
     (Spec.authentic rt secret raw_body (Some h) ->
      TwoHop.verifyWebhook rt (Some secret) (Webhook.Buffer raw_body) (Some h) = Ok true)) /\
  Batch.verifyWebhook rt (Some secret) = TwoHop.verifyWebhook rt (Some secret) /\
  (Webhook.left_by_express_json (Webhook.body req) ->
   TwoHop.post_webhook_product_update rt (Some secret) req r =
     (Ok {| status := 500; body := TextBody "Internal Server Error" |}, r) /\
   Batch.post_webhook_product_update rt (Some secret) req r =
     (Ok {| status := 500; body := TextBody "Internal Server Error" |}, r)).
Proof.
  intros Hs. split; [|split; [reflexivity|]].
  - unfold TwoHop.verifyWebhook. rewrite (env_set_nonempty _ Hs).
    cbn [Webhook.hmac_update]. split; [reflexivity|].
    intros h. unfold Webhook.timingSafeEqual. split; [|split].
    + intros Hlen. apply not_eq_sym, Nat.eqb_neq in Hlen. by rewrite Hlen.
    + intros Hlen Hne. rewrite <- Hlen, Nat.eqb_refl.
      by rewrite bytes_eqb_false.
    + intros (h' & [= <-] & Heq). rewrite Heq, Nat.eqb_refl, bytes_eqb_refl. reflexivity.
  - intros Hleft.
    assert (Hb : forall s, Webhook.body req <> Some (JString s)).
    { intros s Heq. rewrite Heq in Hleft. exact Hleft. }
    split; [by apply twohop_webhook_secret | by apply batch_webhook_secret].
Qed.

Lemma X14_webhook_rejection_codes_witness :
  "shpss_secret" <> "" /\
  Spec.authentic Examples.stub_runtime "shpss_secret" Examples.product_text
    (Some Examples.good_signature) /\
  TwoHop.verifyWebhook Examples.stub_runtime (Some "shpss_secret")
    (Webhook.Buffer Examples.product_text) (Some Examples.good_signature) = Ok true /\
  Webhook.left_by_express_json (Webhook.body Examples.forged_notification) /\
  TwoHop.post_webhook_product_update Examples.stub_runtime (Some "shpss_secret")
    Examples.forged_notification Examples.redis_cached =
    (Ok {| status := 500; body := TextBody "Internal Server Error" |},
     Examples.redis_cached) /\
  Batch.post_webhook_product_update Examples.stub_runtime (Some "shpss_secret")
    Examples.signed_notification Examples.redis_cached =
    (Ok {| status := 500; body := TextBody "Internal Server Error" |},
     Examples.redis_cached).
Proof.
  assert (Hs : "shpss_secret" <> "") by discriminate.
  assert (Ha : Spec.authentic Examples.stub_runtime "shpss_secret" Examples.product_text
                 (Some Examples.good_signature)) by (eexists; split; reflexivity).
  split; [exact Hs|]. split; [exact Ha|].
  split.
  { exact (proj2 (proj2 (proj2 (proj1 (X14_webhook_rejection_codes Examples.stub_runtime
             "shpss_secret" Examples.product_text Examples.forged_notification
             Examples.redis_cached Hs)) Examples.good_signature)) Ha). }
  split; [exact I|]. split.
  - exact (proj1 (proj2 (proj2 (X14_webhook_rejection_codes Examples.stub_runtime
             "shpss_secret" Examples.product_text Examples.forged_notification
             Examples.redis_cached Hs)) I)).
  - exact (proj2 (proj2 (proj2 (X14_webhook_rejection_codes Examples.stub_runtime
             "shpss_secret" Examples.product_text Examples.signed_notification
             Examples.redis_cached Hs)) I)).
Defined.

(** ** The configuration endpoints *)

(** X15: [POST /config] never changes the currency, a body that sets
    nothing changes nothing, the answer carries the configuration that is
    stored (what [GET /config] returns next), and sending the same body a
    second time changes nothing more. Both variants. *)
Theorem X15_config_update_idempotent (appConfig : AppConfig) (body : ConfigBody.t) :
  currency (fst (TwoHop.post_config appConfig body)) = currency appConfig /\
  currency (fst (Batch.post_config appConfig body)) = currency appConfig /\
  fst (TwoHop.post_config appConfig Props.empty_config_body) = appConfig /\
  fst (Batch.post_config appConfig Props.empty_config_body) = appConfig /\
  config (snd (TwoHop.post_config appConfig body)) =
    TwoHop.get_config (fst (TwoHop.post_config appConfig body)) /\
  config (snd (Batch.post_config appConfig body)) =
    Batch.get_config (fst (Batch.post_config appConfig body)) /\
  TwoHop.post_config (fst (TwoHop.post_config appConfig body)) body =
    TwoHop.post_config appConfig body /\
  Batch.post_config (fst (Batch.post_config appConfig body)) body =
    Batch.post_config appConfig body.
Proof.
  destruct appConfig as [t f [lr lp] d k c].
  destruct body as [[bt|] [bf|] [[[br|] [bp|]]|] [bd|] [bk|]];
    repeat split; reflexivity.
Qed.

(** X16: of two successive [POST /config] bodies the later one wins
    field by field and label by label, and what only the earlier one sets
    stays: the two updates amount to one update with the merged body.
    Both variants. *)
Theorem X16_config_last_write_wins (appConfig : AppConfig) (b1 b2 : ConfigBody.t) :
  TwoHop.post_config (fst (TwoHop.post_config appConfig b1)) b2 =
    TwoHop.post_config appConfig (Props.merge_bodies b1 b2) /\
  Batch.post_config (fst (Batch.post_config appConfig b1)) b2 =
    Batch.post_config appConfig (Props.merge_bodies b1 b2).
Proof.
  destruct appConfig as [t f [lr lp] d k c].
  destruct b1 as [[t1|] [f1|] [[[r1|] [p1|]]|] [d1|] [k1|]];
    destruct b2 as [[t2|] [f2|] [[[r2|] [p2|]]|] [d2|] [k2|]];
    split; reflexivity.
Qed.

(** X17: the kill switch set through [POST /config] takes effect on the
    next rate request: with the configuration the update leaves, either
    variant answers 200 with the empty rate list to any request body,
    without a Redis command, whatever else the update sets. *)
Theorem X17_config_kill_switch_stops_rates (appConfig : AppConfig) (body : ConfigBody.t)
    (envA : TwoHop.Env) (envB : Batch.Env) (req_body : RequestBody) (r : Redis) :
  ConfigBody.killSwitch body = Some true ->
  TwoHop.post_rates (fst (TwoHop.post_config appConfig body)) envA req_body r =
    (Ok {| status := 200; body := JsonBody None (Some []) |}, r) /\
  Batch.post_rates (fst (Batch.post_config appConfig body)) envB req_body r =
    (Ok {| status := 200; body := JsonBody None (Some []) |}, r).
Proof.
  intros Hk.
  assert (HA : killSwitch (fst (TwoHop.post_config appConfig body)) = true).
  { unfold TwoHop.post_config. rewrite Hk. reflexivity. }
  assert (HB : killSwitch (fst (Batch.post_config appConfig body)) = true).
  { unfold Batch.post_config. rewrite Hk. reflexivity. }
  unfold TwoHop.post_rates, Batch.post_rates, try_catch. rewrite HA, HB.
  split; reflexivity.
Qed.

Lemma X17_config_kill_switch_stops_rates_witness :
  ConfigBody.killSwitch (ConfigBody.mk None (Some (Number.of_Z 700)) None None (Some true)) = Some true /\
  TwoHop.post_rates
    (fst (TwoHop.post_config Examples.appConfig
            (ConfigBody.mk None (Some (Number.of_Z 700)) None None (Some true))))
    Examples.twohop_up (Examples.request [Examples.item_3000]) Examples.redis0 =
    (Ok {| status := 200; body := JsonBody None (Some []) |}, Examples.redis0) /\
  Batch.post_rates
    (fst (Batch.post_config Examples.appConfig
            (ConfigBody.mk None (Some (Number.of_Z 700)) None None (Some true))))
    Examples.batch_up (Examples.request [Examples.item_3000]) Examples.redis0 =
    (Ok {| status := 200; body := JsonBody None (Some []) |}, Examples.redis0).
Proof.
  split; [reflexivity|].
  apply (X17_config_kill_switch_stops_rates Examples.appConfig
           (ConfigBody.mk None (Some (Number.of_Z 700)) None None (Some true))
           Examples.twohop_up Examples.batch_up
           (Examples.request [Examples.item_3000]) Examples.redis0).
  reflexivity.
Defined.

(** ** The admin authentication middleware *)

Lemma split_nonempty (sep : ascii) (s : string) : Auth.split sep s <> [].
Proof.
  induction s as [|c s IH]; simpl; [discriminate|].
  destruct (Ascii.eqb c sep); [discriminate|].
  destruct (Auth.split sep s); discriminate.
Qed.

Lemma split_no_sep (sep : ascii) (s : string) :
  ~ Props.has_char sep s -> Auth.split sep s = [s].
Proof.
  unfold Props.has_char. induction s as [|c s IH]; simpl; intros Hno; [reflexivity|].
  destruct (Ascii.eqb c sep) eqn:Hc.
  - apply Ascii.eqb_eq in Hc. destruct Hno. by left.
  - rewrite IH by (intros Hin; apply Hno; by right). reflexivity.
Qed.

Lemma split_at_sep (sep : ascii) (u rest : string) :
  ~ Props.has_char sep u ->
  Auth.split sep (u +:+ String sep rest) = u :: Auth.split sep rest.
Proof.
  unfold Props.has_char. induction u as [|c u IH]; simpl; intros Hno.
  - by rewrite Ascii.eqb_refl.
  - destruct (Ascii.eqb c sep) eqn:Hc.
    + apply Ascii.eqb_eq in Hc. destruct Hno. by left.
    + rewrite IH by (intros Hin; apply Hno; by right). reflexivity.
Qed.

Lemma split_pieces_no_sep (sep : ascii) (s piece : string) :
  In piece (Auth.split sep s) -> ~ Props.has_char sep piece.
Proof.
  unfold Props.has_char. revert piece. induction s as [|c s IH]; simpl; intros piece Hin.
  - destruct Hin as [<-|[]]. intros [].
  - destruct (Ascii.eqb c sep) eqn:Hc.
    + destruct Hin as [<-|Hin]; [intros [] | by apply IH].
    + destruct (Auth.split sep s) as [|h t] eqn:Hs.
      * destruct Hin as [<-|[]]. simpl. intros [->|[]]. by rewrite Ascii.eqb_refl in Hc.
      * destruct Hin as [<-|Hin].
        -- simpl. intros [->|Hh]; [by rewrite Ascii.eqb_refl in Hc|].
           apply (IH h); [by left | exact Hh].
        -- apply IH. by right.
Qed.

Lemma public_prefix_existsb (p suffix : string) :
  In p TwoHop.publicPaths ->
  existsb (fun path => String.prefix path (p +:+ suffix)) TwoHop.publicPaths = true.
Proof.
  intros Hin. apply existsb_exists. exists p. split; [exact Hin | apply prefix_append].
Qed.

Lemma protected_existsb (path : string) :
  Props.protected_path path ->
  existsb (fun p => String.prefix p path) TwoHop.publicPaths = false.
Proof.
  intros Hp. destruct (existsb _ _) eqn:He; [|reflexivity].
  apply existsb_exists in He as (p & Hin & Hpre). rewrite (Hp p Hin) in Hpre. discriminate.
Qed.

(** X18: the authentication middleware lets every request through whose
    path begins with one of the public prefixes, whatever follows the
    prefix and whatever the credentials (so a path such as /authorize or
    /rates-admin is public too); on any other path a request without an
    Authorization header, or with one that does not begin with Basic and
    a space, is answered 401 Authentication required with the
    WWW-Authenticate challenge. *)
Theorem X18_auth_public_prefixes (decode : string -> string)
    (ADMIN_USERNAME ADMIN_PASSWORD : option string) :
  (forall p suffix authorization, In p TwoHop.publicPaths ->
     TwoHop.requireAuth decode ADMIN_USERNAME ADMIN_PASSWORD
       {| Auth.path := p +:+ suffix; Auth.authorization := authorization |} = Auth.Next) /\
  (forall path, Props.protected_path path ->
     TwoHop.requireAuth decode ADMIN_USERNAME ADMIN_PASSWORD
       {| Auth.path := path; Auth.authorization := None |} =
       Auth.Denied 401 Auth.realm "Authentication required" /\
     forall auth, String.prefix "Basic " auth = false ->
       TwoHop.requireAuth decode ADMIN_USERNAME ADMIN_PASSWORD
         {| Auth.path := path; Auth.authorization := Some auth |} =
         Auth.Denied 401 Auth.realm "Authentication required").
Proof.
  split.
  - intros p suffix authorization Hin. unfold TwoHop.requireAuth. cbn [Auth.path].
    by rewrite public_prefix_existsb.
  - intros path Hp. unfold TwoHop.requireAuth. cbn [Auth.path Auth.authorization].
    rewrite (protected_existsb _ Hp). split; [reflexivity|].
    intros auth Hb. rewrite Hb. cbn [negb]. by rewrite orb_true_r.
Qed.

Lemma X18_auth_public_prefixes_witness :
  In "/auth" TwoHop.publicPaths /\
  TwoHop.requireAuth (fun x => x) None None
    {| Auth.path := "/auth" +:+ "orize"; Auth.authorization := None |} = Auth.Next /\
  Props.protected_path "/cache/clear" /\
  TwoHop.requireAuth (fun x => x) None None
    {| Auth.path := "/cache/clear"; Auth.authorization := None |} =
    Auth.Denied 401 Auth.realm "Authentication required" /\
  Props.protected_path "/config" /\
  String.prefix "Basic " "Bearer abc" = false /\
  TwoHop.requireAuth (fun x => x) None None
    {| Auth.path := "/config"; Auth.authorization := Some "Bearer abc" |} =
    Auth.Denied 401 Auth.realm "Authentication required".
Proof.
  assert (H1 : In "/auth" TwoHop.publicPaths) by (vm_compute; tauto).
  assert (H2 : Props.protected_path "/cache/clear").
  { intros p Hin. vm_compute in Hin.
    repeat (destruct Hin as [<-|Hin]; [reflexivity|]). destruct Hin. }
  assert (H3 : Props.protected_path "/config").
  { intros p Hin. vm_compute in Hin.
    repeat (destruct Hin as [<-|Hin]; [reflexivity|]). destruct Hin. }
  split; [exact H1|].
  split; [exact (proj1 (X18_auth_public_prefixes (fun x => x) None None) _ "orize" None H1)|].
  split; [exact H2|].
  split; [exact (proj1 (proj2 (X18_auth_public_prefixes (fun x => x) None None) _ H2))|].
  split; [exact H3|]. split; [reflexivity|].
  exact (proj2 (proj2 (X18_auth_public_prefixes (fun x => x) None None) _ H3)
           "Bearer abc" eq_refl).
Defined.

(** The middleware on a protected path with a Basic header. *)
Lemma requireAuth_basic (decode : string -> string)
    (ADMIN_USERNAME ADMIN_PASSWORD : option string) (path x : string) :
  Props.protected_path path ->
  TwoHop.requireAuth decode ADMIN_USERNAME ADMIN_PASSWORD
    {| Auth.path := path; Auth.authorization := Some ("Basic " +:+ x) |} =
  if (bool_decide (nth_error (Auth.split ":"%char (decode x)) 0 =
                   Some (Auth.env_or ADMIN_USERNAME "admin")) &&
      bool_decide (nth_error (Auth.split ":"%char (decode x)) 1 =
                   Some (Auth.env_or ADMIN_PASSWORD "ship_ship_hooray_123")))%bool
  then Auth.Next
  else Auth.Denied 401 Auth.realm "Invalid credentials".
Proof.
  intros Hp. unfold TwoHop.requireAuth. cbn [Auth.path Auth.authorization].
  rewrite (protected_existsb _ Hp).
  change (String.eqb ("Basic " +:+ x) "") with false.
  rewrite (prefix_append "Basic " x). cbn [negb orb].
  change (drop_chars 6 ("Basic " +:+ x)) with x. reflexivity.
Qed.

(** X19: on a protected path, Basic credentials that decode to
    [user:password], where neither part holds a colon, are let through
    exactly when the user is the configured admin user (admin when none
    is configured) and the password the configured admin password (the
    built-in one when none is configured); anything after a further colon
    is ignored. *)
Theorem X19_auth_credentials_checked (decode : string -> string)
    (ADMIN_USERNAME ADMIN_PASSWORD : option string) (path x user password rest : string) :
  Props.protected_path path ->
  ~ Props.has_char ":"%char user -> ~ Props.has_char ":"%char password ->
  Props.ignored_tail rest ->
  decode x = user +:+ ":" +:+ password +:+ rest ->
  (TwoHop.requireAuth decode ADMIN_USERNAME ADMIN_PASSWORD
     {| Auth.path := path; Auth.authorization := Some ("Basic " +:+ x) |} = Auth.Next <->
   user = Auth.env_or ADMIN_USERNAME "admin" /\
   password = Auth.env_or ADMIN_PASSWORD "ship_ship_hooray_123") /\
  (TwoHop.requireAuth decode ADMIN_USERNAME ADMIN_PASSWORD
     {| Auth.path := path; Auth.authorization := Some ("Basic " +:+ x) |} <> Auth.Next ->
   TwoHop.requireAuth decode ADMIN_USERNAME ADMIN_PASSWORD
     {| Auth.path := path; Auth.authorization := Some ("Basic " +:+ x) |} =
   Auth.Denied 401 Auth.realm "Invalid credentials").
Proof.
  intros Hp Hu Hpw Hrest Hdec. rewrite (requireAuth_basic _ _ _ _ _ Hp), Hdec.
  assert (Hsplit : exists more,
            Auth.split ":"%char (user +:+ ":" +:+ password +:+ rest) = user :: password :: more).
  { change (user +:+ ":" +:+ password +:+ rest)
      with (user +:+ String ":"%char (password +:+ rest)).
    rewrite (split_at_sep _ _ _ Hu).
    destruct Hrest as [->|[t ->]].
    - exists []. f_equal.
      assert (Hnil : forall s : string, s +:+ "" = s).
      { clear. induction s as [|c s IH]; [reflexivity|].
        change (String c (s +:+ "") = String c s). by rewrite IH. }
      rewrite Hnil. exact (split_no_sep ":"%char password Hpw).
    - change (password +:+ ":" +:+ t) with (password +:+ String ":"%char t).
      rewrite (split_at_sep _ _ _ Hpw). eauto. }
  destruct Hsplit as [more ->]. cbn [nth_error].
  split.
  - split.
    + intros H.
      destruct (bool_decide (Some user = Some (Auth.env_or ADMIN_USERNAME "admin"))) eqn:H1;
        [|discriminate].
      destruct (bool_decide (Some password =
                             Some (Auth.env_or ADMIN_PASSWORD "ship_ship_hooray_123"))) eqn:H2;
        [|discriminate].
      apply bool_decide_eq_true in H1, H2. split; congruence.
    + intros [-> ->]. by rewrite !bool_decide_eq_true_2.
  - intros H. destruct (_ && _)%bool; [done | reflexivity].
Qed.

Lemma X19_auth_credentials_checked_witness :
  Props.protected_path "/config" /\
  ~ Props.has_char ":"%char "admin" /\ ~ Props.has_char ":"%char "ship_ship_hooray_123" /\
  Props.ignored_tail ":anything" /\
  TwoHop.requireAuth (fun x => x) None None
    {| Auth.path := "/config";
       Auth.authorization := Some ("Basic " +:+ "admin:ship_ship_hooray_123:anything") |}
    = Auth.Next.
Proof.
  assert (H3 : Props.protected_path "/config").
  { intros p Hin. vm_compute in Hin.
    repeat (destruct Hin as [<-|Hin]; [reflexivity|]). destruct Hin. }
  assert (Hu : ~ Props.has_char ":"%char "admin").
  { vm_compute. intros H. repeat (destruct H as [H|H]; [discriminate|]). exact H. }
  assert (Hpw : ~ Props.has_char ":"%char "ship_ship_hooray_123").
  { vm_compute. intros H. repeat (destruct H as [H|H]; [discriminate|]). exact H. }
  assert (Ht : Props.ignored_tail ":anything") by (right; exists "anything"; reflexivity).
  split; [exact H3|]. split; [exact Hu|]. split; [exact Hpw|]. split; [exact Ht|].
  apply (proj1 (X19_auth_credentials_checked (fun x => x) None None "/config"
                  "admin:ship_ship_hooray_123:anything" "admin" "ship_ship_hooray_123"
                  ":anything" H3 Hu Hpw Ht eq_refl)).
  split; reflexivity.
Defined.

(** X20: a colon in the configured admin user or admin password locks
    the admin interface: on a protected path no Authorization header
    whatever is let through, since the decoded credentials are cut at
    every colon before they are compared. *)
Theorem X20_auth_colon_locks_out (decode : string -> string)
    (ADMIN_USERNAME ADMIN_PASSWORD : option string) (path : string)
    (authorization : option string) :
  Props.protected_path path ->
  Props.has_char ":"%char (Auth.env_or ADMIN_USERNAME "admin") \/
  Props.has_char ":"%char (Auth.env_or ADMIN_PASSWORD "ship_ship_hooray_123") ->
  exists text,
    TwoHop.requireAuth decode ADMIN_USERNAME ADMIN_PASSWORD
      {| Auth.path := path; Auth.authorization := authorization |} =
    Auth.Denied 401 Auth.realm text.
Proof.
  intros Hp Hcolon. unfold TwoHop.requireAuth. cbn [Auth.path Auth.authorization].
  rewrite (protected_existsb _ Hp).
  destruct authorization as [auth|]; [|eauto].
  destruct (String.eqb auth "" || negb (String.prefix "Basic " auth))%bool; [eauto|].
  set (credentials := Auth.split ":"%char (decode (drop_chars 6 auth))).
  destruct (bool_decide (nth_error credentials 0 = Some (Auth.env_or ADMIN_USERNAME "admin")))
    eqn:H1; [|eauto].
  destruct (bool_decide (nth_error credentials 1 =
                         Some (Auth.env_or ADMIN_PASSWORD "ship_ship_hooray_123")))
    eqn:H2; [|eauto].
  apply bool_decide_eq_true in H1, H2. exfalso.
  destruct Hcolon as [Hc|Hc].
  - apply nth_error_In in H1.
    exact (split_pieces_no_sep _ _ _ H1 Hc).
  - apply nth_error_In in H2.
    exact (split_pieces_no_sep _ _ _ H2 Hc).
Qed.

Lemma X20_auth_colon_locks_out_witness :
  Props.protected_path "/config" /\
  (Props.has_char ":"%char (Auth.env_or None "admin") \/
   Props.has_char ":"%char (Auth.env_or (Some "pa:ss") "ship_ship_hooray_123")) /\
  exists text,
    TwoHop.requireAuth (fun x => x) None (Some "pa:ss")
      {| Auth.path := "/config"; Auth.authorization := Some "Basic admin:pa:ss" |} =
    Auth.Denied 401 Auth.realm text.
Proof.
  assert (H3 : Props.protected_path "/config").
  { intros p Hin. vm_compute in Hin.
    repeat (destruct Hin as [<-|Hin]; [reflexivity|]). destruct Hin. }
  assert (Hc : Props.has_char ":"%char (Auth.env_or None "admin") \/
               Props.has_char ":"%char (Auth.env_or (Some "pa:ss") "ship_ship_hooray_123")).
  { right. vm_compute. tauto. }
  split; [exact H3|]. split; [exact Hc|].
  exact (X20_auth_colon_locks_out (fun x => x) None (Some "pa:ss") "/config"
           (Some "Basic admin:pa:ss") H3 Hc).
Defined.

(** ** The cache administration endpoints *)

Lemma glob_star (s : string) : Admin.glob "*" s = true.
Proof. induction s as [|c s IH]; [reflexivity | exact IH]. Qed.

Lemma glob_prefix_star (pre k : string) :
  ~ Props.has_char "*"%char pre -> ~ Props.has_char "?"%char pre ->
  Admin.glob (pre +:+ "*") k = String.prefix pre k.
Proof.
  unfold Props.has_char. revert k. induction pre as [|c pre IH]; intros k Hs Hq.
  - change ("" +:+ "*") with "*". rewrite glob_star. by destruct k.
  - change (String c pre +:+ "*") with (String c (pre +:+ "*")).
    assert (Hc1 : Ascii.eqb c "*"%char = false).
    { apply Ascii.eqb_neq. intros ->. apply Hs. by left. }
    assert (Hc2 : Ascii.eqb c "?"%char = false).
    { apply Ascii.eqb_neq. intros ->. apply Hq. by left. }
    cbn [Admin.glob]. rewrite Hc1.
    destruct k as [|d k]; [reflexivity|]. rewrite Hc2. cbn [orb String.prefix].
    rewrite IH by (intros Hin; first [apply Hs; by right | apply Hq; by right]).
    destruct (ascii_dec c d) as [->|Hne].
    + by rewrite Ascii.eqb_refl.
    + apply Ascii.eqb_neq in Hne. by rewrite Hne.
Qed.

Lemma twohop_pattern_prefix (k : string) :
  Admin.glob TwoHop.cache_pattern k = String.prefix "preproduct_variant_" k.
Proof.
  apply (glob_prefix_star "preproduct_variant_");
    vm_compute; intros H; repeat (destruct H as [H|H]; [discriminate|]); exact H.
Qed.

Lemma batch_pattern_prefix (k : string) :
  Admin.glob Batch.cache_pattern k = String.prefix "variant_po_" k.
Proof.
  apply (glob_prefix_star "variant_po_");
    vm_compute; intros H; repeat (destruct H as [H|H]; [discriminate|]); exact H.
Qed.

Lemma keys_matching_In (pattern : string) (st : gmap string (Z * string)) (k : string) :
  In k (Admin.keys_matching pattern st) <-> is_Some (st !! k) /\ Admin.glob pattern k = true.
Proof.
  unfold Admin.keys_matching. rewrite filter_In, in_map_iff. split.
  - intros [[[k' v] [Hk Hin]] Hg]. simpl in Hk. subst k'. split; [|exact Hg].
    apply list_elem_of_In, elem_of_map_to_list in Hin. by exists v.
  - intros [[v Hv] Hg]. split; [|exact Hg]. exists (k, v). split; [reflexivity|].
    by apply list_elem_of_In, elem_of_map_to_list.
Qed.

Lemma keys_matching_NoDup (pattern : string) (st : gmap string (Z * string)) :
  List.NoDup (Admin.keys_matching pattern st).
Proof.
  unfold Admin.keys_matching. apply List.NoDup_filter.
  pose proof (NoDup_fst_map_to_list st) as H. apply NoDup_ListNoDup in H.
  replace (map fst (map_to_list st)) with ((map_to_list st).*1); [exact H|].
  reflexivity.
Qed.

Lemma lookup_delete_keys (keys : list string) (st : gmap string (Z * string)) (k : string) :
  (In k keys -> fold_right (fun k m => delete k m) st keys !! k = None) /\
  (~ In k keys -> fold_right (fun k m => delete k m) st keys !! k = st !! k).
Proof.
  induction keys as [|k' keys [IH1 IH2]]; simpl.
  - split; [intros [] | reflexivity].
  - destruct (decide (k' = k)) as [->|Hne].
    + split; [intros _; by rewrite lookup_delete_eq | intros H; destruct H; by left].
    + rewrite lookup_delete_ne by exact Hne. split.
      * intros [Heq|Hin]; [done | by apply IH1].
      * intros Hn. apply IH2. intros Hin. apply Hn. by right.
Qed.

(** The store after deleting every key that matches a pattern. *)
Lemma lookup_cleared (pattern : string) (st : gmap string (Z * string)) (k : string) :
  fold_right (fun k m => delete k m) st (Admin.keys_matching pattern st) !! k =
  if Admin.glob pattern k then None else st !! k.
Proof.
  destruct (lookup_delete_keys (Admin.keys_matching pattern st) st k) as [H1 H2].
  destruct (Admin.glob pattern k) eqn:Hg.
  - destruct (st !! k) as [v|] eqn:Hk.
    + apply H1, keys_matching_In. split; [by exists v | exact Hg].
    + destruct (in_dec string_dec k (Admin.keys_matching pattern st)) as [Hin|Hn].
      * by apply H1.
      * by apply H2.
  - apply H2. intros Hin. apply keys_matching_In in Hin as [_ Hin]. congruence.
Qed.

(** Every run of the clear endpoint, for an arbitrary pattern. *)
Lemma cache_clear_cases (pattern : string) (c : Admin.Client) :
  exists resp c',
    try_catch
      (isReady <- Admin.ready ;;
       if negb isReady then
         ret (Admin.mkResponse 503 (Admin.ErrorBody "Redis not connected"))
       else
         keys <- Admin.redis_keys pattern ;;
         (if Nat.ltb 0 (length keys) then Admin.redis_del_keys keys else ret tt) ;;;
         ret (Admin.mkResponse 200 (Admin.ClearedBody (length keys))))
      (fun e => ret (Admin.mkResponse 500 (Admin.ErrorBody e))) c = (Ok resp, c') /\
    log (Admin.redis c') = log (Admin.redis c) /\
    Admin.isReady c' = Admin.isReady c /\
    (Admin.status resp = 200 \/ Admin.status resp = 500 \/ Admin.status resp = 503) /\
    (Admin.status resp = 503 <-> Admin.isReady c = false) /\
    (Admin.isReady c = false ->
     resp = Admin.mkResponse 503 (Admin.ErrorBody "Redis not connected") /\ c' = c) /\
    (Admin.isReady c = true -> faults (Admin.redis c) = [] ->
     Admin.status resp = 200 /\ faults (Admin.redis c') = []) /\
    (Admin.status resp = 200 ->
     resp = Admin.mkResponse 200
              (Admin.ClearedBody (length (Admin.keys_matching pattern (store (Admin.redis c))))) /\
     store (Admin.redis c') =
       fold_right (fun k m => delete k m) (store (Admin.redis c))
         (Admin.keys_matching pattern (store (Admin.redis c)))) /\
    (Admin.status resp <> 200 -> store (Admin.redis c') = store (Admin.redis c)).
Proof.
  destruct c as [[st fs lg] rdy alog].
  unfold try_catch, bind, Admin.ready, ret. cbn [Admin.isReady].
  destruct rdy; cbn [negb].
  2:{ eexists _, _. split; [reflexivity|]. cbn.
      repeat split; try done; auto; intros; try discriminate; try lia. }
  unfold Admin.redis_keys, Admin.redis_del_keys, Admin.call.
  cbn [Admin.redis Admin.isReady Admin.admin_log faults store log].
  set (keys := Admin.keys_matching pattern st).
  destruct fs as [|[] fs].
  - destruct (Nat.ltb 0 (length keys)) eqn:Hlen;
      cbn [Admin.redis Admin.isReady Admin.admin_log faults store log].
    + eexists _, _. split; [reflexivity|]. cbn.
      repeat split; try done; auto; intros; try discriminate; try lia.
    + eexists _, _. split; [reflexivity|]. cbn.
      assert (Hk : keys = []).
      { apply Nat.ltb_ge in Hlen. destruct keys; [reflexivity | simpl in Hlen; lia]. }
      repeat split; try done; auto; intros; try discriminate; try lia.
      by rewrite Hk.
  - eexists _, _. split; [reflexivity|]. cbn.
    repeat split; try done; auto; intros; try discriminate; try lia.
  - destruct (Nat.ltb 0 (length keys)) eqn:Hlen;
      cbn [Admin.redis Admin.isReady Admin.admin_log faults store log].
    + destruct fs as [|[] fs].
      * eexists _, _. split; [reflexivity|]. cbn.
        repeat split; try done; auto; intros; try discriminate; try lia.
      * eexists _, _. split; [reflexivity|]. cbn.
        repeat split; try done; auto; intros; try discriminate; try lia.
      * eexists _, _. split; [reflexivity|]. cbn.
        repeat split; try done; auto; intros; try discriminate; try lia.
    + eexists _, _. split; [reflexivity|]. cbn.
      assert (Hk : keys = []).
      { apply Nat.ltb_ge in Hlen. destruct keys; [reflexivity | simpl in Hlen; lia]. }
      repeat split; try done; auto; intros; try discriminate; try lia.
      by rewrite Hk.
Qed.

(** X21: with the client connected and a healthy backend, the clear
    endpoint of either variant answers 200 with the number of keys of
    the variant's cache namespace (each key of the store that begins
    with the prefix, counted once), and afterwards no key of the
    namespace is left while every other key holds what it held. *)
Theorem X21_cache_clear_empties_namespace (c : Admin.Client) :
  Admin.isReady c = true -> faults (Admin.redis c) = [] ->
  (exists keys c',
     TwoHop.post_cache_clear c =
       (Ok (Admin.mkResponse 200 (Admin.ClearedBody (length keys))), c') /\
     List.NoDup keys /\
     (forall k, In k keys <->
                is_Some (store (Admin.redis c) !! k) /\
                String.prefix "preproduct_variant_" k = true) /\
     (forall k, store (Admin.redis c') !! k =
                if String.prefix "preproduct_variant_" k then None
                else store (Admin.redis c) !! k) /\
     faults (Admin.redis c') = []) /\
  (exists keys c',
     Batch.post_cache_clear c =
       (Ok (Admin.mkResponse 200 (Admin.ClearedBody (length keys))), c') /\
     List.NoDup keys /\
     (forall k, In k keys <->
                is_Some (store (Admin.redis c) !! k) /\
                String.prefix "variant_po_" k = true) /\
     (forall k, store (Admin.redis c') !! k =
                if String.prefix "variant_po_" k then None
                else store (Admin.redis c) !! k) /\
     faults (Admin.redis c') = []).
Proof.
  intros Hr Hf. split.
  - destruct (cache_clear_cases TwoHop.cache_pattern c)
      as (resp & c' & Hrun & _ & _ & _ & _ & _ & Hok & H200 & _).
    destruct (Hok Hr Hf) as [Hs Hf']. destruct (H200 Hs) as [-> Hst].
    exists (Admin.keys_matching TwoHop.cache_pattern (store (Admin.redis c))), c'.
    split; [exact Hrun|]. split; [apply keys_matching_NoDup|].
    split; [intros k; rewrite keys_matching_In, twohop_pattern_prefix; reflexivity|].
    split; [|exact Hf'].
    intros k. rewrite Hst, lookup_cleared, twohop_pattern_prefix. reflexivity.
  - destruct (cache_clear_cases Batch.cache_pattern c)
      as (resp & c' & Hrun & _ & _ & _ & _ & _ & Hok & H200 & _).
    destruct (Hok Hr Hf) as [Hs Hf']. destruct (H200 Hs) as [-> Hst].
    exists (Admin.keys_matching Batch.cache_pattern (store (Admin.redis c))), c'.
    split; [exact Hrun|]. split; [apply keys_matching_NoDup|].
    split; [intros k; rewrite keys_matching_In, batch_pattern_prefix; reflexivity|].
    split; [|exact Hf'].
    intros k. rewrite Hst, lookup_cleared, batch_pattern_prefix. reflexivity.
Qed.

Lemma X21_cache_clear_empties_namespace_witness :
  Admin.isReady (Admin.mkClient Examples.redis_cached true []) = true /\
  faults (Admin.redis (Admin.mkClient Examples.redis_cached true [])) = [] /\
  store Examples.redis_cached !! TwoHop.cacheKey "789012" = Some (CACHE_TTL, "true") /\
  exists keys c',
    TwoHop.post_cache_clear (Admin.mkClient Examples.redis_cached true []) =
      (Ok (Admin.mkResponse 200 (Admin.ClearedBody (length keys))), c') /\
    In (TwoHop.cacheKey "789012") keys /\
    store (Admin.redis c') !! TwoHop.cacheKey "789012" = None.
Proof.
  split; [reflexivity|]. split; [reflexivity|].
  assert (Hst : store Examples.redis_cached !! TwoHop.cacheKey "789012" =
                Some (CACHE_TTL, "true")) by (vm_compute; reflexivity).
  split; [exact Hst|].
  destruct (proj1 (X21_cache_clear_empties_namespace
                     (Admin.mkClient Examples.redis_cached true []) eq_refl eq_refl))
    as (keys & c' & Hrun & _ & Hin & Hafter & _).
  exists keys, c'. split; [exact Hrun|]. split.
  - apply Hin. split; [eexists; exact Hst | reflexivity].
  - rewrite Hafter. reflexivity.
Defined.

(** X22: whatever the state of the client and of the backend, the clear
    endpoint of either variant answers (200, 500 or 503) and lets no
    exception escape; it answers 503 exactly when the client is not
    connected, and then issues no command at all; it never touches a key
    outside the variant's namespace (so neither variant clears entries of
    the other) nor the commands of the rate path; and unless the answer
    is 200 the store is what it was. *)
Theorem X22_cache_clear_contained (c : Admin.Client) :
  (exists resp c',
     TwoHop.post_cache_clear c = (Ok resp, c') /\
     (Admin.status resp = 200 \/ Admin.status resp = 500 \/ Admin.status resp = 503) /\
     (Admin.status resp = 503 <-> Admin.isReady c = false) /\
     (Admin.status resp = 503 -> c' = c) /\
     log (Admin.redis c') = log (Admin.redis c) /\
     (forall k, String.prefix "preproduct_variant_" k = false ->
                store (Admin.redis c') !! k = store (Admin.redis c) !! k) /\
     (forall id, store (Admin.redis c') !! Batch.cacheKey id =
                 store (Admin.redis c) !! Batch.cacheKey id) /\
     (Admin.status resp <> 200 -> store (Admin.redis c') = store (Admin.redis c))) /\
  (exists resp c',
     Batch.post_cache_clear c = (Ok resp, c') /\
     (Admin.status resp = 200 \/ Admin.status resp = 500 \/ Admin.status resp = 503) /\
     (Admin.status resp = 503 <-> Admin.isReady c = false) /\
     (Admin.status resp = 503 -> c' = c) /\
     log (Admin.redis c') = log (Admin.redis c) /\
     (forall k, String.prefix "variant_po_" k = false ->
                store (Admin.redis c') !! k = store (Admin.redis c) !! k) /\
     (forall id, store (Admin.redis c') !! TwoHop.cacheKey id =
                 store (Admin.redis c) !! TwoHop.cacheKey id) /\
     (Admin.status resp <> 200 -> store (Admin.redis c') = store (Admin.redis c))).
Proof.
  split.
  - destruct (cache_clear_cases TwoHop.cache_pattern c)
      as (resp & c' & Hrun & Hlog & _ & Hcodes & H503 & Hoff & _ & H200 & Hkeep).
    assert (Hout : forall k, String.prefix "preproduct_variant_" k = false ->
                     store (Admin.redis c') !! k = store (Admin.redis c) !! k).
    { intros k Hk. destruct (Z.eq_dec (Admin.status resp) 200) as [Hs|Hs].
      - destruct (H200 Hs) as [_ ->]. by rewrite lookup_cleared, twohop_pattern_prefix, Hk.
      - by rewrite (Hkeep Hs). }
    exists resp, c'. split; [exact Hrun|]. split; [exact Hcodes|]. split; [exact H503|].
    split; [intros Hs; apply Hoff, H503, Hs|]. split; [exact Hlog|].
    split; [exact Hout|]. split; [|exact Hkeep].
    intros id. apply Hout. reflexivity.
  - destruct (cache_clear_cases Batch.cache_pattern c)
      as (resp & c' & Hrun & Hlog & _ & Hcodes & H503 & Hoff & _ & H200 & Hkeep).
    assert (Hout : forall k, String.prefix "variant_po_" k = false ->
                     store (Admin.redis c') !! k = store (Admin.redis c) !! k).
    { intros k Hk. destruct (Z.eq_dec (Admin.status resp) 200) as [Hs|Hs].
      - destruct (H200 Hs) as [_ ->]. by rewrite lookup_cleared, batch_pattern_prefix, Hk.
      - by rewrite (Hkeep Hs). }
    exists resp, c'. split; [exact Hrun|]. split; [exact Hcodes|]. split; [exact H503|].
    split; [intros Hs; apply Hoff, H503, Hs|]. split; [exact Hlog|].
    split; [exact Hout|]. split; [|exact Hkeep].
    intros id. apply Hout. reflexivity.
Qed.

(** X24: clearing the cache makes the resolver ask again: after a
    successful clear (client connected, healthy backend), the resolver
    run for any request answers every requested id from the remote
    source (the two-hop variant with what the two lookups give, false
    when they fail; the batch variant with the flag of the well-formed
    answer that carries the id, for a source that so answers every
    query for requested ids that names the id) and stores that status
    again. *)
Theorem X24_cleared_cache_resolved_again (c : Admin.Client) (variantIds : list string)
    (id : string) (envA : TwoHop.Env) (envB : Batch.Env) (b : bool) :
  Admin.isReady c = true -> faults (Admin.redis c) = [] -> In id variantIds ->
  (exists resp c' results r2,
     TwoHop.post_cache_clear c = (Ok resp, c') /\ Admin.status resp = 200 /\
     TwoHop.getVariantPreOrderStatus envA variantIds (Admin.redis c') = (Ok results, r2) /\
     results !! id = Some (Spec.twohop_default envA id) /\
     store r2 !! TwoHop.cacheKey id =
       Some (CACHE_TTL, JSON_stringify (Spec.twohop_default envA id))) /\
  ((forall ids, In id ids -> incl ids variantIds ->
      Spec.batch_well_formed (batch_query envB ids) /\
      Props.batch_flags (batch_query envB ids) id b) ->
   exists resp c' results r2,
     Batch.post_cache_clear c = (Ok resp, c') /\ Admin.status resp = 200 /\
     Batch.getVariantPreOrderStatus envB variantIds (Admin.redis c') = (Ok results, r2) /\
     results !! id = Some b /\
     store r2 !! Batch.cacheKey id = Some (CACHE_TTL, JSON_stringify b)).
Proof.
  intros Hr Hf Hin. split.
  - destruct (cache_clear_cases TwoHop.cache_pattern c)
      as (resp & c' & Hrun & _ & _ & _ & _ & _ & Hok & H200 & _).
    destruct (Hok Hr Hf) as [Hs Hf1]. destruct (H200 Hs) as [_ Hst].
    assert (Hmiss : store (Admin.redis c') !! TwoHop.cacheKey id = None).
    { rewrite Hst, lookup_cleared, twohop_pattern_prefix.
      unfold TwoHop.cacheKey. by rewrite prefix_append. }
    destruct (twohop_resolver envA variantIds (Admin.redis c'))
      as (results & r2 & Hres & _ & _ & Hfresh).
    destruct (Hfresh _ Hin Hmiss) as [Hval _].
    pose proof (twohop_resolver_store envA variantIds (Admin.redis c') _ Hf1 Hin Hmiss)
      as Hstore.
    rewrite Hres in Hstore. cbn [snd] in Hstore.
    exists resp, c', results, r2. tauto.
  - intros Hanswer.
    destruct (cache_clear_cases Batch.cache_pattern c)
      as (resp & c' & Hrun & _ & _ & _ & _ & _ & Hok & H200 & _).
    destruct (Hok Hr Hf) as [Hs Hf1]. destruct (H200 Hs) as [_ Hst].
    assert (Hmiss : store (Admin.redis c') !! Batch.cacheKey id = None).
    { rewrite Hst, lookup_cleared, batch_pattern_prefix.
      unfold Batch.cacheKey. by rewrite prefix_append. }
    destruct (batch_resolver_flag envB variantIds (Admin.redis c') _ b Hin Hmiss Hanswer)
      as (results & r2 & Hres & Hval & _ & Hstore).
    exists resp, c', results, r2. tauto.
Qed.

Lemma X24_cleared_cache_resolved_again_witness :
  Admin.isReady (Admin.mkClient Examples.redis_cached true []) = true /\
  faults (Admin.redis (Admin.mkClient Examples.redis_cached true [])) = [] /\
  In "789013" ["789012"; "789013"] /\
  (exists resp c' results r2,
     TwoHop.post_cache_clear (Admin.mkClient Examples.redis_cached true []) = (Ok resp, c') /\
     Admin.status resp = 200 /\
     TwoHop.getVariantPreOrderStatus Examples.twohop_up ["789012"; "789013"]
       (Admin.redis c') = (Ok results, r2) /\
     results !! "789013" = Some (Spec.twohop_default Examples.twohop_up "789013") /\
     store r2 !! TwoHop.cacheKey "789013" =
       Some (CACHE_TTL, JSON_stringify (Spec.twohop_default Examples.twohop_up "789013"))) /\
  (exists resp c' results r2,
     Batch.post_cache_clear (Admin.mkClient Examples.redis_cached true []) = (Ok resp, c') /\
     Admin.status resp = 200 /\
     Batch.getVariantPreOrderStatus Examples.batch_shop ["789012"; "789013"]
       (Admin.redis c') = (Ok results, r2) /\
     results !! "789013" = Some true /\
     store r2 !! Batch.cacheKey "789013" = Some (CACHE_TTL, JSON_stringify true)).
Proof.
  split; [reflexivity|]. split; [reflexivity|]. split; [right; left; reflexivity|].
  split.
  - exact (proj1 (X24_cleared_cache_resolved_again
                    (Admin.mkClient Examples.redis_cached true []) ["789012"; "789013"]
                    "789013" Examples.twohop_up Examples.batch_shop true eq_refl eq_refl
                    (or_intror (or_introl eq_refl)))).
  - exact (proj2 (X24_cleared_cache_resolved_again
                    (Admin.mkClient Examples.redis_cached true []) ["789012"; "789013"]
                    "789013" Examples.twohop_up Examples.batch_shop true eq_refl eq_refl
                    (or_intror (or_introl eq_refl)))
             (fun ids Hin _ => batch_shop_answers ids Hin)).
Defined.

(** Every run of the stats endpoint, for an arbitrary pattern and body. *)
Lemma cache_stats_cases (info : string -> string) (pattern : string)
    (answer : bool -> nat -> string -> Admin.Body) (c : Admin.Client) :
  exists resp c',
    try_catch
      (isReady <- Admin.ready ;;
       if negb isReady then
         ret (Admin.mkResponse 503 (Admin.ErrorBody "Redis not connected"))
       else
         memory <- Admin.redis_info info "memory" ;;
         keys <- Admin.redis_keys pattern ;;
         isReady' <- Admin.ready ;;
         ret (Admin.mkResponse 200 (answer isReady' (length keys) memory)))
      (fun e => ret (Admin.mkResponse 500 (Admin.ErrorBody e))) c = (Ok resp, c') /\
    store (Admin.redis c') = store (Admin.redis c) /\
    log (Admin.redis c') = log (Admin.redis c) /\
    (Admin.isReady c = false ->
     resp = Admin.mkResponse 503 (Admin.ErrorBody "Redis not connected") /\ c' = c) /\
    (Admin.isReady c = true ->
     (faults (Admin.redis c) = [] ->
      resp = Admin.mkResponse 200
               (answer true (length (Admin.keys_matching pattern (store (Admin.redis c))))
                  (info "memory"))) /\
     (faulty (Admin.redis c) = true ->
      resp = Admin.mkResponse 500 (Admin.ErrorBody "Redis error") /\
      Admin.admin_log c' = Admin.admin_log c ++ [Admin.INFO "memory"])).
Proof.
  destruct c as [[st fs lg] rdy alog].
  unfold try_catch, bind, Admin.ready, ret. cbn [Admin.isReady].
  destruct rdy; cbn [negb].
  2:{ eexists _, _. split; [reflexivity|]. cbn. repeat split; try done. }
  unfold Admin.redis_keys, Admin.redis_info, Admin.call, faulty.
  cbn [Admin.redis Admin.isReady Admin.admin_log faults store log].
  destruct fs as [|[] [|[] fs]];
    cbn [Admin.redis Admin.isReady Admin.admin_log faults store log];
    (eexists _, _; split; [reflexivity|]; cbn; repeat split; try done).
Qed.

(** X23: the stats endpoint of either variant only looks: whatever the
    state of the client and of the backend, it answers without an
    exception and leaves the store and the commands of the rate path as
    they were. Not connected, it answers 503 and issues no command;
    connected with a healthy backend, it answers 200 with the number of
    keys of the variant's namespace (each key of the store with the
    prefix, once) and the memory section of INFO; when the first command
    meets a fault it answers 500 and KEYS is never issued. *)
Theorem X23_cache_stats_read_only (info : string -> string)
    (PREPRODUCT_API_TOKEN : option string) (c : Admin.Client) :
  (exists resp c',
     TwoHop.get_cache_stats info PREPRODUCT_API_TOKEN c = (Ok resp, c') /\
     store (Admin.redis c') = store (Admin.redis c) /\
     log (Admin.redis c') = log (Admin.redis c) /\
     (Admin.isReady c = false ->
      resp = Admin.mkResponse 503 (Admin.ErrorBody "Redis not connected") /\ c' = c) /\
     (Admin.isReady c = true -> faults (Admin.redis c) = [] ->
      exists keys,
        List.NoDup keys /\
        (forall k, In k keys <->
                   is_Some (store (Admin.redis c) !! k) /\
                   String.prefix "preproduct_variant_" k = true) /\
        resp = Admin.mkResponse 200
                 (Admin.StatsBody true (length keys) "preproduct_variant_" (info "memory")
                    (Some (match PREPRODUCT_API_TOKEN with
                           | None | Some "" => "missing"
                           | Some _ => "configured"
                           end)))) /\
     (Admin.isReady c = true -> faulty (Admin.redis c) = true ->
      resp = Admin.mkResponse 500 (Admin.ErrorBody "Redis error") /\
      Admin.admin_log c' = Admin.admin_log c ++ [Admin.INFO "memory"])) /\
  (exists resp c',
     Batch.get_cache_stats info c = (Ok resp, c') /\
     store (Admin.redis c') = store (Admin.redis c) /\
     log (Admin.redis c') = log (Admin.redis c) /\
     (Admin.isReady c = false ->
      resp = Admin.mkResponse 503 (Admin.ErrorBody "Redis not connected") /\ c' = c) /\
     (Admin.isReady c = true -> faults (Admin.redis c) = [] ->
      exists keys,
        List.NoDup keys /\
        (forall k, In k keys <->
                   is_Some (store (Admin.redis c) !! k) /\
                   String.prefix "variant_po_" k = true) /\
        resp = Admin.mkResponse 200
                 (Admin.StatsBody true (length keys) "variant_po_" (info "memory") None)) /\
     (Admin.isReady c = true -> faulty (Admin.redis c) = true ->
      resp = Admin.mkResponse 500 (Admin.ErrorBody "Redis error") /\
      Admin.admin_log c' = Admin.admin_log c ++ [Admin.INFO "memory"])).
Proof.
  split.
  - destruct (cache_stats_cases info TwoHop.cache_pattern
                (fun ready n memory =>
                   Admin.StatsBody ready n "preproduct_variant_" memory
                     (Some (match Install.truthy PREPRODUCT_API_TOKEN with
                            | Some _ => "configured"
                            | None => "missing"
                            end))) c)
      as (resp & c' & Hrun & Hst & Hlog & Hoff & Hon).
    exists resp, c'. split; [exact Hrun|]. split; [exact Hst|]. split; [exact Hlog|].
    split; [exact Hoff|]. split.
    + intros Hr Hf. destruct (Hon Hr) as [Hok _].
      exists (Admin.keys_matching TwoHop.cache_pattern (store (Admin.redis c))).
      split; [apply keys_matching_NoDup|].
      split; [intros k; rewrite keys_matching_In, twohop_pattern_prefix; reflexivity|].
      rewrite (Hok Hf). by destruct PREPRODUCT_API_TOKEN as [[|]|].
    + intros Hr Hf. destruct (Hon Hr) as [_ Hbad]. exact (Hbad Hf).
  - destruct (cache_stats_cases info Batch.cache_pattern
                (fun ready n memory => Admin.StatsBody ready n "variant_po_" memory None) c)
      as (resp & c' & Hrun & Hst & Hlog & Hoff & Hon).
    exists resp, c'. split; [exact Hrun|]. split; [exact Hst|]. split; [exact Hlog|].
    split; [exact Hoff|]. split.
    + intros Hr Hf. destruct (Hon Hr) as [Hok _].
      exists (Admin.keys_matching Batch.cache_pattern (store (Admin.redis c))).
      split; [apply keys_matching_NoDup|].
      split; [intros k; rewrite keys_matching_In, batch_pattern_prefix; reflexivity|].
      exact (Hok Hf).
    + intros Hr Hf. destruct (Hon Hr) as [_ Hbad]. exact (Hbad Hf).
Qed.

(** ** The installation endpoint *)

Lemma batch_install_same : Batch.post_install = TwoHop.post_install.
Proof. reflexivity. Qed.

Lemma truthy_nonempty (s : string) : s <> "" -> Install.truthy (Some s) = Some s.
Proof. by destruct s. Qed.

(** The installation handler once both parameters are present. *)
Lemma install_run (env : Install.Env) (APP_DOMAIN : option string) (body : Install.Body)
    (shop token : string) (calls : list Install.Call) :
  Install.shop body = Some shop -> Install.accessToken body = Some token ->
  shop <> "" -> token <> "" ->
  TwoHop.post_install env APP_DOMAIN body calls =
  let first := Install.RegisterCarrierService shop token
                 (Install.template APP_DOMAIN +:+ "/rates") in
  let second := Install.RegisterWebhook shop token
                  (Install.template APP_DOMAIN +:+ "/webhook/product-update") in
  let failed e := Ok (Install.mkResponse 500 (Install.InstallationFailed e)) in
  match Install.carrier_services env shop token with
  | Install.Rejected message => (failed message, calls ++ [first])
  | Install.Answered r =>
      if Install.ok r then
        match Install.json r with
        | None => (failed "invalid json response body", calls ++ [first])
        | Some carrierService =>
            match Install.webhooks env shop token with
            | Install.Rejected message => (failed message, (calls ++ [first]) ++ [second])
            | Install.Answered w =>
                if Install.ok w then
                  match Install.json w with
                  | None => (failed "invalid json response body",
                             (calls ++ [first]) ++ [second])
                  | Some webhook =>
                      (Ok (Install.mkResponse 200
                             (Install.Installed carrierService (Some webhook)
                                "Ship Ship Hooray installed successfully")),
                       (calls ++ [first]) ++ [second])
                  end
                else
                  (Ok (Install.mkResponse 200
                         (Install.Installed carrierService None
                            "Ship Ship Hooray installed successfully")),
                   (calls ++ [first]) ++ [second])
            end
        end
      else
        (failed ("CarrierService create failed: " +:+
                 Number_toString (Install.status r) +:+ " " +:+ Install.text r),
         calls ++ [first])
  end.
Proof.
  intros Hs Ht Hs' Ht'. unfold TwoHop.post_install.
  rewrite Hs, Ht, (truthy_nonempty _ Hs'), (truthy_nonempty _ Ht').
  unfold try_catch, bind, Install.send, Install.response_json, throw, ret.
  destruct (Install.carrier_services env shop token) as [msg|r]; [reflexivity|].
  destruct (Install.ok r); cbn [negb]; [|reflexivity].
  destruct (Install.json r) as [j|]; [|reflexivity].
  destruct (Install.webhooks env shop token) as [msg|w]; [reflexivity|].
  destruct (Install.ok w); [|reflexivity].
  destruct (Install.json w) as [jw|]; reflexivity.
Qed.

(** X25: the installation endpoint of either variant sends nothing when
    the shop or the access token is missing or empty and answers 400;
    with both present it first registers the carrier service, with the
    callback URL [APP_DOMAIN/rates], and when that request is rejected,
    answered with a non-2xx status or answered with a body that is not
    JSON, it answers 500 with the reason and never attempts the webhook
    registration. *)
Theorem X25_install_stops_at_carrier_failure (env : Install.Env)
    (APP_DOMAIN : option string) (body : Install.Body) (calls : list Install.Call) :
  (Install.truthy (Install.shop body) = None \/
   Install.truthy (Install.accessToken body) = None ->
   TwoHop.post_install env APP_DOMAIN body calls =
     (Ok (Install.mkResponse 400 Install.MissingParameters), calls) /\
   Batch.post_install env APP_DOMAIN body calls =
     (Ok (Install.mkResponse 400 Install.MissingParameters), calls)) /\
  (forall shop token,
     Install.shop body = Some shop -> Install.accessToken body = Some token ->
     shop <> "" -> token <> "" ->
     forall details,
       match Install.carrier_services env shop token with
       | Install.Rejected message => details = message
       | Install.Answered r =>
           (Install.ok r = false /\
            details = "CarrierService create failed: " +:+
                      Number_toString (Install.status r) +:+ " " +:+ Install.text r) \/
           (Install.ok r = true /\ Install.json r = None /\
            details = "invalid json response body")
       end ->
       TwoHop.post_install env APP_DOMAIN body calls =
         (Ok (Install.mkResponse 500 (Install.InstallationFailed details)),
          calls ++ [Install.RegisterCarrierService shop token
                      (Install.template APP_DOMAIN +:+ "/rates")]) /\
       Batch.post_install env APP_DOMAIN body calls =
         (Ok (Install.mkResponse 500 (Install.InstallationFailed details)),
          calls ++ [Install.RegisterCarrierService shop token
                      (Install.template APP_DOMAIN +:+ "/rates")])).
Proof.
  split.
  - intros Hmiss. rewrite batch_install_same.
    assert (H : TwoHop.post_install env APP_DOMAIN body calls =
                (Ok (Install.mkResponse 400 Install.MissingParameters), calls)).
    { unfold TwoHop.post_install, try_catch.
      destruct Hmiss as [-> | Ht]; [reflexivity|].
      rewrite Ht. by destruct (Install.truthy (Install.shop body)). }
    by rewrite H.
  - intros shop token Hs Ht Hs' Ht' details Hfail. rewrite batch_install_same.
    rewrite (install_run env APP_DOMAIN body shop token calls Hs Ht Hs' Ht'). cbv zeta.
    destruct (Install.carrier_services env shop token) as [msg|r].
    + by subst details.
    + destruct Hfail as [[Hok ->] | (Hok & Hj & ->)]; rewrite Hok; [done|].
      by rewrite Hj.
Qed.

(** X26: once the carrier service is registered (2xx with a JSON body),
    the installation endpoint of either variant sends exactly one more
    request, the webhook registration for [APP_DOMAIN/webhook/product-update].
    A webhook registration that Shopify refuses with a non-2xx status
    does not fail the installation: the answer is 200 with webhook null.
    A rejected request or a 2xx answer that is not JSON gives 500,
    although the carrier service stays registered. With [APP_DOMAIN]
    unset the two URLs registered begin with the text undefined. *)
Theorem X26_install_webhook_stage (env : Install.Env) (APP_DOMAIN : option string)
    (body : Install.Body) (calls : list Install.Call) (shop token : string)
    (r : Install.ApiResponse) (carrierService : string) :
  Install.shop body = Some shop -> Install.accessToken body = Some token ->
  shop <> "" -> token <> "" ->
  Install.carrier_services env shop token = Install.Answered r ->
  Install.ok r = true -> Install.json r = Some carrierService ->
  exists resp,
    TwoHop.post_install env APP_DOMAIN body calls =
      (Ok resp,
       calls ++ [Install.RegisterCarrierService shop token
                   (Install.template APP_DOMAIN +:+ "/rates");
                 Install.RegisterWebhook shop token
                   (Install.template APP_DOMAIN +:+ "/webhook/product-update")]) /\
    Batch.post_install env APP_DOMAIN body calls =
      TwoHop.post_install env APP_DOMAIN body calls /\
    (APP_DOMAIN = None ->
     Install.template APP_DOMAIN +:+ "/rates" = "undefined/rates" /\
     Install.template APP_DOMAIN +:+ "/webhook/product-update" =
       "undefined/webhook/product-update") /\
    match Install.webhooks env shop token with
    | Install.Rejected message =>
        resp = Install.mkResponse 500 (Install.InstallationFailed message)
    | Install.Answered w =>
        if Install.ok w then
          match Install.json w with
          | Some webhook =>
              resp = Install.mkResponse 200
                       (Install.Installed carrierService (Some webhook)
                          "Ship Ship Hooray installed successfully")
          | None =>
              resp = Install.mkResponse 500
                       (Install.InstallationFailed "invalid json response body")
          end
        else
          resp = Install.mkResponse 200
                   (Install.Installed carrierService None
                      "Ship Ship Hooray installed successfully")
    end.
Proof.
  intros Hs Ht Hs' Ht' Hc Hok Hj. rewrite batch_install_same.
  rewrite (install_run env APP_DOMAIN body shop token calls Hs Ht Hs' Ht'). cbv zeta.
  rewrite Hc, Hok, Hj.
  assert (Happ : forall (a b : Install.Call), (calls ++ [a]) ++ [b] = calls ++ [a; b]).
  { intros a b. by rewrite <- List.app_assoc. }
  rewrite Happ.
  assert (Hdom : APP_DOMAIN = None ->
                 Install.template APP_DOMAIN +:+ "/rates" = "undefined/rates" /\
                 Install.template APP_DOMAIN +:+ "/webhook/product-update" =
                   "undefined/webhook/product-update").
  { intros ->. split; reflexivity. }
  destruct (Install.webhooks env shop token) as [msg|w].
  - eexists. split; [reflexivity|]. split; [reflexivity|]. split; [exact Hdom | reflexivity].
  - destruct (Install.ok w).
    + destruct (Install.json w) as [jw|];
        (eexists; split; [reflexivity|]; split; [reflexivity|];
         split; [exact Hdom | reflexivity]).
    + eexists. split; [reflexivity|]. split; [reflexivity|].
      split; [exact Hdom | reflexivity].
Qed.

Lemma X26_install_webhook_stage_witness :
  exists resp,
    TwoHop.post_install
      {| Install.carrier_services := fun _ _ =>
           Install.Answered (Install.mkApiResponse true 201 "{}" (Some "{}"));
         Install.webhooks := fun _ _ =>
           Install.Answered (Install.mkApiResponse false 422 "taken" None) |}
      None {| Install.shop := Some "a.myshopify.com"; Install.accessToken := Some "t" |} [] =
      (Ok resp,
       [] ++ [Install.RegisterCarrierService "a.myshopify.com" "t"
                (Install.template None +:+ "/rates");
              Install.RegisterWebhook "a.myshopify.com" "t"
                (Install.template None +:+ "/webhook/product-update")]) /\
    resp = Install.mkResponse 200
             (Install.Installed "{}" None "Ship Ship Hooray installed successfully").
Proof.
  destruct (X26_install_webhook_stage
              {| Install.carrier_services := fun _ _ =>
                   Install.Answered (Install.mkApiResponse true 201 "{}" (Some "{}"));
                 Install.webhooks := fun _ _ =>
                   Install.Answered (Install.mkApiResponse false 422 "taken" None) |}
              None {| Install.shop := Some "a.myshopify.com"; Install.accessToken := Some "t" |}
              [] "a.myshopify.com" "t" (Install.mkApiResponse true 201 "{}" (Some "{}")) "{}"
              eq_refl eq_refl ltac:(discriminate) ltac:(discriminate)
              eq_refl eq_refl eq_refl)
    as (resp & Hrun & _ & _ & Hresp).
  exists resp. split; [exact Hrun | exact Hresp].
Defined.
